(** * VXLAN tunnel endpoint (drivers/net/vxlan.c): forwarding database,
      receive decoder, transmit parameters and endpoint validation.

    The development is a shallow embedding of the driver.  Integers of the
    C code are [Z] with the wrap-around of their width written out where the
    code does arithmetic on them; values in network byte order ([__be16],
    [__be32]) are carried as the number they denote on the wire, so that
    [htons]/[htonl]/[ntohl] only truncate to their width.  The 256 hash
    chains of the forwarding table are a vector of lists, the destination
    list of an entry is a list, and pointers to entries are replaced by the
    position the lookup finds (the first entry of the chain with the MAC). *)

From Stdlib Require Import ZArith Lia Bool List.
From stdpp Require Import base tactics option list vector.
Import ListNotations.
Local Open Scope Z_scope.

(** ** Machine integers *)

Definition u8 (z : Z) : Z := z mod 2 ^ 8.
Definition u16 (z : Z) : Z := z mod 2 ^ 16.
Definition u32 (z : Z) : Z := z mod 2 ^ 32.
Definition u64 (z : Z) : Z := z mod 2 ^ 64.

(** [unsigned long] and [long] of a 64-bit build. *)
Definition BITS_PER_LONG : Z := 64.
Definition ulong (z : Z) : Z := z mod 2 ^ BITS_PER_LONG.
Definition long (z : Z) : Z :=
  (z + 2 ^ (BITS_PER_LONG - 1)) mod 2 ^ BITS_PER_LONG - 2 ^ (BITS_PER_LONG - 1).
#[global] Arguments u8 : simpl never.
#[global] Arguments u16 : simpl never.
#[global] Arguments u32 : simpl never.
#[global] Arguments u64 : simpl never.
#[global] Arguments ulong : simpl never.
#[global] Arguments long : simpl never.

(** [flags & BIT] used as a C condition. *)
Definition test (word bit : Z) : bool := negb (Z.land word bit =? 0).

(** ** Constants of the driver *)

Definition FDB_HASH_BITS : Z := 8.
Definition FDB_HASH_SIZE : nat := 256.
Definition FDB_AGE_DEFAULT : Z := 300.

Definition VXLAN_N_VID : Z := Z.shiftl 1 24.
Definition VXLAN_VID_MASK : Z := VXLAN_N_VID - 1.
Definition VXLAN_FLAGS : Z := 0x08000000.
Definition ETH_ALEN : Z := 6.
(** [sizeof(struct udphdr) + sizeof(struct vxlanhdr)] *)
Definition VXLAN_HLEN : Z := 8 + 8.

Definition VXLAN_F_LEARN : Z := 0x01.
Definition VXLAN_F_L3MISS : Z := 0x10.

(** Modelled from the spec: the kernel ABI constants the driver takes from
    headers that are not among the sources (linux/netlink.h,
    linux/neighbour.h, linux/rtnetlink.h, errno).  The spec names them
    (CREATE, EXCL, REPLACE, APPEND; REACHABLE, STALE, NOARP, PERMANENT;
    ROUTER, SELF; NEWNEIGH, DELNEIGH); the values are those of the ABI. *)
Definition NLM_F_REPLACE : Z := 0x100.
Definition NLM_F_EXCL : Z := 0x200.
Definition NLM_F_CREATE : Z := 0x400.
Definition NLM_F_APPEND : Z := 0x800.

Definition NUD_REACHABLE : Z := 0x02.
Definition NUD_STALE : Z := 0x04.
Definition NUD_NOARP : Z := 0x40.
Definition NUD_PERMANENT : Z := 0x80.

Definition NTF_SELF : Z := 0x02.

Definition RTM_NEWNEIGH : Z := 28.
Definition RTM_DELNEIGH : Z := 29.
Definition RTM_GETNEIGH : Z := 30.

Definition ENOENT : Z := 2.
Definition ENOMEM : Z := 12.
Definition EEXIST : Z := 17.
Definition EINVAL : Z := 22.
Definition ENOSPC : Z := 28.
Definition ERANGE : Z := 34.
Definition EOPNOTSUPP : Z := 95.
Definition EADDRNOTAVAIL : Z := 99.
Definition ENOBUFS : Z := 105.

(** ** Ethernet addresses: [u8 addr[ETH_ALEN]] *)

Record ether_addr : Type := EtherAddr {
  octet0 : Z; octet1 : Z; octet2 : Z; octet3 : Z; octet4 : Z; octet5 : Z
}.

#[global] Instance ether_addr_eq_dec : EqDecision ether_addr.
Proof. solve_decision. Defined.

Definition all_zeros_mac : ether_addr := EtherAddr 0 0 0 0 0 0.

(** Modelled from the spec: the helpers of linux/etherdevice.h, which is not
    part of the sources.  A multicast address has the low bit of its first
    octet set, the all-zero address has every octet zero, and
    [compare_ether_addr] returns 0 exactly on equal addresses. *)
Definition is_multicast_ether_addr (a : ether_addr) : bool :=
  negb (Z.land 0x01 (octet0 a) =? 0).

Definition is_zero_ether_addr (a : ether_addr) : bool :=
  Z.lor (octet0 a) (Z.lor (octet1 a) (Z.lor (octet2 a)
    (Z.lor (octet3 a) (Z.lor (octet4 a) (octet5 a))))) =? 0.

Definition compare_ether_addr (a b : ether_addr) : Z :=
  if decide (a = b) then 0 else 1.

Definition is_valid_ether_addr (a : ether_addr) : bool :=
  negb (is_multicast_ether_addr a) && negb (is_zero_ether_addr a).

(** ** Wire codec: the receive-side decoder *)

(** The part of [struct sk_buff] the driver reads: the octets from
    [skb->data] on (numbers in 0..255) and [skb->protocol].  On receive
    [data] starts at the UDP header, on transmit at the inner Ethernet
    header. *)
Record sk_buff : Type := SkBuff {
  data : list Z;
  protocol : Z
}.

Definition pskb_may_pull (skb : sk_buff) (len : Z) : bool :=
  len <=? Z.of_nat (length (data skb)).

Definition octet_at (data : list Z) (off : nat) : Z := nth off data 0.

(** The big-endian 32-bit word at [off], as the number on the wire. *)
Definition be32_at (data : list Z) (off : nat) : Z :=
  Z.lor (Z.shiftl (octet_at data off) 24)
    (Z.lor (Z.shiftl (octet_at data (off + 1)) 16)
       (Z.lor (Z.shiftl (octet_at data (off + 2)) 8)
          (octet_at data (off + 3)))).

(** [struct vxlanhdr] behind the UDP header: [(udp_hdr(skb) + 1)]. *)
Definition vx_flags (skb : sk_buff) : Z := be32_at (data skb) 8.
Definition vx_vni (skb : sk_buff) : Z := be32_at (data skb) 12.

(** What became of the buffer when [vxlan_udp_encap_recv] returns. *)
Inductive recv_disposition : Type :=
  | RETURNED_TO_UDP          (* label error: the skb is still the caller's *)
  | CONSUMED                 (* label drop: kfree_skb *)
  | RECEIVED (vni_word : Z)  (* vs->rcv(vs, skb, vxh->vx_vni) *).

(** [vxlan_udp_encap_recv].  [pull_err] is the result of
    [iptunnel_pull_header] and [vs] that of [vxlan_find_sock]; both belong
    to code outside the driver. *)
Definition vxlan_udp_encap_recv (pull_err : Z) (vs : bool) (skb : sk_buff)
  : Z * recv_disposition :=
  if negb (pskb_may_pull skb VXLAN_HLEN) then (1, RETURNED_TO_UDP)
  else if negb (vx_flags skb =? VXLAN_FLAGS)
          || negb (Z.land (vx_vni skb) 0xff =? 0)
  then (1, RETURNED_TO_UDP)
  else if negb (pull_err =? 0) then (0, CONSUMED)
  else if negb vs then (0, CONSUMED)
  else (0, RECEIVED (vx_vni skb)).

(** The outcomes of the codec in the words of the specification, and
    [vxlan_udp_encap_recv] read in them: a buffer handed back is not-VXLAN,
    a buffer consumed is a drop, and the VNI of a packet received is what
    [vxlan_rcv] takes from the word, [ntohl(vx_vni) >> 8]. *)
Inductive decode_result : Type :=
  | NotVxlan
  | ProtocolError
  | Decoded (vni : Z).

Definition decode (pull_err : Z) (vs : bool) (skb : sk_buff) : decode_result :=
  match vxlan_udp_encap_recv pull_err vs skb with
  | (_, RETURNED_TO_UDP) => NotVxlan
  | (_, CONSUMED) => ProtocolError
  | (_, RECEIVED w) => Decoded (Z.shiftr (u32 w) 8)
  end.

(** ** Endpoint validation *)

(** The attributes [vxlan_validate] looks at: [tb[IFLA_ADDRESS]] (length and
    octets) and, inside [data], [IFLA_VXLAN_ID] and [IFLA_VXLAN_PORT_RANGE]. *)
Record vxlan_attrs : Type := VxlanAttrs {
  IFLA_VXLAN_ID : option Z;
  IFLA_VXLAN_PORT_RANGE : option (Z * Z)   (* low, high *)
}.

Definition vxlan_validate (IFLA_ADDRESS : option (Z * ether_addr))
    (data : option vxlan_attrs) : Z :=
  match (match IFLA_ADDRESS with
         | Some (len, addr) =>
             if negb (len =? ETH_ALEN) then Some (- EINVAL)
             else if negb (is_valid_ether_addr addr) then Some (- EADDRNOTAVAIL)
             else None
         | None => None
         end) with
  | Some err => err
  | None =>
      match data with
      | None => - EINVAL
      | Some data =>
          match (match IFLA_VXLAN_ID data with
                 | Some id => if id >=? VXLAN_VID_MASK then Some (- ERANGE) else None
                 | None => None
                 end) with
          | Some err => err
          | None =>
              match IFLA_VXLAN_PORT_RANGE data with
              | Some (low, high) => if high <? low then - EINVAL else 0
              | None => 0
              end
          end
      end
  end.

(** ** Forwarding database: data *)

(** [struct vxlan_rdst]; the list linkage is the list an entry holds. *)
Record vxlan_rdst : Type := Rdst {
  remote_ip : Z;
  remote_port : Z;
  remote_vni : Z;
  remote_ifindex : Z
}.

#[global] Instance vxlan_rdst_eq_dec : EqDecision vxlan_rdst.
Proof. solve_decision. Defined.

(** [struct vxlan_fdb], fields in the order of the source. *)
Record vxlan_fdb : Type := Fdb {
  updated : Z;
  used : Z;
  remotes : list vxlan_rdst;
  state : Z;
  flags : Z;
  eth_addr : ether_addr
}.

#[global] Instance vxlan_fdb_eq_dec : EqDecision vxlan_fdb.
Proof. solve_decision. Defined.

Definition set_updated (j : Z) (f : vxlan_fdb) : vxlan_fdb :=
  Fdb j (used f) (remotes f) (state f) (flags f) (eth_addr f).
Definition set_used (j : Z) (f : vxlan_fdb) : vxlan_fdb :=
  Fdb (updated f) j (remotes f) (state f) (flags f) (eth_addr f).
Definition set_remotes (l : list vxlan_rdst) (f : vxlan_fdb) : vxlan_fdb :=
  Fdb (updated f) (used f) l (state f) (flags f) (eth_addr f).
Definition set_state (st : Z) (f : vxlan_fdb) : vxlan_fdb :=
  Fdb (updated f) (used f) (remotes f) st (flags f) (eth_addr f).
Definition set_flags (fl : Z) (f : vxlan_fdb) : vxlan_fdb :=
  Fdb (updated f) (used f) (remotes f) (state f) fl (eth_addr f).

(** The part of [struct net_device] the driver reads: the
    [__LINK_STATE_START] bit behind [netif_running] and the device address. *)
Record net_device : Type := NetDevice {
  __LINK_STATE_START : bool;
  dev_addr : ether_addr
}.

Definition netif_running (dev : net_device) : bool := __LINK_STATE_START dev.

(** [struct vxlan_dev].  The field [flags] of the source is [vflags] here,
    [age_timer] holds the expiry of the pending timer, and [vn_sock] tells
    whether the listening socket is attached. *)
Record vxlan_dev : Type := VxlanDev {
  vn_sock : bool;
  dev : net_device;
  default_dst : vxlan_rdst;
  saddr : Z;
  dst_port : Z;
  port_min : Z;
  port_max : Z;
  tos : Z;
  ttl : Z;
  vflags : Z;
  age_interval : Z;
  age_timer : option Z;
  addrcnt : Z;
  addrmax : Z;
  fdb_head : vec (list vxlan_fdb) FDB_HASH_SIZE
}.

Definition set_fdb (cnt : Z) (tbl : vec (list vxlan_fdb) FDB_HASH_SIZE)
    (v : vxlan_dev) : vxlan_dev :=
  VxlanDev (vn_sock v) (dev v) (default_dst v) (saddr v) (dst_port v)
    (port_min v) (port_max v) (tos v) (ttl v) (vflags v) (age_interval v)
    (age_timer v) cnt (addrmax v) tbl.

Definition set_age_timer (t : option Z) (v : vxlan_dev) : vxlan_dev :=
  VxlanDev (vn_sock v) (dev v) (default_dst v) (saddr v) (dst_port v)
    (port_min v) (port_max v) (tos v) (ttl v) (vflags v) (age_interval v)
    t (addrcnt v) (addrmax v) (fdb_head v).

(** The driver state together with its environment: [atomic_pool] lists the
    outcomes of the coming [kmalloc(..., GFP_ATOMIC)] calls, oldest first
    (past the end of the list allocations succeed); [rtnl] is the log of
    neighbour notifications sent, newest first, each with the entry as it
    was when notified. *)
Record world : Type := World {
  vxlan : vxlan_dev;
  atomic_pool : list bool;
  rtnl : list (Z * vxlan_fdb)
}.

Definition set_vxlan (v : vxlan_dev) (w : world) : world :=
  World v (atomic_pool w) (rtnl w).
Definition set_pool (p : list bool) (w : world) : world :=
  World (vxlan w) p (rtnl w).

Definition kmalloc (pool : list bool) : bool * list bool :=
  match pool with
  | [] => (true, [])
  | ok :: pool' => (ok, pool')
  end.

(** [vxlan_fdb_notify]: the message is built from the entry and multicast
    to RTNLGRP_NEIGH.  The buffer of the message is netlink's own and is not
    drawn from [atomic_pool]; a message that cannot be built only sets the
    error of the socket and touches nothing of the driver. *)
Definition vxlan_fdb_notify (w : world) (f : vxlan_fdb) (type : Z) : world :=
  World (vxlan w) (atomic_pool w) ((type, f) :: rtnl w).

(** ** Forwarding database: hashing and lookup *)

(** Modelled from the spec: [hash_64] of linux/hash.h is not part of the
    sources.  The spec asks for a 64-bit hash of the MAC folded to 8 bits
    and leaves the function open; this is the multiplicative hash with the
    64-bit golden-ratio prime, keeping the top [bits] bits. *)
Definition GOLDEN_RATIO_PRIME_64 : Z := 0x9e37fffffffc0001.
Definition hash_64 (val bits : Z) : Z :=
  Z.shiftr (u64 (val * GOLDEN_RATIO_PRIME_64)) (64 - bits).

(** [eth_hash], little-endian build: the unaligned 64-bit load takes the six
    address octets and the two octets behind them, which [value <<= 16]
    shifts out of the word again. *)
Definition eth_hash (addr : ether_addr) : Z :=
  let value :=
    Z.lor (octet0 addr) (Z.lor (Z.shiftl (octet1 addr) 8)
      (Z.lor (Z.shiftl (octet2 addr) 16) (Z.lor (Z.shiftl (octet3 addr) 24)
        (Z.lor (Z.shiftl (octet4 addr) 32) (Z.shiftl (octet5 addr) 40))))) in
  let value := u64 (Z.shiftl value 16) in
  hash_64 value FDB_HASH_BITS.

(** Index [i] of an array of [S n] elements. *)
Fixpoint array_index (n : nat) (i : nat) : fin (S n) :=
  match n, i with
  | S n', S i' => FS (array_index n' i')
  | _, _ => 0%fin
  end.

Definition fdb_index (mac : ether_addr) : fin FDB_HASH_SIZE :=
  array_index 255 (Z.to_nat (eth_hash mac)).
#[global] Arguments fdb_index : simpl never.

(** [vxlan_fdb_head]: the hash chain to use for a MAC. *)
Definition vxlan_fdb_head (v : vxlan_dev) (mac : ether_addr) : list vxlan_fdb :=
  fdb_head v !!! fdb_index mac.

Definition mac_is (mac : ether_addr) (f : vxlan_fdb) : bool :=
  compare_ether_addr mac (eth_addr f) =? 0.

(** [__vxlan_find_mac]: the first entry of the chain with the address. *)
Definition __vxlan_find_mac (v : vxlan_dev) (mac : ether_addr) : option vxlan_fdb :=
  find (mac_is mac) (vxlan_fdb_head v mac).

(** A store through the pointer [__vxlan_find_mac] returned: the first entry
    of the chain with the address becomes [f']. *)
Fixpoint hlist_store (mac : ether_addr) (f' : vxlan_fdb) (chain : list vxlan_fdb)
  : list vxlan_fdb :=
  match chain with
  | [] => []
  | f :: n => if mac_is mac f then f' :: n else f :: hlist_store mac f' n
  end.

(** [hlist_del_rcu] of the entry the lookup returned. *)
Fixpoint hlist_del (mac : ether_addr) (chain : list vxlan_fdb) : list vxlan_fdb :=
  match chain with
  | [] => []
  | f :: n => if mac_is mac f then n else f :: hlist_del mac n
  end.

Definition fdb_write (mac : ether_addr) (f' : vxlan_fdb) (v : vxlan_dev) : vxlan_dev :=
  set_fdb (addrcnt v)
    (vinsert (fdb_index mac) (hlist_store mac f' (vxlan_fdb_head v mac)) (fdb_head v)) v.

(** [vxlan_find_mac]: a hit refreshes [used]. *)
Definition vxlan_find_mac (jiffies : Z) (v : vxlan_dev) (mac : ether_addr)
  : vxlan_dev * option vxlan_fdb :=
  match __vxlan_find_mac v mac with
  | Some f => let f := set_used jiffies f in (fdb_write mac f v, Some f)
  | None => (v, None)
  end.

(** Every entry of the table, chain after chain. *)
Definition fdb_entries (v : vxlan_dev) : list vxlan_fdb :=
  concat (vec_to_list (fdb_head v)).

(** ** Forwarding database: destinations of an entry *)

Definition rdst_is (ip port vni ifindex : Z) (rd : vxlan_rdst) : bool :=
  (remote_ip rd =? ip) && (remote_port rd =? port) &&
  (remote_vni rd =? vni) && (remote_ifindex rd =? ifindex).

(** [vxlan_fdb_find_rdst] *)
Definition vxlan_fdb_find_rdst (f : vxlan_fdb) (ip port vni ifindex : Z)
  : option vxlan_rdst :=
  find (rdst_is ip port vni ifindex) (remotes f).

(** [first_remote_rcu], [first_remote_rtnl]: the entry behind
    [remotes.next].  On an empty list the C expression yields a pointer into
    the entry itself; that undefined read is [None]. *)
Definition first_remote_rcu (f : vxlan_fdb) : option vxlan_rdst := head (remotes f).

(** [vxlan_fdb_replace]: the entry after the call and the return value. *)
Definition vxlan_fdb_replace (f : vxlan_fdb) (ip port vni ifindex : Z)
  : vxlan_fdb * Z :=
  match vxlan_fdb_find_rdst f ip port vni ifindex with
  | Some _ => (f, 0)
  | None =>
      match remotes f with
      | [] => (f, 0)
      | _ :: rest => (set_remotes (Rdst ip port vni ifindex :: rest) f, 1)
      end
  end.

(** [vxlan_fdb_append]: the allocation pool, the entry and the return value. *)
Definition vxlan_fdb_append (pool : list bool) (f : vxlan_fdb)
    (ip port vni ifindex : Z) : list bool * vxlan_fdb * Z :=
  match vxlan_fdb_find_rdst f ip port vni ifindex with
  | Some _ => (pool, f, 0)
  | None =>
      let '(ok, pool) := kmalloc pool in
      if negb ok then (pool, f, - ENOBUFS)
      else (pool, set_remotes (remotes f ++ [Rdst ip port vni ifindex]) f, 1)
  end.

(** ** Forwarding database: create, destroy *)

(** Control flow of a C block that may [return] early. *)
Inductive flow (A R : Type) : Type :=
  | Next (a : A)
  | Return (r : R).
Arguments Next {A R} a.
Arguments Return {A R} r.

(** [vxlan_fdb_create].  The parameters [state] and [flags] of the source
    are [nud_state] and [nlm_flags].  Stores to an existing entry made
    before an early [return] stay in the table. *)
Definition vxlan_fdb_create (jiffies : Z) (w : world) (mac : ether_addr)
    (ip nud_state nlm_flags port vni ifindex ndm_flags : Z) : world * Z :=
  match __vxlan_find_mac (vxlan w) mac with
  | Some f =>
      if test nlm_flags NLM_F_EXCL then (w, - EEXIST)
      else
        let notify := 0 in
        let '(f, notify) :=
          if negb (state f =? nud_state)
          then (set_updated jiffies (set_state nud_state f), 1)
          else (f, notify) in
        let '(f, notify) :=
          if negb (flags f =? ndm_flags)
          then (set_updated jiffies (set_flags ndm_flags f), 1)
          else (f, notify) in
        match
          (if test nlm_flags NLM_F_REPLACE then
             if negb (is_multicast_ether_addr (eth_addr f)
                      || is_zero_ether_addr (eth_addr f))
             then
               let '(f, rc) := vxlan_fdb_replace f ip port vni ifindex in
               if rc <? 0 then Return (f, rc) else Next (f, Z.lor notify rc)
             else Return (f, - EOPNOTSUPP)
           else Next (f, notify))
        with
        | Return (f, rc) => (set_vxlan (fdb_write mac f (vxlan w)) w, rc)
        | Next (f, notify) =>
            match
              (if test nlm_flags NLM_F_APPEND
                  && (is_multicast_ether_addr (eth_addr f)
                      || is_zero_ether_addr (eth_addr f))
               then
                 let '(pool, f, rc) :=
                   vxlan_fdb_append (atomic_pool w) f ip port vni ifindex in
                 if rc <? 0 then Return (pool, f, rc)
                 else Next (pool, f, Z.lor notify rc)
               else Next (atomic_pool w, f, notify))
            with
            | Return (pool, f, rc) =>
                (set_pool pool (set_vxlan (fdb_write mac f (vxlan w)) w), rc)
            | Next (pool, f, notify) =>
                let w := set_pool pool (set_vxlan (fdb_write mac f (vxlan w)) w) in
                (if negb (notify =? 0) then vxlan_fdb_notify w f RTM_NEWNEIGH else w,
                 0)
            end
        end
  | None =>
      let v := vxlan w in
      if negb (test nlm_flags NLM_F_CREATE) then (w, - ENOENT)
      else if negb (addrmax v =? 0) && (addrcnt v >=? addrmax v)
      then (w, - ENOSPC)
      else if test nlm_flags NLM_F_REPLACE
              && (is_multicast_ether_addr mac || is_zero_ether_addr mac)
      then (w, - EOPNOTSUPP)
      else
        let '(ok, pool) := kmalloc (atomic_pool w) in
        if negb ok then (set_pool pool w, - ENOMEM)
        else
          let f := Fdb jiffies jiffies [] nud_state ndm_flags mac in
          let '(pool, f, _) := vxlan_fdb_append pool f ip port vni ifindex in
          let v := set_fdb (u32 (addrcnt v + 1))
                     (vinsert (fdb_index mac) (f :: vxlan_fdb_head v mac)
                        (fdb_head v)) v in
          (vxlan_fdb_notify (set_pool pool (set_vxlan v w)) f RTM_NEWNEIGH, 0)
  end.

(** [vxlan_fdb_destroy] of the entry the lookup of its address returned. *)
Definition vxlan_fdb_destroy (w : world) (f : vxlan_fdb) : world :=
  let v := vxlan w in
  let mac := eth_addr f in
  let v := set_fdb (u32 (addrcnt v - 1))
             (vinsert (fdb_index mac) (hlist_del mac (vxlan_fdb_head v mac))
                (fdb_head v)) v in
  vxlan_fdb_notify (set_vxlan v w) f RTM_DELNEIGH.

(** ** Forwarding database: the netlink operations *)

(** [tb[]]: each attribute, when present, with [nla_len] and its value. *)
Record nda_attrs : Type := NdaAttrs {
  NDA_DST : option (Z * Z);
  NDA_PORT : option (Z * Z);
  NDA_VNI : option (Z * Z);
  NDA_IFINDEX : option (Z * Z)
}.

Definition EAFNOSUPPORT : Z := 97.
Definition INADDR_ANY : Z := 0.

(** [vxlan_fdb_parse]; [dev_get_by_index] tells whether the namespace has a
    device of that index.  The result is the error or
    [(ip, port, vni, ifindex)]. *)
Definition vxlan_fdb_parse (dev_get_by_index : Z -> bool) (tb : nda_attrs)
    (v : vxlan_dev) : Z + (Z * Z * Z * Z) :=
  match (match NDA_DST tb with
         | Some (len, a) => if negb (len =? 4) then inl (- EAFNOSUPPORT) else inr a
         | None => inr INADDR_ANY
         end) with
  | inl err => inl err
  | inr ip =>
  match (match NDA_PORT tb with
         | Some (len, a) => if negb (len =? 2) then inl (- EINVAL) else inr a
         | None => inr (dst_port v)
         end) with
  | inl err => inl err
  | inr port =>
  match (match NDA_VNI tb with
         | Some (len, a) => if negb (len =? 4) then inl (- EINVAL) else inr a
         | None => inr (remote_vni (default_dst v))
         end) with
  | inl err => inl err
  | inr vni =>
  match (match NDA_IFINDEX tb with
         | Some (len, a) =>
             if negb (len =? 4) then inl (- EINVAL)
             else if negb (dev_get_by_index a) then inl (- EADDRNOTAVAIL)
             else inr a
         | None => inr 0
         end) with
  | inl err => inl err
  | inr ifindex => inr (ip, port, vni, ifindex)
  end end end end.

(** [vxlan_fdb_add] *)
Definition vxlan_fdb_add (dev_get_by_index : Z -> bool) (jiffies : Z) (w : world)
    (ndm_state ndm_flags : Z) (tb : nda_attrs) (addr : ether_addr)
    (nlm_flags : Z) : world * Z :=
  if negb (test ndm_state (Z.lor NUD_PERMANENT NUD_REACHABLE)) then (w, - EINVAL)
  else
    match NDA_DST tb with
    | None => (w, - EINVAL)
    | Some _ =>
        match vxlan_fdb_parse dev_get_by_index tb (vxlan w) with
        | inl err => (w, err)
        | inr (ip, port, vni, ifindex) =>
            vxlan_fdb_create jiffies w addr ip ndm_state nlm_flags
              port vni ifindex ndm_flags
        end
    end.

(** [list_del_rcu(&rd->list)] for the destination [vxlan_fdb_find_rdst]
    returned: the first one with the four values leaves the list. *)
Fixpoint list_del_rdst (ip port vni ifindex : Z) (l : list vxlan_rdst)
  : list vxlan_rdst :=
  match l with
  | [] => []
  | rd :: rest =>
      if rdst_is ip port vni ifindex rd then rest
      else rd :: list_del_rdst ip port vni ifindex rest
  end.

Definition list_is_singular {A} (l : list A) : bool :=
  match l with
  | [_] => true
  | _ => false
  end.

(** [vxlan_fdb_delete] *)
Definition vxlan_fdb_delete (dev_get_by_index : Z -> bool) (jiffies : Z)
    (w : world) (tb : nda_attrs) (addr : ether_addr) : world * Z :=
  match vxlan_fdb_parse dev_get_by_index tb (vxlan w) with
  | inl err => (w, err)
  | inr (ip, port, vni, ifindex) =>
      match vxlan_find_mac jiffies (vxlan w) addr with
      | (_, None) => (w, - ENOENT)
      | (v, Some f) =>
          let w := set_vxlan v w in
          let rd := if negb (ip =? INADDR_ANY)
                    then vxlan_fdb_find_rdst f ip port vni ifindex
                    else None in
          if negb (ip =? INADDR_ANY) && negb (bool_decide (is_Some rd))
          then (w, - ENOENT)
          else if bool_decide (is_Some rd) && negb (list_is_singular (remotes f))
          then
            let f := set_remotes (list_del_rdst ip port vni ifindex (remotes f)) f in
            (set_vxlan (fdb_write addr f v) w, 0)
          else (vxlan_fdb_destroy w f, 0)
      end
  end.

(** ** Receive path: learning *)

Definition set_remote_ip (ip : Z) (rd : vxlan_rdst) : vxlan_rdst :=
  Rdst ip (remote_port rd) (remote_vni rd) (remote_ifindex rd).

(** [vxlan_snoop]: the state after the call and whether the packet is bogus
    and to be dropped.  [None] is the undefined read of [first_remote_rcu]
    on an entry without destinations. *)
Definition vxlan_snoop (jiffies : Z) (w : world) (src_ip : Z) (src_mac : ether_addr)
  : option (world * bool) :=
  match vxlan_find_mac jiffies (vxlan w) src_mac with
  | (v, Some f) =>
      match first_remote_rcu f with
      | None => None
      | Some rdst =>
          if remote_ip rdst =? src_ip then Some (set_vxlan v w, false)
          else if test (state f) NUD_NOARP then Some (set_vxlan v w, true)
          else
            let f := set_remotes (set_remote_ip src_ip rdst :: tail (remotes f)) f in
            let f := set_updated jiffies f in
            Some (vxlan_fdb_notify (set_vxlan (fdb_write src_mac f v) w)
                    f RTM_NEWNEIGH, false)
      end
  | (v, None) =>
      if netif_running (dev v)
      then Some (fst (vxlan_fdb_create jiffies w src_mac src_ip NUD_REACHABLE
                        (Z.lor NLM_F_EXCL NLM_F_CREATE) (dst_port v)
                        (remote_vni (default_dst v)) 0 NTF_SELF), false)
      else Some (w, false)
  end.

(** Packets reaching [vxlan_snoop] one after the other, each with the clock
    at its arrival as [(jiffies, src_ip, src_mac)]. *)
Fixpoint vxlan_snoop_all (w : world) (pkts : list (Z * Z * ether_addr))
  : option world :=
  match pkts with
  | [] => Some w
  | (jiffies, src_ip, src_mac) :: rest =>
      match vxlan_snoop jiffies w src_ip src_mac with
      | Some (w, _) => vxlan_snoop_all w rest
      | None => None
      end
  end.

(** ** Ageing, flush, stop *)

(** Modelled from the spec: the wrap-safe clock comparisons of
    linux/jiffies.h, which is not part of the sources:
    [time_before(a,b)] is [(long)(a) - (long)(b) < 0] and
    [time_before_eq(a,b)] is [(long)(b) - (long)(a) >= 0]. *)
Definition time_before (a b : Z) : bool := long (a - b) <? 0.
Definition time_before_eq (a b : Z) : bool := long (b - a) >=? 0.

(** [FDB_AGE_INTERVAL], the rescan interval, for a clock of [HZ] ticks. *)
Definition FDB_AGE_INTERVAL (HZ : Z) : Z := 10 * HZ.

(** What a walk over the table carries along: the entry count, the
    notification log and, for ageing, [next_timer]. *)
Record walk : Type := Walk {
  walk_addrcnt : Z;
  walk_rtnl : list (Z * vxlan_fdb);
  next_timer : Z
}.

(** The effects of [vxlan_fdb_destroy] on a walk; the unlinking is the
    traversal leaving the entry out of the chain it rebuilds. *)
Definition walk_destroy (f : vxlan_fdb) (a : walk) : walk :=
  Walk (u32 (walk_addrcnt a - 1)) ((RTM_DELNEIGH, f) :: walk_rtnl a) (next_timer a).

(** [timeout = f->used + vxlan->age_interval * HZ] *)
Definition fdb_timeout (HZ age : Z) (f : vxlan_fdb) : Z :=
  ulong (used f + ulong (age * HZ)).

(** The body of [hlist_for_each_safe] in [vxlan_cleanup], along one chain. *)
Fixpoint vxlan_cleanup_chain (HZ jiffies age : Z) (chain : list vxlan_fdb)
    (a : walk) : list vxlan_fdb * walk :=
  match chain with
  | [] => ([], a)
  | f :: n =>
      if test (state f) NUD_PERMANENT then
        let '(n, a) := vxlan_cleanup_chain HZ jiffies age n a in (f :: n, a)
      else
        let timeout := fdb_timeout HZ age f in
        if time_before_eq timeout jiffies then
          let f := set_state NUD_STALE f in
          vxlan_cleanup_chain HZ jiffies age n (walk_destroy f a)
        else
          let a := if time_before timeout (next_timer a)
                   then Walk (walk_addrcnt a) (walk_rtnl a) timeout else a in
          let '(n, a) := vxlan_cleanup_chain HZ jiffies age n a in (f :: n, a)
  end.

(** A loop [for (h = 0; h < FDB_HASH_SIZE; ++h)] over the chains. *)
Fixpoint for_each_chain (body : list vxlan_fdb -> walk -> list vxlan_fdb * walk)
    {n : nat} (tbl : vec (list vxlan_fdb) n) (a : walk)
  : vec (list vxlan_fdb) n * walk :=
  match tbl in Vector.t _ n return vec (list vxlan_fdb) n * walk with
  | [#] => ([#], a)
  | chain ::: tbl =>
      let '(chain, a) := body chain a in
      let '(tbl, a) := for_each_chain body tbl a in
      (chain ::: tbl, a)
  end.

(** [vxlan_cleanup], the function of [age_timer], run when the timer has
    fired and is no longer pending; [mod_timer] re-arms it. *)
Definition vxlan_cleanup (HZ jiffies : Z) (w : world) : world :=
  let v := vxlan w in
  let next := ulong (jiffies + FDB_AGE_INTERVAL HZ) in
  if negb (netif_running (dev v)) then set_vxlan (set_age_timer None v) w
  else
    let '(tbl, a) :=
      for_each_chain (vxlan_cleanup_chain HZ jiffies (age_interval v))
        (fdb_head v) (Walk (addrcnt v) (rtnl w) next) in
    World (set_age_timer (Some (next_timer a)) (set_fdb (walk_addrcnt a) tbl v))
      (atomic_pool w) (walk_rtnl a).

(** The body of the loop of [vxlan_flush], along one chain. *)
Fixpoint vxlan_flush_chain (chain : list vxlan_fdb) (a : walk)
  : list vxlan_fdb * walk :=
  match chain with
  | [] => ([], a)
  | f :: n =>
      if negb (is_zero_ether_addr (eth_addr f))
      then vxlan_flush_chain n (walk_destroy f a)
      else let '(n, a) := vxlan_flush_chain n a in (f :: n, a)
  end.

(** [vxlan_flush] *)
Definition vxlan_flush (w : world) : world :=
  let v := vxlan w in
  let '(tbl, a) :=
    for_each_chain vxlan_flush_chain (fdb_head v) (Walk (addrcnt v) (rtnl w) 0) in
  World (set_fdb (walk_addrcnt a) tbl v) (atomic_pool w) (walk_rtnl a).

Definition IN_MULTICAST (a : Z) : bool := Z.land a 0xf0000000 =? 0xe0000000.

(** [vxlan_stop].  [group_used] is the answer of [vxlan_group_used] for the
    default group; the result says whether the IGMP leave was queued. *)
Definition vxlan_stop (group_used : bool) (w : world) : world * bool :=
  let v := vxlan w in
  let leave := vn_sock v && IN_MULTICAST (remote_ip (default_dst v))
               && negb group_used in
  (vxlan_flush (set_vxlan (set_age_timer None v) w), leave).

(** [vxlan_open]: the error, or the state and whether the IGMP join was
    queued. *)
Definition vxlan_open (HZ jiffies : Z) (group_used : bool) (w : world)
  : Z + world * bool :=
  let v := vxlan w in
  if negb (vn_sock v) then inl (- 107)   (* -ENOTCONN *)
  else
    let join := IN_MULTICAST (remote_ip (default_dst v)) && group_used in
    let v := if negb (age_interval v =? 0)
             then set_age_timer (Some (ulong (jiffies + FDB_AGE_INTERVAL HZ))) v
             else v in
    inr (set_vxlan v w, join).

(** [vxlan_fdb_delete_default] *)
Definition vxlan_fdb_delete_default (w : world) : world :=
  match __vxlan_find_mac (vxlan w) all_zeros_mac with
  | Some f => vxlan_fdb_destroy w f
  | None => w
  end.

(** ** Transmit path *)

(** What the transmit path takes from outside the driver: the hash of
    linux/jhash.h (key octets, length, initial value), the DS field of the
    inner IP header and the ECN encapsulation of net/ip_tunnels.h, the
    output route lookup with the hop limit of the route found, the lookup
    of a local endpoint by VNI and port in the namespace, and what
    [vxlan_xmit_skb] returns once it has pushed the VXLAN and UDP headers
    and handed the packet to [iptunnel_xmit]. *)
Record rtable : Type := Rtable {
  rt_dev_is_self : bool;     (* rt->u.dst.dev == dev *)
  rt_flags : Z;
  rt_hoplimit : Z            (* dst_metric(&rt->u.dst, RTAX_HOPLIMIT) *)
}.

Record flowi : Type := Flowi {
  oif : Z; proto : Z; fl4_dst : Z; fl4_src : Z; fl4_tos : Z
}.

Record xmit_env : Type := XmitEnv {
  jhash : list Z -> Z -> Z -> Z;
  ip_tunnel_get_dsfield : sk_buff -> Z;
  ip_tunnel_ecn_encap : Z -> sk_buff -> Z;
  ip_route_output_key : flowi -> option rtable;
  vxlan_find_vni : Z -> Z -> bool;
  vxlan_xmit_skb : sk_buff -> Z
}.

Definition IPPROTO_UDP : Z := 17.
Definition RT_TOS (tos : Z) : Z := Z.land tos 0x1E.
Definition RTCF_BROADCAST : Z := 0x10000000.
Definition RTCF_MULTICAST : Z := 0x20000000.
Definition RTCF_LOCAL : Z := 0x80000000.

(** [vxlan_src_port]: the port number [htons] puts on the wire. *)
Definition vxlan_src_port (env : xmit_env) (port_min port_max : Z) (skb : sk_buff)
  : Z :=
  let range := u32 ((port_max - port_min) + 1) in
  let hash := u32 (jhash env (firstn (Z.to_nat (2 * ETH_ALEN)) (data skb))
                     (2 * ETH_ALEN) (u32 (protocol skb))) in
  u16 (u64 (Z.shiftr (u64 (hash * range)) 32 + port_min)).

(** The arguments [vxlan_xmit_one] passes to [vxlan_xmit_skb]. *)
Record encap : Type := Encap {
  encap_src : Z; encap_dst : Z; encap_tos : Z; encap_ttl : Z; encap_df : Z;
  encap_src_port : Z; encap_dst_port : Z; encap_vni : Z
}.

(** The ways through [vxlan_xmit_one], each with the counters it bumps. *)
Inductive xmit_outcome : Type :=
  | XMIT_BYPASS_SELF                    (* vxlan_encap_bypass(skb, vxlan, vxlan) *)
  | XMIT_DROP                           (* tx_dropped *)
  | XMIT_NO_ROUTE (fl4 : flowi)         (* tx_carrier_errors, tx_errors *)
  | XMIT_CIRCULAR (fl4 : flowi)         (* collisions, tx_errors *)
  | XMIT_BYPASS (vni port : Z)          (* vxlan_encap_bypass to the local peer *)
  | XMIT_NO_PEER (vni port : Z)         (* tx_errors *)
  | XMIT_SKB (fl4 : flowi) (e : encap) (err : Z).

(** [vxlan_xmit_one] *)
Definition vxlan_xmit_one (env : xmit_env) (v : vxlan_dev) (skb : sk_buff)
    (rdst : vxlan_rdst) (did_rsc : bool) : xmit_outcome :=
  let dst_port := if negb (remote_port rdst =? 0) then remote_port rdst
                  else dst_port v in
  let vni := remote_vni rdst in
  let dst := remote_ip rdst in
  if dst =? 0 then
    if did_rsc then XMIT_BYPASS_SELF else XMIT_DROP
  else
    let ttl := ttl v in
    let ttl := if (ttl =? 0) && IN_MULTICAST dst then 1 else ttl in
    let tos := tos v in
    let tos := if tos =? 1 then u8 (ip_tunnel_get_dsfield env skb) else tos in
    let src_port := vxlan_src_port env (port_min v) (port_max v) skb in
    let fl4 := Flowi (remote_ifindex rdst) IPPROTO_UDP dst (saddr v) (RT_TOS tos) in
    match ip_route_output_key env fl4 with
    | None => XMIT_NO_ROUTE fl4
    | Some rt =>
        if rt_dev_is_self rt then XMIT_CIRCULAR fl4
        else if test (rt_flags rt) RTCF_LOCAL
                && negb (test (rt_flags rt) (Z.lor RTCF_BROADCAST RTCF_MULTICAST))
        then
          if vxlan_find_vni env vni dst_port then XMIT_BYPASS vni dst_port
          else XMIT_NO_PEER vni dst_port
        else
          let tos := u8 (ip_tunnel_ecn_encap env tos skb) in
          let ttl := if negb (ttl =? 0) then ttl else u8 (rt_hoplimit rt) in
          XMIT_SKB fl4
            (Encap (fl4_src fl4) dst tos ttl 0 src_port dst_port
               (u32 (Z.shiftl vni 8)))
            (vxlan_xmit_skb env skb)
    end.

(** Modelled from the spec: the DS-field and ECN helpers of
    net/ip_tunnels.h and net/inet_ecn.h, which are not part of the sources.
    The inner DS field is the second octet of an inner IPv4 header, which
    follows the 14 octets of the Ethernet header; on encapsulation the outer
    ECN field takes the inner codepoint, a CE mark going out as ECT(0). *)
Definition ETH_P_IP : Z := 0x0800.
Definition INET_ECN_MASK : Z := 3.
Definition INET_ECN_ECT_0 : Z := 2.
Definition INET_ECN_CE : Z := 3.

Definition inner_dsfield (skb : sk_buff) : Z :=
  if protocol skb =? ETH_P_IP then octet_at (data skb) 15 else 0.

Definition INET_ECN_encapsulate (outer inner : Z) : Z :=
  Z.lor (Z.land outer (Z.lnot INET_ECN_MASK mod 2 ^ 8))
    (if negb (Z.land inner INET_ECN_MASK =? INET_ECN_CE)
     then Z.land inner INET_ECN_MASK else INET_ECN_ECT_0).

(** An environment for closed examples: a byte-wise multiplicative hash
    in place of [jhash], the helpers above, and a routing table with a
    single non-local default route of hop limit 64. *)
Definition example_env : xmit_env :=
  XmitEnv
    (fun key _ initval => fold_left (fun h b => u32 (h * 0x01000193 + b)) key initval)
    inner_dsfield
    (fun tos skb => INET_ECN_encapsulate tos (inner_dsfield skb))
    (fun _ => Some (Rtable false 0 64))
    (fun _ _ => false)
    (fun skb => Z.of_nat (length (data skb))).

(** ** Vocabulary of the statements *)

(** The table is full: [vxlan->addrmax && vxlan->addrcnt >= vxlan->addrmax]. *)
Definition fdb_full (v : vxlan_dev) : bool :=
  negb (addrmax v =? 0) && (addrcnt v >=? addrmax v).

(** Lookups of every address but [mac] give the same answer in [v'] as in [v]. *)
Definition lookup_same_except (mac : ether_addr) (v v' : vxlan_dev) : Prop :=
  forall mac', mac' <> mac -> __vxlan_find_mac v' mac' = __vxlan_find_mac v mac'.

(** The addresses of the entries, chain by chain in chain order. *)
Definition fdb_macs (v : vxlan_dev) : vec (list ether_addr) FDB_HASH_SIZE :=
  vmap (map eth_addr) (fdb_head v).

(** No entry of the table is without a destination. *)
Definition remotes_nonempty (v : vxlan_dev) : Prop :=
  Forall (fun f => remotes f <> []) (fdb_entries v).

(** The first [n] of the coming atomic allocations succeed. *)
Definition kmalloc_ok (n : nat) (pool : list bool) : Prop :=
  Forall (fun ok => ok = true) (take n pool).

(** The ageing rule in the words of the specification: an entry is aged out
    at time [jiffies] under a threshold of [age] seconds when its state is
    not PERMANENT and it was last used at or before [jiffies - age * HZ]. *)
Definition aged_out (HZ jiffies age : Z) (f : vxlan_fdb) : bool :=
  negb (test (state f) NUD_PERMANENT) && (used f <=? jiffies - age * HZ).

(** The time at which an entry falls due, without wrap-around. *)
Definition expiry (HZ age : Z) (f : vxlan_fdb) : Z := used f + age * HZ.

(** ** States for closed examples *)

(** An endpoint for VNI 10 on port 4789 with default group 239.1.1.1,
    learning enabled, no entry limit, running, its table still empty. *)
Definition example_dev : vxlan_dev :=
  VxlanDev true (NetDevice true (EtherAddr 0x02 0 0 0 0 0x01))
    (Rdst 0xef010101 0 10 0) 0 4789 32768 61000 0 0 VXLAN_F_LEARN 300 None
    0 0 (vreplicate FDB_HASH_SIZE []).

(** The state in which [vxlan_newlink] leaves that endpoint at time 0: the
    default destination is a valid address, so the table holds the
    PERMANENT entry of the all-zero MAC towards it. *)
Definition example_world : world :=
  fst (vxlan_fdb_create 0 (World example_dev [] []) all_zeros_mac
         (remote_ip (default_dst example_dev)) (Z.lor NUD_REACHABLE NUD_PERMANENT)
         (Z.lor NLM_F_EXCL NLM_F_CREATE) (dst_port example_dev)
         (remote_vni (default_dst example_dev))
         (remote_ifindex (default_dst example_dev)) NTF_SELF).

Definition set_running (up : bool) (w : world) : world :=
  let v := vxlan w in
  set_vxlan
    (VxlanDev (vn_sock v) (NetDevice up (dev_addr (dev v))) (default_dst v)
       (saddr v) (dst_port v) (port_min v) (port_max v) (tos v) (ttl v)
       (vflags v) (age_interval v) (age_timer v) (addrcnt v) (addrmax v)
       (fdb_head v)) w.

Definition set_addrmax (limit : Z) (w : world) : world :=
  let v := vxlan w in
  set_vxlan
    (VxlanDev (vn_sock v) (dev v) (default_dst v)
       (saddr v) (dst_port v) (port_min v) (port_max v) (tos v) (ttl v)
       (vflags v) (age_interval v) (age_timer v) (addrcnt v) limit
       (fdb_head v)) w.

Definition mac_aa01 : ether_addr := EtherAddr 0xaa 0xaa 0xaa 0xaa 0xaa 0x01.
Definition mac_cc03 : ether_addr := EtherAddr 0xcc 0xcc 0xcc 0xcc 0xcc 0x03.
Definition mac_ee04 : ether_addr := EtherAddr 0xee 0xee 0xee 0xee 0xee 0x04.
Definition mac_mcast : ether_addr := EtherAddr 0x01 0x00 0x5e 0x00 0x00 0x01.

(** [example_world] after aa:aa:aa:aa:aa:01 was learned from 10.0.0.5 at
    time 1000 and cc:cc:cc:cc:cc:03 was added statically (NOARP, PERMANENT)
    towards 10.0.0.7 at time 2000. *)
Definition example_learned : world :=
  match vxlan_snoop 1000 example_world 0x0a000005 mac_aa01 with
  | Some (w, _) =>
      fst (vxlan_fdb_add (fun _ => true) 2000 w (Z.lor NUD_NOARP NUD_PERMANENT)
             NTF_SELF (NdaAttrs (Some (4, 0x0a000007)) None None None) mac_cc03
             (Z.lor NLM_F_CREATE NLM_F_EXCL))
  | None => example_world
  end.

Definition mac_dd04 : ether_addr := EtherAddr 0xdd 0xdd 0xdd 0xdd 0xdd 0x04.

(** [example_world] after a static entry for [mac] towards 10.0.0.8 was
    added at time 2000. *)
Definition example_static (mac : ether_addr) : world :=
  fst (vxlan_fdb_add (fun _ => true) 2000 example_world NUD_PERMANENT NTF_SELF
         (NdaAttrs (Some (4, 0x0a000008)) None None None) mac
         (Z.lor NLM_F_CREATE NLM_F_EXCL)).

(** ** Vocabulary of the ageing statement *)

(** An entry that is not PERMANENT. *)
Definition ageable (f : vxlan_fdb) : bool := negb (test (state f) NUD_PERMANENT).

(** [next] is the earliest of [base] and the expiry times of the entries
    of [l]. *)
Definition earliest_of (HZ age base : Z) (l : list vxlan_fdb) (next : Z) : Prop :=
  next <= base
  /\ (forall f, In f l -> next <= expiry HZ age f)
  /\ (next = base \/ exists f, In f l /\ next = expiry HZ age f).

(** The clock values of an entry stay clear of the wrap of a signed long. *)
Definition clock_ok (HZ age : Z) (f : vxlan_fdb) : Prop :=
  0 <= used f /\ used f + age * HZ < 2 ^ 63.

(** ** Proof automation *)

(** Case analysis on a scrutinee that has no [match] inside, and the
    reduction that goes with it: projections and setters of entries and
    states, and comparisons of closed numbers. *)
Ltac case_inner :=
  match goal with
  | |- context [match ?c with _ => _ end] =>
      lazymatch c with
      | context [match _ with _ => _ end] => fail
      | _ => destruct c eqn:?
      end
  end.
Ltac fold_bool e :=
  let v := eval vm_compute in e in
  lazymatch v with
  | true => change e with true
  | false => change e with false
  end.
Ltac fdb_reduce :=
  lazy beta iota zeta delta [negb andb fst snd
    state flags remotes eth_addr used set_updated set_state set_flags
    set_remotes atomic_pool set_pool set_vxlan vxlan_fdb_notify];
  repeat match goal with
         | |- context [?a <? ?b] => fold_bool (a <? b)
         | |- context [?a =? ?b] => fold_bool (a =? b)
         end;
  lazy beta iota zeta delta [negb andb fst snd].

(** ** Vocabulary of the table invariants *)

(** Every entry hangs in the chain its address hashes to, and no chain holds
    an address twice. *)
Definition fdb_wf (v : vxlan_dev) : Prop :=
  forall i, Forall (fun f => fdb_index (eth_addr f) = i) (fdb_head v !!! i)
            /\ NoDup (map eth_addr (fdb_head v !!! i)).

(** [addrcnt], an [unsigned int], counts the entries of the table. *)
Definition fdb_count_ok (v : vxlan_dev) : Prop :=
  addrcnt v = u32 (Z.of_nat (length (fdb_entries v))).

(** The entry limit is set, [addrcnt] is the number of entries and the
    limit is respected. *)
Definition fdb_within_limit (v : vxlan_dev) : Prop :=
  0 < addrmax v < 2 ^ 32
  /\ addrcnt v = Z.of_nat (length (fdb_entries v))
  /\ addrcnt v <= addrmax v.

(** A loop body of a walk over the table that drops the entries failing [p]
    from the chain and counts each of them off [addrcnt]. *)
Definition walk_filter (p : vxlan_fdb -> bool)
    (body : list vxlan_fdb -> walk -> list vxlan_fdb * walk) : Prop :=
  forall chain a,
    fst (body chain a) = List.filter p chain
    /\ forall k, walk_addrcnt a = u32 (k + Z.of_nat (length chain)) ->
         walk_addrcnt (snd (body chain a))
         = u32 (k + Z.of_nat (length (List.filter p chain))).


(** A loop body of a walk over the table that notifies RTM_DELNEIGH for the
    entries satisfying [q], each as [g] leaves it, newest first. *)
Definition walk_logs (q : vxlan_fdb -> bool) (g : vxlan_fdb -> vxlan_fdb)
    (body : list vxlan_fdb -> walk -> list vxlan_fdb * walk) : Prop :=
  forall chain a,
    walk_rtnl (snd (body chain a))
    = map (fun f => (RTM_DELNEIGH, g f)) (rev (List.filter q chain)) ++ walk_rtnl a.

(** ** Proof automation for the table *)

(** Two entries differ: in a field, in the length of the destination list,
    or in a first destination that the search of the list did not find. *)
Ltac entry_differs :=
  let Heq := fresh "Heq" in
  intros Heq; injection Heq; clear Heq; intros;
  first [ congruence
        | match goal with
          | H : _ ++ [_] = _ |- _ =>
              apply (f_equal length) in H; rewrite length_app in H; cbn in H; lia
          end
        | subst;
          match goal with
          | H : (if rdst_is _ _ _ _ _ then _ else _) = None |- _ =>
              unfold rdst_is in H; cbn [remote_ip remote_port remote_vni remote_ifindex] in H;
              rewrite !Z.eqb_refl in H; discriminate
          end ].

(** Membership in a list written out. *)
Ltac in_list :=
  repeat first [ apply list_elem_of_here | apply list_elem_of_further ].

(** ** Transmit path: the headers [vxlan_xmit_skb] pushes *)

(** The octets of a 16-bit and of a 32-bit value in network byte order. *)
Definition be16_octets (x : Z) : list Z :=
  [Z.land (Z.shiftr x 8) 0xff; Z.land x 0xff].
Definition be32_octets (x : Z) : list Z :=
  [Z.land (Z.shiftr x 24) 0xff; Z.land (Z.shiftr x 16) 0xff;
   Z.land (Z.shiftr x 8) 0xff; Z.land x 0xff].

(** The big-endian 16-bit word at [off], as the number on the wire, and the
    fields of [struct udphdr] at [skb->data]. *)
Definition be16_at (data : list Z) (off : nat) : Z :=
  Z.lor (Z.shiftl (octet_at data off) 8) (octet_at data (off + 1)).
Definition uh_source (skb : sk_buff) : Z := be16_at (data skb) 0.
Definition uh_dest (skb : sk_buff) : Z := be16_at (data skb) 2.
Definition uh_len (skb : sk_buff) : Z := be16_at (data skb) 4.
Definition uh_check (skb : sk_buff) : Z := be16_at (data skb) 6.

(** What [vxlan_xmit_skb] takes from outside the driver: the error of
    [skb_cow_head], the VLAN tag of the buffer when one is present
    ([vlan_tx_tag_present], [vlan_tx_tag_get]) and the buffer with the tag
    put into the frame ([__vlan_put_tag], NULL on failure), whether the
    buffer is GSO and the error of [skb_unclone], and the result of
    [iptunnel_xmit] for the buffer, the addresses, the protocol and the
    TOS, TTL and DF of the outer header. *)
Record xmit_skb_env : Type := XmitSkbEnv {
  skb_cow_head : sk_buff -> Z;
  vlan_tx_tag : sk_buff -> option Z;
  __vlan_put_tag : sk_buff -> Z -> option sk_buff;
  skb_is_gso : sk_buff -> bool;
  skb_unclone : sk_buff -> Z;
  iptunnel_xmit : sk_buff -> Z -> Z -> Z -> Z -> Z -> Z -> Z
}.

(** [__skb_push] followed by the stores to the header it made room for. *)
Definition __skb_push (hdr : list Z) (skb : sk_buff) : sk_buff :=
  SkBuff (hdr ++ data skb) (protocol skb).

(** [handle_offloads], its return value; the checksum and GSO marks it sets
    are not part of [sk_buff] here. *)
Definition handle_offloads (xe : xmit_skb_env) (skb : sk_buff) : Z :=
  if skb_is_gso xe skb then
    if negb (skb_unclone xe skb =? 0) then skb_unclone xe skb else 0
  else 0.

Module Wire.

(** [vxlan_xmit_skb]: the return value and, when the call got that far, the
    buffer handed to [iptunnel_xmit], its data starting at the UDP header. *)
Definition vxlan_xmit_skb (xe : xmit_skb_env) (skb : sk_buff)
    (src dst tos ttl df src_port dst_port vni : Z) : Z * option sk_buff :=
  let err := skb_cow_head xe skb in
  if negb (err =? 0) then (err, None)
  else
    match (match vlan_tx_tag xe skb with
           | Some tci =>
               match __vlan_put_tag xe skb tci with
               | None => Return (- ENOMEM)
               | Some skb => Next skb
               end
           | None => Next skb
           end) with
    | Return err => (err, None)
    | Next skb =>
        (* vxh->vx_flags = htonl(VXLAN_FLAGS); vxh->vx_vni = vni *)
        let skb := __skb_push (be32_octets (u32 VXLAN_FLAGS) ++ be32_octets vni) skb in
        (* uh->source, uh->dest, uh->len = htons(skb->len), uh->check = 0 *)
        let len := 8 + Z.of_nat (length (data skb)) in
        let skb := __skb_push (be16_octets src_port ++ be16_octets dst_port
                               ++ be16_octets (u16 len) ++ be16_octets 0) skb in
        let err := handle_offloads xe skb in
        if negb (err =? 0) then (err, None)
        else (iptunnel_xmit xe skb src dst IPPROTO_UDP tos ttl df, Some skb)
    end.

End Wire.

(** ** Receive path: demultiplexing by VNI *)

(** [struct ethhdr] at [skb->data]. *)
Definition h_dest (skb : sk_buff) : ether_addr :=
  EtherAddr (octet_at (data skb) 0) (octet_at (data skb) 1) (octet_at (data skb) 2)
    (octet_at (data skb) 3) (octet_at (data skb) 4) (octet_at (data skb) 5).
Definition h_source (skb : sk_buff) : ether_addr :=
  EtherAddr (octet_at (data skb) 6) (octet_at (data skb) 7) (octet_at (data skb) 8)
    (octet_at (data skb) 9) (octet_at (data skb) 10) (octet_at (data skb) 11).
(** [ntohs(eth->h_proto)] *)
Definition h_proto (skb : sk_buff) : Z :=
  Z.lor (Z.shiftl (octet_at (data skb) 12) 8) (octet_at (data skb) 13).

(** The endpoints attached to a listening socket, [vs->vni_list], with the
    allocation pool and the notification log they share.  The chains of
    [vni_list] are one list here, newest first: [vni_head] picks the chain
    by [hash_32] of the VNI, every endpoint is linked into the chain of its
    own VNI by [vxlan_vs_add_dev], and so the first endpoint with a VNI in
    its chain is the first endpoint with that VNI in the list. *)
Record vxlan_sock : Type := VxlanSock {
  vni_list : list vxlan_dev;
  sock_pool : list bool;
  sock_rtnl : list (Z * vxlan_fdb)
}.

(** [vxlan_vs_find_vni]: the position and the endpoint found. *)
Definition vxlan_vs_find_vni (vs : vxlan_sock) (id : Z) : option (nat * vxlan_dev) :=
  list_find (fun v => remote_vni (default_dst v) = id) (vni_list vs).

(** What became of the buffer in [vxlan_rcv]. *)
Inductive rcv_outcome : Type :=
  | RCV_DROP                             (* label drop: kfree_skb *)
  | RCV_FRAME_ERROR                      (* rx_frame_errors, rx_errors, drop *)
  | RCV_NETIF_RX (i : nat) (skb : sk_buff) (* rx_packets, rx_bytes, netif_rx *).

(** [vxlan_rcv].  [skb] has its data at the inner Ethernet header,
    [oip_saddr] is the source address of the outer IP header,
    [eth_type_trans] gives the buffer as net/ethernet/eth.c leaves it and
    [INET_ECN_set_ce] the result of that call.  [None] is the undefined
    read of [vxlan_snoop].  The endpoint [vxlan] of the source is [v]. *)
Definition vxlan_rcv (eth_type_trans : sk_buff -> net_device -> sk_buff)
    (INET_ECN_set_ce : sk_buff -> Z) (jiffies : Z) (vs : vxlan_sock)
    (skb : sk_buff) (vx_vni oip_saddr : Z) : option (vxlan_sock * rcv_outcome) :=
  let vni := Z.shiftr (u32 vx_vni) 8 in
  match vxlan_vs_find_vni vs vni with
  | None => Some (vs, RCV_DROP)
  | Some (i, v) =>
      let src := h_source skb in
      let skb := eth_type_trans skb (dev v) in
      if compare_ether_addr src (dev_addr (dev v)) =? 0 then Some (vs, RCV_DROP)
      else
        let w := World v (sock_pool vs) (sock_rtnl vs) in
        match (if test (vflags v) VXLAN_F_LEARN
               then vxlan_snoop jiffies w oip_saddr src
               else Some (w, false)) with
        | None => None
        | Some (w, bogus) =>
            let vs := VxlanSock (<[i := vxlan w]> (vni_list vs))
                        (atomic_pool w) (rtnl w) in
            if bogus then Some (vs, RCV_DROP)
            else
              let err := INET_ECN_set_ce skb in
              if negb (err =? 0) && (err >? 1) then Some (vs, RCV_FRAME_ERROR)
              else Some (vs, RCV_NETIF_RX i skb)
        end
  end.

(** ** Frames and environments for closed examples *)

(** An IPv4 frame from aa:aa:aa:aa:aa:01 to cc:cc:cc:cc:cc:03. *)
Definition example_frame : sk_buff :=
  SkBuff [0xcc; 0xcc; 0xcc; 0xcc; 0xcc; 0x03;  0xaa; 0xaa; 0xaa; 0xaa; 0xaa; 0x01;
          0x08; 0x00;  0x45; 0x00; 0x00; 0x14; 0; 0; 0; 0; 64; 17; 0; 0;
          10; 1; 0; 1;  10; 1; 0; 2] ETH_P_IP.

(** No VLAN tag, no GSO, room for the headers, and an [iptunnel_xmit] that
    reports the length of the datagram with its IP header. *)
Definition example_xmit_skb_env : xmit_skb_env :=
  XmitSkbEnv (fun _ => 0) (fun _ => None) (fun _ _ => None) (fun _ => false)
    (fun _ => 0) (fun skb _ _ _ _ _ _ => 20 + Z.of_nat (length (data skb))).

(** A listening socket with the endpoint of [example_learned] attached, and
    an [eth_type_trans] that pulls the Ethernet header and reports its
    protocol field. *)
Definition example_sock : vxlan_sock :=
  VxlanSock [vxlan example_learned] [] (rtnl example_learned).

Definition example_eth_type_trans (skb : sk_buff) (_ : net_device) : sk_buff :=
  SkBuff (skipn 14 (data skb)) (h_proto skb).

(** ** Transmit path: the choice of the destinations *)

(** [vxlan_ip_miss] and [vxlan_fdb_miss]: an entry built on the stack, all
    fields zero but the ones given, notified as RTM_GETNEIGH.  The entry of
    [vxlan_fdb_miss] has an empty destination list. *)
Definition vxlan_ip_miss (w : world) (ipa : Z) : world :=
  vxlan_fdb_notify w
    (Fdb 0 0 [Rdst ipa 0 VXLAN_N_VID 0] NUD_STALE 0 all_zeros_mac) RTM_GETNEIGH.



Definition ether_addr_octets (a : ether_addr) : list Z :=
  [octet0 a; octet1 a; octet2 a; octet3 a; octet4 a; octet5 a].

(** [route_shortcircuit]: the state, the buffer with its rewritten Ethernet
    header, and the return value.  [neigh_lookup] is the lookup of an
    address in the ARP table and gives the hardware address of the
    neighbour.  The IP header follows the 14 octets of the Ethernet header,
    so [pip->daddr] is the word at offset 30. *)
Definition route_shortcircuit (neigh_lookup : Z -> option ether_addr) (w : world)
    (skb : sk_buff) : world * sk_buff * bool :=
  if is_multicast_ether_addr (h_dest skb) then (w, skb, false)
  else if h_proto skb =? ETH_P_IP then
    if negb (pskb_may_pull skb 20) then (w, skb, false)
    else
      let daddr := be32_at (data skb) 30 in
      match neigh_lookup daddr with
      | Some ha =>
          let diff := negb (compare_ether_addr (h_dest skb) ha =? 0) in
          if diff then
            (* memcpy(h_source, h_dest); memcpy(h_dest, n->ha) *)
            (w, SkBuff (ether_addr_octets ha ++ ether_addr_octets (h_dest skb)
                        ++ skipn 12 (data skb)) (protocol skb), true)
          else (w, skb, false)
      | None =>
          if test (vflags (vxlan w)) VXLAN_F_L3MISS
          then (vxlan_ip_miss w daddr, skb, false)
          else (w, skb, false)
      end
  else (w, skb, false).

Definition INADDR_LOOPBACK : Z := 0x7f000001.

(** [vxlan_encap_bypass(skb, src_vxlan, dst_vxlan)], as far as the sending
    device goes: [to_self] tells whether [dst_vxlan] is the sending device
    itself.  On a learning endpoint the frame is snooped with the loopback
    address as its source; the table of another endpoint is not part of
    [world], nor are the counters and the queue of [netif_rx].  What
    [vxlan_snoop] returns is not looked at; [None] is its undefined read. *)
Definition vxlan_encap_bypass (jiffies : Z) (w : world) (skb : sk_buff)
    (to_self : bool) : option world :=
  if to_self then
    if test (vflags (vxlan w)) VXLAN_F_LEARN then
      match vxlan_snoop jiffies w INADDR_LOOPBACK (h_source skb) with
      | Some (w, _) => Some w
      | None => None
      end
    else Some w
  else Some w.


(** [vxlan_xmit_one] with what it does to the sending device: the way
    taken, as [vxlan_xmit_one] above gives it, and the state after the
    [vxlan_encap_bypass] of the two bypass ways. *)
Module Dev.
Definition vxlan_xmit_one (env : xmit_env) (local_peer : Z -> Z -> bool)
    (jiffies : Z) (w : world) (skb : sk_buff) (rdst : vxlan_rdst) (did_rsc : bool)
  : option world * xmit_outcome :=
  let out := vxlan_xmit_one env (vxlan w) skb rdst did_rsc in
  (match out with
   | XMIT_BYPASS_SELF => vxlan_encap_bypass jiffies w skb true
   | XMIT_BYPASS vni port => vxlan_encap_bypass jiffies w skb (local_peer vni port)
   | _ => Some w
   end, out).
End Dev.








(** ** Netlink: neighbour messages *)

Definition EMSGSIZE : Z := 90.
Definition AF_INET : Z := 2.
Definition AF_BRIDGE : Z := 7.
Definition NLM_F_MULTI : Z := 2.

(** [int]: the index of [vxlan_fdb_dump].  An increment past [INT_MAX] is
    taken to wrap. *)
Definition int (z : Z) : Z := (z + 2 ^ 31) mod 2 ^ 32 - 2 ^ 31.
#[global] Arguments int : simpl never.

(** [struct nlmsghdr], the length left out. *)
Record nlmsghdr : Type := Nlmsghdr {
  nlmsg_type : Z;
  nlmsg_flags : Z;
  nlmsg_seq : Z;
  nlmsg_pid : Z
}.

(** [struct ndmsg]; in a module of its own, as [ndm_state] and [ndm_flags]
    also name the arguments of [vxlan_fdb_add]. *)
Module Neigh.
Record ndmsg : Type := Ndmsg {
  ndm_family : Z;
  ndm_ifindex : Z;
  ndm_state : Z;
  ndm_flags : Z;
  ndm_type : Z
}.
End Neigh.

(** [struct nda_cacheinfo] *)
Record nda_cacheinfo : Type := NdaCacheinfo {
  ndm_confirmed : Z;
  ndm_used : Z;
  ndm_updated : Z;
  ndm_refcnt : Z
}.

(** A neighbour message: the two headers and the attributes by type, each
    with its length, those that [vxlan_fdb_parse] reads in the form it
    reads them. *)
Record neigh_msg : Type := NeighMsg {
  nlh : nlmsghdr;
  ndm : Neigh.ndmsg;
  NDA_LLADDR : option (Z * ether_addr);
  nda_tb : nda_attrs;
  NDA_CACHEINFO : option (Z * nda_cacheinfo)
}.

Definition set_NDA_LLADDR (a : Z * ether_addr) (m : neigh_msg) : neigh_msg :=
  NeighMsg (nlh m) (ndm m) (Some a) (nda_tb m) (NDA_CACHEINFO m).
Definition set_NDA_CACHEINFO (a : Z * nda_cacheinfo) (m : neigh_msg) : neigh_msg :=
  NeighMsg (nlh m) (ndm m) (NDA_LLADDR m) (nda_tb m) (Some a).
Definition set_nda_tb (g : nda_attrs -> nda_attrs) (m : neigh_msg) : neigh_msg :=
  NeighMsg (nlh m) (ndm m) (NDA_LLADDR m) (g (nda_tb m)) (NDA_CACHEINFO m).
Definition set_NDA_DST (a : Z * Z) (tb : nda_attrs) : nda_attrs :=
  NdaAttrs (Some a) (NDA_PORT tb) (NDA_VNI tb) (NDA_IFINDEX tb).
Definition set_NDA_PORT (a : Z * Z) (tb : nda_attrs) : nda_attrs :=
  NdaAttrs (NDA_DST tb) (Some a) (NDA_VNI tb) (NDA_IFINDEX tb).
Definition set_NDA_VNI (a : Z * Z) (tb : nda_attrs) : nda_attrs :=
  NdaAttrs (NDA_DST tb) (NDA_PORT tb) (Some a) (NDA_IFINDEX tb).
Definition set_NDA_IFINDEX (a : Z * Z) (tb : nda_attrs) : nda_attrs :=
  NdaAttrs (NDA_DST tb) (NDA_PORT tb) (NDA_VNI tb) (Some a).

(** The buffer a message is written to: the messages it holds, oldest
    first, and [nl_room], the outcomes of the coming [nlmsg_put] and
    [nla_put] calls on it (past the end of the list they succeed). *)
Record nl_skb : Type := NlSkb {
  nl_room : list bool;
  nl_msgs : list neigh_msg
}.

(** Building one message: the room left and the message so far, or no
    message once a put has failed. *)
Definition nl_build (A : Type) : Type := list bool -> list bool * option A.

#[global] Instance nl_build_ret : MRet nl_build :=
  fun A x room => (room, Some x).
#[global] Instance nl_build_bind : MBind nl_build :=
  fun A B k x room =>
    match x room with
    | (room, Some a) => k a room
    | (room, None) => (room, None)
    end.

(** [nlmsg_put]: the header of the new message, when there is room. *)
Definition nlmsg_put (portid seq type nlm_flags : Z) : nl_build nlmsghdr :=
  fun room =>
    match room with
    | [] => ([], Some (Nlmsghdr type nlm_flags seq portid))
    | ok :: room =>
        (room, if ok then Some (Nlmsghdr type nlm_flags seq portid) else None)
    end.

(** [nla_put] and its typed variants, behind the condition of the [if]
    that calls them: not called when the condition is false. *)
Definition nla_put (cond : bool) (set : neigh_msg -> neigh_msg) (m : neigh_msg)
  : nl_build neigh_msg :=
  fun room =>
    if cond then
      match room with
      | [] => ([], Some (set m))
      | ok :: room => (room, if ok then Some (set m) else None)
      end
    else (room, Some m).

(** [vxlan_fdb_info].  [jiffies_to_clock_t] is the kernel's conversion and
    [ifindex] is [vxlan->dev->ifindex]; the argument [flags] of the source is
    [nlm_flags] here.  The result is the buffer and
    [-EMSGSIZE] or, for the non-negative return of [nlmsg_end], the message
    added. *)
Definition vxlan_fdb_info (jiffies_to_clock_t : Z -> Z) (jiffies ifindex : Z)
    (skb : nl_skb) (v : vxlan_dev) (f : vxlan_fdb)
    (portid seq type nlm_flags : Z) (rdst : vxlan_rdst) : nl_skb * (Z + neigh_msg) :=
  let now := jiffies in
  let ndm :=
    Neigh.Ndmsg (if type =? RTM_GETNEIGH then AF_INET else AF_BRIDGE) ifindex
      (state f) (flags f) 1 (* NDA_DST *) in
  let send_ip :=
    if type =? RTM_GETNEIGH then negb (remote_ip rdst =? INADDR_ANY) else true in
  let send_eth :=
    if type =? RTM_GETNEIGH then negb (is_zero_ether_addr (eth_addr f)) else true in
  let ci :=
    NdaCacheinfo 0 (u32 (jiffies_to_clock_t (ulong (now - used f))))
      (u32 (jiffies_to_clock_t (ulong (now - updated f)))) 0 in
  let build : nl_build neigh_msg :=
    nlh ← nlmsg_put portid seq type nlm_flags;
    m ← nla_put send_eth (set_NDA_LLADDR (ETH_ALEN, eth_addr f))
          (NeighMsg nlh ndm None (NdaAttrs None None None None) None);
    m ← nla_put send_ip (set_nda_tb (set_NDA_DST (4, remote_ip rdst))) m;
    m ← nla_put (negb (remote_port rdst =? 0)
                 && negb (remote_port rdst =? dst_port v))
          (set_nda_tb (set_NDA_PORT (2, remote_port rdst))) m;
    m ← nla_put (negb (remote_vni rdst =? remote_vni (default_dst v)))
          (set_nda_tb (set_NDA_VNI (4, remote_vni rdst))) m;
    m ← nla_put (negb (remote_ifindex rdst =? 0))
          (set_nda_tb (set_NDA_IFINDEX (4, remote_ifindex rdst))) m;
    nla_put true (set_NDA_CACHEINFO (16, ci)) m in
  match build (nl_room skb) with
  | (room, Some m) => (NlSkb room (nl_msgs skb ++ [m]), inr m)
  | (room, None) => (NlSkb room (nl_msgs skb), inl (- EMSGSIZE))
  end.

(** ** Netlink: dumping the table *)

(** [list_for_each_entry_rcu(rd, &f->remotes, list)] in [vxlan_fdb_dump];
    the flag is [err < 0]. *)
Fixpoint vxlan_fdb_dump_remotes
    (info : nl_skb -> vxlan_fdb -> vxlan_rdst -> nl_skb * (Z + neigh_msg))
    (f : vxlan_fdb) (rds : list vxlan_rdst) (skb : nl_skb) : nl_skb * bool :=
  match rds with
  | [] => (skb, false)
  | rd :: rds =>
      match info skb f rd with
      | (skb, inl _) => (skb, true)
      | (skb, inr _) => vxlan_fdb_dump_remotes info f rds skb
      end
  end.

(** Where [vxlan_fdb_dump] stands: the buffer, [idx], and whether it has
    left both loops by [goto out]. *)
Record dump_state : Type := Dump {
  dump_skb : nl_skb;
  dump_idx : Z;
  dump_out : bool
}.

(** [hlist_for_each_entry(f, n, &vxlan->fdb_head[h], hlist)] in
    [vxlan_fdb_dump]; [args0] is [cb->args[0]]. *)
Fixpoint vxlan_fdb_dump_chain
    (info : nl_skb -> vxlan_fdb -> vxlan_rdst -> nl_skb * (Z + neigh_msg))
    (args0 : Z) (chain : list vxlan_fdb) (d : dump_state) : dump_state :=
  match chain with
  | [] => d
  | f :: n =>
      if dump_out d then d
      else if dump_idx d <? args0 then
        vxlan_fdb_dump_chain info args0 n (Dump (dump_skb d) (int (dump_idx d + 1)) false)
      else
        let '(skb, err) := vxlan_fdb_dump_remotes info f (remotes f) (dump_skb d) in
        if err then Dump skb (dump_idx d) true
        else vxlan_fdb_dump_chain info args0 n (Dump skb (int (dump_idx d + 1)) false)
  end.

(** [vxlan_fdb_dump]; [pid] is [NETLINK_CB(cb->skb).pid] and [seq] is
    [cb->nlh->nlmsg_seq].  The result is the buffer and the returned
    [idx]. *)
Definition vxlan_fdb_dump (jiffies_to_clock_t : Z -> Z) (jiffies ifindex : Z)
    (pid seq args0 : Z) (skb : nl_skb) (v : vxlan_dev) (idx : Z) : nl_skb * Z :=
  let info skb f rd :=
    vxlan_fdb_info jiffies_to_clock_t jiffies ifindex skb v f pid seq
      RTM_NEWNEIGH NLM_F_MULTI rd in
  let d := fold_left (fun d chain => vxlan_fdb_dump_chain info args0 chain d)
             (vec_to_list (fdb_head v)) (Dump skb idx false) in
  (dump_skb d, dump_idx d).

(** The destinations a dump goes through: each entry with each of its
    destinations, in the order of the lists. *)
Definition fdb_destinations (l : list vxlan_fdb) : list (vxlan_fdb * vxlan_rdst) :=
  flat_map (fun f => map (pair f) (remotes f)) l.

(** [m] is a message that [info] builds for the destination [snd d] of the
    entry [fst d], from some buffer. *)
Definition info_record
    (info : nl_skb -> vxlan_fdb -> vxlan_rdst -> nl_skb * (Z + neigh_msg))
    (m : neigh_msg) (d : vxlan_fdb * vxlan_rdst) : Prop :=
  exists skb skb', info skb (fst d) (snd d) = (skb', inr m).

(** [m] is a message that [vxlan_fdb_info] builds in a dump for the
    destination [snd d] of the entry [fst d]. *)
Definition dump_record (jiffies_to_clock_t : Z -> Z) (jiffies ifindex pid seq : Z)
    (v : vxlan_dev) (m : neigh_msg) (d : vxlan_fdb * vxlan_rdst) : Prop :=
  info_record
    (fun skb f rd =>
       vxlan_fdb_info jiffies_to_clock_t jiffies ifindex skb v f pid seq
         RTM_NEWNEIGH NLM_F_MULTI rd) m d.



(** * Theorems *)

(** ** Receive decoder *)

Lemma vxlan_udp_encap_recv_returns_1 pull_err vs skb :
  fst (vxlan_udp_encap_recv pull_err vs skb) = 1 <->
  (Z.of_nat (length (data skb)) < VXLAN_HLEN
   \/ vx_flags skb <> VXLAN_FLAGS
   \/ Z.land (vx_vni skb) 0xff <> 0).
Proof.
  unfold vxlan_udp_encap_recv, pskb_may_pull.
  destruct (Z.leb_spec VXLAN_HLEN (Z.of_nat (length (data skb)))); simpl.
  - destruct (Z.eqb_spec (vx_flags skb) VXLAN_FLAGS); simpl.
    + destruct (Z.eqb_spec (Z.land (vx_vni skb) 255) 0); simpl.
      * destruct (pull_err =? 0); simpl; [destruct vs; simpl|]; split;
          try discriminate; intros [?|[?|?]]; try lia; congruence.
      * split; auto.
    + split; auto.
  - split; auto.
Qed.

(** C1 (counterexample): a 16-octet datagram whose flags word is exactly
    0x08000000 and whose VNI word 0x00000a01 has a non-zero low octet is
    handed back to the UDP layer with return value 1 (not-VXLAN); it is not
    consumed as a protocol error. *)
Lemma C1_counterexample :
  let skb := SkBuff [0x12; 0x34; 0x12; 0xb5; 0; 16; 0; 0;
                     0x08; 0; 0; 0;  0; 0; 0x0a; 0x01] 0x0800 in
  vx_flags skb = VXLAN_FLAGS /\
  Z.land (vx_vni skb) 0xff <> 0 /\
  vxlan_udp_encap_recv 0 true skb = (1, RETURNED_TO_UDP) /\
  decode 0 true skb = NotVxlan /\
  ~ (decode 0 true skb = NotVxlan <-> vx_flags skb <> VXLAN_FLAGS).
Proof.
  vm_compute. repeat split; try discriminate.
  intros [H _]. apply H; reflexivity.
Qed.

(** C1 (amended): the decoder answers not-VXLAN, returning 1 and leaving the
    buffer to the UDP layer, if and only if the VXLAN header is not fully
    present, or its first word differs from 0x08000000, or the VNI word has a
    non-zero low octet.  A packet is consumed (return value 0) only past
    these checks. *)
Theorem C1_decode_not_vxlan pull_err vs skb :
  (decode pull_err vs skb = NotVxlan <->
     (Z.of_nat (length (data skb)) < VXLAN_HLEN
      \/ vx_flags skb <> VXLAN_FLAGS
      \/ Z.land (vx_vni skb) 0xff <> 0)) /\
  (decode pull_err vs skb = NotVxlan <->
     vxlan_udp_encap_recv pull_err vs skb = (1, RETURNED_TO_UDP)) /\
  (decode pull_err vs skb <> NotVxlan ->
     fst (vxlan_udp_encap_recv pull_err vs skb) = 0).
Proof.
  rewrite <- (vxlan_udp_encap_recv_returns_1 pull_err vs).
  unfold decode, vxlan_udp_encap_recv.
  destruct (pskb_may_pull skb VXLAN_HLEN); simpl.
  - destruct (negb (vx_flags skb =? VXLAN_FLAGS)
              || negb (Z.land (vx_vni skb) 255 =? 0)); simpl.
    + repeat split; congruence.
    + destruct (pull_err =? 0); simpl; [destruct vs; simpl|];
        repeat split; congruence.
  - repeat split; congruence.
Qed.

Lemma C1_decode_not_vxlan_witness :
  let skb := SkBuff [0x12; 0x34; 0x12; 0xb5; 0; 30; 0; 0;
                     0x08; 0; 0; 0;  0; 0; 0x0a; 0x00;
                     0xaa; 0xaa; 0xaa; 0xaa; 0xaa; 0x01;
                     0xcc; 0xcc; 0xcc; 0xcc; 0xcc; 0x03; 0x08; 0x00] 0x0800 in
  decode 0 true skb = Decoded 10
  /\ fst (vxlan_udp_encap_recv 0 true skb) = 0.
Proof.
  intros skb. split; [reflexivity|].
  apply (proj2 (proj2 (C1_decode_not_vxlan 0 true skb))). discriminate.
Defined.

(** ** Endpoint validation *)

Lemma vxlan_validate_id id :
  vxlan_validate None (Some (VxlanAttrs (Some id) None)) =
  if id >=? VXLAN_VID_MASK then - ERANGE else 0.
Proof. unfold vxlan_validate; simpl. destruct (id >=? VXLAN_VID_MASK); reflexivity. Qed.

(** C9: the last VNI of the documented range, 2^24-1 = 16777215, is rejected
    with ERANGE although it is below 2^24: the bound compared against is
    VXLAN_VID_MASK, not VXLAN_N_VID. *)
Theorem C9_validate_rejects_last_vni :
  16777215 < 2 ^ 24 /\
  vxlan_validate None (Some (VxlanAttrs (Some 16777215) None)) = - ERANGE /\
  vxlan_validate None (Some (VxlanAttrs (Some 16777214) None)) = 0.
Proof. vm_compute. repeat split; reflexivity. Qed.

(** The range check as the code has it: ERANGE exactly from 2^24-1 on. *)
Lemma vxlan_validate_erange tb_addr attrs id :
  IFLA_VXLAN_ID attrs = Some id ->
  vxlan_validate tb_addr (Some attrs) = - ERANGE -> 2 ^ 24 - 1 <= id.
Proof.
  intros Hid. unfold vxlan_validate. rewrite Hid.
  destruct tb_addr as [[len addr]|].
  - destruct (negb (len =? ETH_ALEN)); [vm_compute; discriminate|].
    destruct (negb (is_valid_ether_addr addr)); [vm_compute; discriminate|].
    destruct (Z.geb_spec id VXLAN_VID_MASK) as [H|H]; [intros _; exact H|].
    destruct (IFLA_VXLAN_PORT_RANGE attrs) as [[lo hi]|];
      [destruct (hi <? lo)|]; vm_compute; discriminate.
  - destruct (Z.geb_spec id VXLAN_VID_MASK) as [H|H]; [intros _; exact H|].
    destruct (IFLA_VXLAN_PORT_RANGE attrs) as [[lo hi]|];
      [destruct (hi <? lo)|]; vm_compute; discriminate.
Qed.

(** ** Transmit path: source port *)

Lemma u32_small z : 0 <= z < 2 ^ 32 -> u32 z = z.
Proof. intros H. unfold u32. apply Z.mod_small; lia. Qed.

Lemma u32_range z : 0 <= u32 z < 2 ^ 32.
Proof. unfold u32. apply Z.mod_pos_bound. lia. Qed.

Lemma scale_below (hash range : Z) :
  0 <= hash < 2 ^ 32 -> 0 < range ->
  0 <= Z.shiftr (hash * range) 32 < range.
Proof.
  intros Hh Hr. rewrite Z.shiftr_div_pow2 by lia. split.
  - apply Z.div_pos; nia.
  - apply Z.div_lt_upper_bound; nia.
Qed.

(** C8: for a port range lo..hi the source port is
    lo + (hash * (hi - lo + 1)) >> 32 with hash the 32-bit jhash of the first
    2*6 octets of the inner frame seeded with the inner protocol; it lies in
    [lo, hi], and frames that agree on those twelve octets and on the
    protocol get the same port. *)
Theorem C8_src_port env (lo hi : Z) (skb : sk_buff) :
  0 <= lo -> lo <= hi -> hi < 2 ^ 16 ->
  let hash := u32 (jhash env (firstn 12 (data skb)) 12 (u32 (protocol skb))) in
  vxlan_src_port env lo hi skb = lo + Z.shiftr (hash * (hi - lo + 1)) 32
  /\ lo <= vxlan_src_port env lo hi skb <= hi
  /\ (forall skb' : sk_buff,
        firstn 12 (data skb') = firstn 12 (data skb) ->
        protocol skb' = protocol skb ->
        vxlan_src_port env lo hi skb' = vxlan_src_port env lo hi skb).
Proof.
  intros Hlo Hle Hhi hash.
  assert (Hport : vxlan_src_port env lo hi skb
                  = lo + Z.shiftr (hash * (hi - lo + 1)) 32).
  { unfold vxlan_src_port. change (Z.to_nat (2 * ETH_ALEN)) with 12%nat.
    change (2 * ETH_ALEN) with 12. fold hash.
    assert (Hh : 0 <= hash < 2 ^ 32) by apply u32_range.
    rewrite (u32_small (hi - lo + 1)) by lia.
    pose proof (scale_below hash (hi - lo + 1) Hh ltac:(lia)) as Hs.
    assert (Hm : u64 (hash * (hi - lo + 1)) = hash * (hi - lo + 1)).
    { unfold u64. apply Z.mod_small. nia. }
    rewrite Hm. unfold u64, u16.
    rewrite (Z.mod_small (_ + lo)) by lia.
    rewrite Z.mod_small by lia. lia. }
  split; [exact Hport|]. split.
  - rewrite Hport.
    pose proof (scale_below hash (hi - lo + 1) (u32_range _) ltac:(lia)). lia.
  - intros skb' Hd Hp. unfold vxlan_src_port.
    change (Z.to_nat (2 * ETH_ALEN)) with 12%nat. rewrite Hd, Hp. reflexivity.
Qed.

Lemma C8_src_port_witness :
  let skb := SkBuff [0xbb; 0xbb; 0xbb; 0xbb; 0xbb; 0x02;
                     0xaa; 0xaa; 0xaa; 0xaa; 0xaa; 0x01; 0x08; 0x00] 0x0800 in
  32768 <= vxlan_src_port example_env 32768 61000 skb <= 61000.
Proof.
  intros skb.
  exact (proj1 (proj2 (C8_src_port example_env 32768 61000 skb
                         ltac:(lia) ltac:(lia) ltac:(lia)))).
Defined.

(** ** Transmit path: type of service *)

(** C7 (counterexample): with the endpoint's tos at 0 and an inner IPv4
    header of DS field 0xb8, the outer TOS is 0, not the inner DSCP; and the
    non-zero value 1 is not used verbatim: the outer TOS is then the inner
    0xb8. *)
Lemma C7_counterexample :
  let skb := SkBuff [0xbb; 0xbb; 0xbb; 0xbb; 0xbb; 0x02;
                     0xaa; 0xaa; 0xaa; 0xaa; 0xaa; 0x01; 0x08; 0x00;
                     0x45; 0xb8; 0; 20] ETH_P_IP in
  let rdst := Rdst 0x0a000005 0 10 0 in
  let endpoint tos :=
    VxlanDev true (NetDevice true (EtherAddr 2 0 0 0 0 1)) (Rdst 0 0 10 0)
      0 4789 32768 61000 tos 0 VXLAN_F_LEARN 300 None 0 0
      (vreplicate FDB_HASH_SIZE []) in
  ip_tunnel_get_dsfield example_env skb = 0xb8 /\
  (exists fl4 e err,
     vxlan_xmit_one example_env (endpoint 0) skb rdst false = XMIT_SKB fl4 e err
     /\ encap_tos e = 0) /\
  (exists fl4 e err,
     vxlan_xmit_one example_env (endpoint 1) skb rdst false = XMIT_SKB fl4 e err
     /\ encap_tos e = 0xb8).
Proof.
  split; [reflexivity|]. split; do 3 eexists; split; vm_compute; reflexivity.
Qed.

(** C7 (amended): on transmit encapsulation the TOS given to the outer
    header is built from the endpoint's tos for every value other than 1,
    the value 0 included; tos = 1 stands for the DS field of the inner IP
    header.  In both cases the ECN encapsulation of that value is what goes
    out, and the route lookup is keyed by its RT_TOS bits. *)
Theorem C7_xmit_tos env v skb rdst did_rsc fl4 e err :
  vxlan_xmit_one env v skb rdst did_rsc = XMIT_SKB fl4 e err ->
  let chosen := if tos v =? 1 then u8 (ip_tunnel_get_dsfield env skb) else tos v in
  encap_tos e = u8 (ip_tunnel_ecn_encap env chosen skb)
  /\ fl4_tos fl4 = RT_TOS chosen
  /\ (tos v <> 1 -> chosen = tos v)
  /\ (tos v = 1 -> chosen = u8 (ip_tunnel_get_dsfield env skb)).
Proof.
  intros H chosen. unfold vxlan_xmit_one in H. fold chosen in H.
  destruct (remote_ip rdst =? 0); [destruct did_rsc; discriminate|].
  destruct (ip_route_output_key env _) as [rt|]; [|discriminate].
  destruct (rt_dev_is_self rt); [discriminate|].
  destruct (test (rt_flags rt) RTCF_LOCAL && _);
    [destruct (vxlan_find_vni env _ _); discriminate|].
  injection H as <- <- <-. simpl. repeat split.
  - intros Hne. unfold chosen. destruct (Z.eqb_spec (tos v) 1); [contradiction|reflexivity].
  - intros Heq. unfold chosen. rewrite Heq. reflexivity.
Qed.

Lemma C7_xmit_tos_witness :
  let skb := SkBuff [0xbb; 0xbb; 0xbb; 0xbb; 0xbb; 0x02;
                     0xaa; 0xaa; 0xaa; 0xaa; 0xaa; 0x01; 0x08; 0x00;
                     0x45; 0xb8; 0; 20] ETH_P_IP in
  let v := VxlanDev true (NetDevice true (EtherAddr 2 0 0 0 0 1)) (Rdst 0 0 10 0)
             0 4789 32768 61000 0x20 0 VXLAN_F_LEARN 300 None 0 0
             (vreplicate FDB_HASH_SIZE []) in
  exists fl4 e err,
    vxlan_xmit_one example_env v skb (Rdst 0x0a000005 0 10 0) false
      = XMIT_SKB fl4 e err
    /\ encap_tos e = 0x20.
Proof.
  intros skb v. do 3 eexists. split; [vm_compute; reflexivity|].
  exact (proj1 (C7_xmit_tos example_env v skb (Rdst 0x0a000005 0 10 0) false
                  _ _ _ eq_refl)).
Defined.

(** ** Forwarding database: lookup after a store *)

Lemma mac_is_true mac f : mac_is mac f = true <-> eth_addr f = mac.
Proof.
  unfold mac_is, compare_ether_addr.
  destruct (decide (mac = eth_addr f)); simpl; split; intros; congruence.
Qed.

Lemma mac_is_false mac f : mac_is mac f = false <-> eth_addr f <> mac.
Proof.
  rewrite <- mac_is_true. destruct (mac_is mac f); split; congruence.
Qed.

Lemma find_mac_is mac chain f :
  find (mac_is mac) chain = Some f -> eth_addr f = mac.
Proof. intros H. apply find_some in H as [_ H]. by apply mac_is_true. Qed.

Lemma find_hlist_store_eq mac f' chain :
  eth_addr f' = mac ->
  find (mac_is mac) (hlist_store mac f' chain)
  = match find (mac_is mac) chain with Some _ => Some f' | None => None end.
Proof.
  intros Hf'. induction chain as [|f n IH]; simpl; [done|].
  destruct (mac_is mac f) eqn:E; simpl.
  - apply mac_is_true in Hf'. by rewrite Hf'.
  - by rewrite E.
Qed.

Lemma find_hlist_store_ne mac mac' f' chain :
  eth_addr f' = mac -> mac' <> mac ->
  find (mac_is mac') (hlist_store mac f' chain) = find (mac_is mac') chain.
Proof.
  intros Hf' Hne. induction chain as [|f n IH]; simpl; [done|].
  destruct (mac_is mac f) eqn:E; simpl.
  - apply mac_is_true in E.
    assert (mac_is mac' f' = false) as -> by (apply mac_is_false; congruence).
    assert (mac_is mac' f = false) as -> by (apply mac_is_false; congruence).
    done.
  - by rewrite IH.
Qed.


Lemma map_eth_addr_hlist_store mac f' chain :
  eth_addr f' = mac ->
  map eth_addr (hlist_store mac f' chain) = map eth_addr chain.
Proof.
  intros Hf'. induction chain as [|f n IH]; simpl; [done|].
  destruct (mac_is mac f) eqn:E; simpl.
  - apply mac_is_true in E. congruence.
  - by rewrite IH.
Qed.

Lemma fdb_head_set_fdb cnt tbl v : fdb_head (set_fdb cnt tbl v) = tbl.
Proof. reflexivity. Qed.

Lemma find_mac_fdb_write_eq v mac f' :
  eth_addr f' = mac ->
  __vxlan_find_mac (fdb_write mac f' v) mac
  = match __vxlan_find_mac v mac with Some _ => Some f' | None => None end.
Proof.
  intros Hf'. unfold __vxlan_find_mac, vxlan_fdb_head, fdb_write.
  rewrite fdb_head_set_fdb, vlookup_insert. by apply find_hlist_store_eq.
Qed.

Lemma find_mac_fdb_write_ne v mac mac' f' :
  eth_addr f' = mac -> mac' <> mac ->
  __vxlan_find_mac (fdb_write mac f' v) mac' = __vxlan_find_mac v mac'.
Proof.
  intros Hf' Hne. unfold __vxlan_find_mac, vxlan_fdb_head, fdb_write.
  rewrite fdb_head_set_fdb.
  destruct (decide (fdb_index mac = fdb_index mac')) as [Hi|Hi].
  - rewrite Hi, vlookup_insert, <- Hi. by apply find_hlist_store_ne.
  - by rewrite vlookup_insert_ne.
Qed.

Lemma fdb_macs_fdb_write v mac f' :
  eth_addr f' = mac -> fdb_macs (fdb_write mac f' v) = fdb_macs v.
Proof.
  intros Hf'. unfold fdb_macs, fdb_write. rewrite fdb_head_set_fdb.
  apply vec_eq. intros i. rewrite !vlookup_map.
  destruct (decide (fdb_index mac = i)) as [<-|Hi].
  - rewrite vlookup_insert. by apply map_eth_addr_hlist_store.
  - by rewrite vlookup_insert_ne.
Qed.

Lemma eth_addr_set_used j f : eth_addr (set_used j f) = eth_addr f.
Proof. reflexivity. Qed.

Lemma vxlan_find_mac_hit jiffies v mac f :
  __vxlan_find_mac v mac = Some f ->
  vxlan_find_mac jiffies v mac
  = (fdb_write mac (set_used jiffies f) v, Some (set_used jiffies f)).
Proof. intros H. unfold vxlan_find_mac. by rewrite H. Qed.

Lemma vxlan_find_mac_miss jiffies v mac :
  __vxlan_find_mac v mac = None -> vxlan_find_mac jiffies v mac = (v, None).
Proof. intros H. unfold vxlan_find_mac. by rewrite H. Qed.

(** ** Allocation *)

Lemma kmalloc_ok_S n pool :
  kmalloc_ok (S n) pool ->
  kmalloc pool = (true, drop 1 pool) /\ kmalloc_ok n (drop 1 pool).
Proof.
  unfold kmalloc_ok. destruct pool as [|ok pool]; simpl.
  - intros _. split; [done|]. rewrite take_nil. constructor.
  - intros H. inversion H as [|? ? Hok Hrest]; subst. rewrite drop_0. done.
Qed.

(** ** Forwarding database: creation of a new entry *)

Lemma vxlan_fdb_create_new jiffies w mac ip nud_state nlm_flags port vni ifindex ndm_flags :
  __vxlan_find_mac (vxlan w) mac = None ->
  test nlm_flags NLM_F_CREATE = true ->
  fdb_full (vxlan w) = false ->
  test nlm_flags NLM_F_REPLACE
    && (is_multicast_ether_addr mac || is_zero_ether_addr mac) = false ->
  kmalloc_ok 2 (atomic_pool w) ->
  let v := vxlan w in
  let f := Fdb jiffies jiffies [Rdst ip port vni ifindex] nud_state ndm_flags mac in
  vxlan_fdb_create jiffies w mac ip nud_state nlm_flags port vni ifindex ndm_flags
  = (World
       (set_fdb (u32 (addrcnt v + 1))
          (vinsert (fdb_index mac) (f :: vxlan_fdb_head v mac) (fdb_head v)) v)
       (drop 2 (atomic_pool w)) ((RTM_NEWNEIGH, f) :: rtnl w), 0).
Proof.
  intros Hnone Hcreate Hfull Hrepl Hpool v f.
  unfold vxlan_fdb_create. rewrite Hnone, Hcreate. simpl negb. cbv iota.
  unfold fdb_full in Hfull. rewrite Hfull, Hrepl.
  apply kmalloc_ok_S in Hpool as [Hk1 Hpool].
  apply kmalloc_ok_S in Hpool as [Hk2 _].
  rewrite Hk1. simpl negb. cbv iota.
  unfold vxlan_fdb_append, vxlan_fdb_find_rdst. simpl find.
  rewrite Hk2. cbn [negb set_remotes remotes app]. rewrite drop_drop. reflexivity.
Qed.



(** ** Receive path: learning *)


Lemma lookup_same_except_fdb_write v mac f' :
  eth_addr f' = mac -> lookup_same_except mac v (fdb_write mac f' v).
Proof. intros Hf' mac' Hne. by apply find_mac_fdb_write_ne. Qed.




(** ** Forwarding database: properties of every entry *)

Lemma fdb_entries_Forall (P : vxlan_fdb -> Prop) v :
  Forall P (fdb_entries v) <-> forall i, Forall P (fdb_head v !!! i).
Proof.
  unfold fdb_entries. rewrite Forall_concat. apply Forall_vlookup.
Qed.

Lemma Forall_hlist_store (P : vxlan_fdb -> Prop) mac f' chain :
  (find (mac_is mac) chain <> None -> P f') ->
  Forall P chain -> Forall P (hlist_store mac f' chain).
Proof.
  induction chain as [|f n IH]; cbn [hlist_store find]; [done|].
  intros Hf' Hall. inversion Hall as [|? ? Hf Hn]; subst.
  destruct (mac_is mac f).
  - constructor; [by apply Hf'|done].
  - constructor; [done|]. by apply IH.
Qed.

Lemma Forall_hlist_del (P : vxlan_fdb -> Prop) mac chain :
  Forall P chain -> Forall P (hlist_del mac chain).
Proof.
  induction chain as [|f n IH]; cbn [hlist_del]; [done|].
  intros Hall. inversion Hall as [|? ? Hf Hn]; subst.
  destruct (mac_is mac f); [done|]. constructor; [done|]. by apply IH.
Qed.

Lemma Forall_fdb_insert (P : vxlan_fdb -> Prop) v cnt i chain :
  Forall P (fdb_entries v) -> Forall P chain ->
  Forall P (fdb_entries (set_fdb cnt (vinsert i chain (fdb_head v)) v)).
Proof.
  rewrite !fdb_entries_Forall. intros Hall Hchain j.
  rewrite fdb_head_set_fdb.
  destruct (decide (i = j)) as [<-|Hne].
  - by rewrite vlookup_insert.
  - by rewrite vlookup_insert_ne.
Qed.

Lemma Forall_fdb_write (P : vxlan_fdb -> Prop) v mac f' :
  (__vxlan_find_mac v mac <> None -> P f') ->
  Forall P (fdb_entries v) -> Forall P (fdb_entries (fdb_write mac f' v)).
Proof.
  intros Hf' Hall. unfold fdb_write. apply Forall_fdb_insert; [done|].
  apply Forall_hlist_store; [done|].
  apply fdb_entries_Forall. done.
Qed.

Lemma find_mac_Forall (P : vxlan_fdb -> Prop) v mac f :
  Forall P (fdb_entries v) -> __vxlan_find_mac v mac = Some f -> P f.
Proof.
  intros Hall Hf. unfold __vxlan_find_mac in Hf. apply find_some in Hf as [Hin _].
  rewrite fdb_entries_Forall in Hall. specialize (Hall (fdb_index mac)).
  rewrite Forall_forall in Hall. apply Hall. by apply list_elem_of_In.
Qed.

(** ** Forwarding database: entries keep a destination *)

Lemma list_del_rdst_nonempty ip port vni ifindex l :
  l <> [] -> list_is_singular l = false ->
  list_del_rdst ip port vni ifindex l <> [].
Proof.
  destruct l as [|a [|b l]]; [done|done|]. intros _ _.
  cbn [list_del_rdst]. destruct (rdst_is ip port vni ifindex a); [done|].
  destruct (rdst_is ip port vni ifindex b); done.
Qed.

(** Whatever the netlink delete does, it leaves no entry without a
    destination: the last destination goes together with its entry. *)
Lemma vxlan_fdb_delete_remotes_nonempty dev_get_by_index jiffies w tb addr :
  remotes_nonempty (vxlan w) ->
  remotes_nonempty (vxlan (fst (vxlan_fdb_delete dev_get_by_index jiffies w tb addr))).
Proof.
  unfold remotes_nonempty, vxlan_fdb_delete. intros Hinv.
  destruct (vxlan_fdb_parse _ _ _) as [err|[[[ip port] vni] ifindex]]; [done|].
  unfold vxlan_find_mac.
  destruct (__vxlan_find_mac (vxlan w) addr) as [f|] eqn:Hf; [|done].
  pose proof (find_mac_Forall _ _ _ _ Hinv Hf) as Hrem.
  assert (Hinv1 : Forall (fun f => remotes f <> [])
                    (fdb_entries (fdb_write addr (set_used jiffies f) (vxlan w)))).
  { apply Forall_fdb_write; done. }
  cbv zeta.
  destruct (negb (ip =? INADDR_ANY) && negb (bool_decide (is_Some _))); [done|].
  destruct (bool_decide (is_Some _) && negb (list_is_singular _)) eqn:Hcase.
  - cbn [fst vxlan set_vxlan]. apply Forall_fdb_write; [|done]. intros _.
    apply andb_true_iff in Hcase as [_ Hs]. apply negb_true_iff in Hs.
    cbn [set_remotes remotes set_used] in *. by apply list_del_rdst_nonempty.
  - cbn [fst]. unfold vxlan_fdb_destroy. cbn [vxlan vxlan_fdb_notify set_vxlan].
    apply Forall_fdb_insert; [done|].
    apply Forall_hlist_del. apply fdb_entries_Forall. done.
Qed.

(** The shape of [vxlan_fdb_create] on an entry that exists: whatever the
    options and the outcome, the effect on the table is a store to that
    entry, which keeps its address and does not lose its last destination. *)
Lemma vxlan_fdb_create_existing jiffies w mac ip nud_state nlm_flags
    port vni ifindex ndm_flags f :
  __vxlan_find_mac (vxlan w) mac = Some f ->
  test nlm_flags NLM_F_EXCL = false ->
  exists f' pool' log' rc,
    vxlan_fdb_create jiffies w mac ip nud_state nlm_flags port vni ifindex ndm_flags
    = (World (fdb_write mac f' (vxlan w)) pool' log', rc)
    /\ eth_addr f' = mac
    /\ used f' = used f
    /\ (remotes f <> [] -> remotes f' <> []).
Proof.
  intros Hf Hexcl. pose proof (find_mac_is _ _ _ Hf) as Hmac. subst mac.
  unfold vxlan_fdb_create. rewrite Hf, Hexcl.
  unfold vxlan_fdb_replace, vxlan_fdb_append, vxlan_fdb_find_rdst.
  fdb_reduce. repeat (case_inner; fdb_reduce).
  all: (eexists _, _, _, _; split; [reflexivity|]); fdb_reduce.
  all: repeat split; try done.
  all: intros Hne Happ; by apply app_eq_nil in Happ as [_ ?].
Qed.

Lemma vxlan_fdb_create_remotes_nonempty jiffies w mac ip nud_state nlm_flags
    port vni ifindex ndm_flags :
  kmalloc_ok 2 (atomic_pool w) ->
  remotes_nonempty (vxlan w) ->
  remotes_nonempty (vxlan (fst (vxlan_fdb_create jiffies w mac ip nud_state
                                  nlm_flags port vni ifindex ndm_flags))).
Proof.
  unfold remotes_nonempty. intros Hpool Hinv.
  destruct (__vxlan_find_mac (vxlan w) mac) as [f|] eqn:Hf.
  - pose proof (find_mac_Forall _ _ _ _ Hinv Hf) as Hrem.
    destruct (test nlm_flags NLM_F_EXCL) eqn:Hexcl.
    + unfold vxlan_fdb_create. by rewrite Hf, Hexcl.
    + destruct (vxlan_fdb_create_existing jiffies w mac ip nud_state nlm_flags
                  port vni ifindex ndm_flags f Hf Hexcl)
        as (f' & pool' & log' & rc & -> & _ & _ & Hrem').
      cbn [fst vxlan]. apply Forall_fdb_write; [|done]. intros _. by apply Hrem'.
  - destruct (test nlm_flags NLM_F_CREATE) eqn:Hc;
      [|unfold vxlan_fdb_create; by rewrite Hf, Hc].
    destruct (fdb_full (vxlan w)) eqn:Hfull;
      [unfold vxlan_fdb_create; rewrite Hf, Hc; cbn [negb];
       unfold fdb_full in Hfull; by rewrite Hfull|].
    destruct (test nlm_flags NLM_F_REPLACE
              && (is_multicast_ether_addr mac || is_zero_ether_addr mac))
      eqn:Hrepl;
      [unfold vxlan_fdb_create; rewrite Hf, Hc; cbn [negb];
       unfold fdb_full in Hfull; by rewrite Hfull, Hrepl|].
    rewrite vxlan_fdb_create_new by done. cbn [fst vxlan].
    apply Forall_fdb_insert; [done|]. constructor; [done|].
    apply fdb_entries_Forall. done.
Qed.

(** C2: when the atomic allocation of the entry succeeds and that of its
    first destination fails, [vxlan_fdb_create] ignores the error of
    [vxlan_fdb_append], reports success and links an entry whose list of
    destinations is empty.  The lookup returns that entry, and the next
    packet from the address makes [vxlan_snoop] read the first destination
    of an empty list. *)
Theorem C2_entry_without_destination :
  let w := set_pool [true; false] example_world in
  let r := vxlan_fdb_create 1000 w mac_aa01 0x0a000005 NUD_REACHABLE
             (Z.lor NLM_F_CREATE NLM_F_EXCL) 4789 10 0 NTF_SELF in
  remotes_nonempty (vxlan w)
  /\ snd r = 0
  /\ __vxlan_find_mac (vxlan (fst r)) mac_aa01
     = Some (Fdb 1000 1000 [] NUD_REACHABLE NTF_SELF mac_aa01)
  /\ ~ remotes_nonempty (vxlan (fst r))
  /\ vxlan_snoop 1000 w 0x0a000005 mac_aa01 = Some (fst r, false)
  /\ vxlan_snoop 2000 (fst r) 0x0a000005 mac_aa01 = None.
Proof.
  intros w r. unfold remotes_nonempty.
  split; [apply (bool_decide_unpack _); vm_compute; exact I|].
  split; [vm_compute; reflexivity|]. split; [vm_compute; reflexivity|].
  split.
  - intros H. apply (bool_decide_pack _) in H. vm_compute in H. exact H.
  - split; vm_compute; reflexivity.
Qed.

(** ** Forwarding database: update of an existing entry *)

(** What [vxlan_fdb_create] does to an entry that exists, option by option. *)
Lemma vxlan_fdb_create_update jiffies w mac ip nud_state nlm_flags
    port vni ifindex ndm_flags f :
  __vxlan_find_mac (vxlan w) mac = Some f ->
  test nlm_flags NLM_F_EXCL = false ->
  let group := is_multicast_ether_addr mac || is_zero_ether_addr mac in
  let new := Rdst ip port vni ifindex in
  exists f' pool' log' rc,
    vxlan_fdb_create jiffies w mac ip nud_state nlm_flags port vni ifindex ndm_flags
    = (World (fdb_write mac f' (vxlan w)) pool' log', rc)
    /\ eth_addr f' = mac /\ used f' = used f
    /\ state f' = nud_state /\ flags f' = ndm_flags
    /\ (if test nlm_flags NLM_F_REPLACE then
          pool' = atomic_pool w
          /\ (if group then rc = - EOPNOTSUPP /\ remotes f' = remotes f
              else rc = 0
                   /\ remotes f'
                      = match vxlan_fdb_find_rdst f ip port vni ifindex, remotes f with
                        | None, _ :: rest => new :: rest
                        | _, _ => remotes f
                        end)
        else if test nlm_flags NLM_F_APPEND && group then
          match vxlan_fdb_find_rdst f ip port vni ifindex with
          | Some _ => rc = 0 /\ pool' = atomic_pool w /\ remotes f' = remotes f
          | None =>
              pool' = snd (kmalloc (atomic_pool w))
              /\ (if fst (kmalloc (atomic_pool w))
                  then rc = 0 /\ remotes f' = remotes f ++ [new]
                  else rc = - ENOBUFS /\ remotes f' = remotes f)
          end
        else rc = 0 /\ pool' = atomic_pool w /\ remotes f' = remotes f).
Proof.
  intros Hf Hexcl group new. pose proof (find_mac_is _ _ _ Hf) as Hmac. subst mac.
  unfold vxlan_fdb_create. rewrite Hf, Hexcl. subst group new.
  unfold vxlan_fdb_replace, vxlan_fdb_append, vxlan_fdb_find_rdst.
  fdb_reduce. repeat (case_inner; fdb_reduce).
  all: (eexists _, _, _, _; split; [reflexivity|]); fdb_reduce.
  all: repeat match goal with
              | H : (_ =? _) = true |- _ => apply Z.eqb_eq in H
              end.
  all: repeat split; try done; try congruence.
Qed.

Lemma rdst_is_true ip port vni ifindex rd :
  rdst_is ip port vni ifindex rd = true <-> rd = Rdst ip port vni ifindex.
Proof.
  unfold rdst_is. rewrite !andb_true_iff, !Z.eqb_eq. destruct rd; cbn. split.
  - intros [[[-> ->] ->] ->]. done.
  - intros [= -> -> -> ->]. done.
Qed.

Lemma vxlan_fdb_find_rdst_spec f ip port vni ifindex :
  vxlan_fdb_find_rdst f ip port vni ifindex
  = if decide (Rdst ip port vni ifindex ∈ remotes f)
    then Some (Rdst ip port vni ifindex) else None.
Proof.
  unfold vxlan_fdb_find_rdst. induction (remotes f) as [|rd l IH]; cbn [find].
  - destruct (decide _) as [Hin|]; [|done]. by apply elem_of_nil in Hin.
  - destruct (rdst_is ip port vni ifindex rd) eqn:E.
    + apply rdst_is_true in E. subst rd. rewrite decide_True; [done|]. by left.
    + rewrite IH. destruct (decide (_ ∈ l)) as [Hin|Hnin].
      * rewrite decide_True; [done|]. by right.
      * rewrite decide_False; [done|]. intros [Heq|Hin]%elem_of_cons; [|done].
        subst rd.
        assert (rdst_is ip port vni ifindex (Rdst ip port vni ifindex) = true)
          by by apply rdst_is_true.
        congruence.
Qed.

(** ** Forwarding database: REPLACE *)

(** A REPLACE on an existing entry under a multicast or all-zero MAC: the
    state and the flags have been stored when the call is refused. *)
Lemma vxlan_fdb_create_replace_refused jiffies w mac ip nud_state nlm_flags port vni
    ifindex ndm_flags f :
  __vxlan_find_mac (vxlan w) mac = Some f ->
  test nlm_flags NLM_F_EXCL = false ->
  test nlm_flags NLM_F_REPLACE = true ->
  is_multicast_ether_addr mac || is_zero_ether_addr mac = true ->
  vxlan_fdb_create jiffies w mac ip nud_state nlm_flags port vni ifindex ndm_flags
  = (set_vxlan
       (fdb_write mac
          (Fdb (if (state f =? nud_state) && (flags f =? ndm_flags)
                then updated f else jiffies)
             (used f) (remotes f) nud_state ndm_flags mac)
          (vxlan w)) w,
     - EOPNOTSUPP).
Proof.
  intros Hf Hexcl Hrepl Hgroup. pose proof (find_mac_is _ _ _ Hf) as Hmac. subst mac.
  unfold vxlan_fdb_create. rewrite Hf, Hexcl, Hrepl.
  destruct (state f =? nud_state) eqn:Hst, (flags f =? ndm_flags) eqn:Hfl;
    cbn [negb andb]; cbv beta iota zeta;
    cbn [set_updated set_state set_flags eth_addr state flags remotes used updated];
    rewrite ?Hst, ?Hfl, ?Z.eqb_refl; cbn [negb];
    cbn [set_updated set_state set_flags eth_addr state flags remotes used updated];
    rewrite Hgroup; cbn [negb];
    try apply Z.eqb_eq in Hst; try apply Z.eqb_eq in Hfl; subst;
    destruct f; reflexivity.
Qed.

(** C4: with REPLACE (and without EXCL) on an existing entry under a unicast
    MAC the call succeeds, takes nothing from the allocator, leaves the
    chains with the same addresses in the same order and every other entry
    as it was, and an entry with a single destination has exactly the new
    destination afterwards.  Under a multicast or all-zero MAC the call is
    refused with EOPNOTSUPP: the destinations of the entry and its last-use
    time, every other entry, the chains, the entry count, the allocator and
    the notification log are as before the call; the state and the flags of
    the call have been stored in the entry all the same, with the update
    time set when they changed it, and no notification is sent for that.
    REPLACE on creation of an entry for a multicast or all-zero MAC (CREATE
    given, table not full) is refused with EOPNOTSUPP as well, and nothing
    changes. *)
Theorem C4_replace jiffies w mac ip nud_state nlm_flags port vni ifindex ndm_flags :
  test nlm_flags NLM_F_REPLACE = true ->
  let r := vxlan_fdb_create jiffies w mac ip nud_state nlm_flags port vni
             ifindex ndm_flags in
  let group := is_multicast_ether_addr mac || is_zero_ether_addr mac in
  (forall f,
     __vxlan_find_mac (vxlan w) mac = Some f ->
     test nlm_flags NLM_F_EXCL = false ->
     if group then
       snd r = - EOPNOTSUPP
       /\ atomic_pool (fst r) = atomic_pool w
       /\ rtnl (fst r) = rtnl w
       /\ addrcnt (vxlan (fst r)) = addrcnt (vxlan w)
       /\ fdb_macs (vxlan (fst r)) = fdb_macs (vxlan w)
       /\ lookup_same_except mac (vxlan w) (vxlan (fst r))
       /\ __vxlan_find_mac (vxlan (fst r)) mac
          = Some (Fdb (if (state f =? nud_state) && (flags f =? ndm_flags)
                       then updated f else jiffies)
                    (used f) (remotes f) nud_state ndm_flags mac)
     else
       snd r = 0
       /\ atomic_pool (fst r) = atomic_pool w
       /\ addrcnt (vxlan (fst r)) = addrcnt (vxlan w)
       /\ fdb_macs (vxlan (fst r)) = fdb_macs (vxlan w)
       /\ lookup_same_except mac (vxlan w) (vxlan (fst r))
       /\ exists f',
            __vxlan_find_mac (vxlan (fst r)) mac = Some f'
            /\ state f' = nud_state /\ flags f' = ndm_flags
            /\ length (remotes f') = length (remotes f)
            /\ (forall rd, remotes f = [rd] ->
                           remotes f' = [Rdst ip port vni ifindex]))
  /\ (__vxlan_find_mac (vxlan w) mac = None ->
      test nlm_flags NLM_F_CREATE = true ->
      fdb_full (vxlan w) = false ->
      group = true ->
      r = (w, - EOPNOTSUPP)).
Proof.
  intros Hrepl r group. split.
  - intros f Hf Hexcl. destruct group eqn:Hgroup.
    + unfold r.
      rewrite (vxlan_fdb_create_replace_refused jiffies w mac ip nud_state nlm_flags
                 port vni ifindex ndm_flags f Hf Hexcl Hrepl Hgroup).
      cbn [fst snd set_vxlan vxlan atomic_pool rtnl].
      split_and!; try done.
      * by apply fdb_macs_fdb_write.
      * by apply lookup_same_except_fdb_write.
      * rewrite find_mac_fdb_write_eq by done. by rewrite Hf.
    + destruct (vxlan_fdb_create_update jiffies w mac ip nud_state nlm_flags
                  port vni ifindex ndm_flags f Hf Hexcl)
        as (f' & pool' & log' & rc & Hr & Hmac & _ & Hst & Hfl & Hcase).
      fold r in Hr. rewrite Hrepl in Hcase. fold group in Hcase.
      rewrite Hgroup in Hcase.
      destruct Hcase as [-> Hcase]. rewrite Hr. cbn [fst snd vxlan atomic_pool].
      destruct Hcase as [-> Hrem].
      repeat split.
      * by apply fdb_macs_fdb_write.
      * by apply lookup_same_except_fdb_write.
      * exists f'. rewrite find_mac_fdb_write_eq by done. rewrite Hf.
        repeat split; try done.
        -- rewrite Hrem. destruct (vxlan_fdb_find_rdst f ip port vni ifindex); [done|].
           by destruct (remotes f).
        -- intros rd Hsingle. rewrite Hrem, vxlan_fdb_find_rdst_spec, Hsingle.
           destruct (decide _) as [Hin|]; [|done].
           apply list_elem_of_singleton in Hin. by rewrite Hin.
  - intros Hnone Hcreate Hfull Hgroup. unfold r, vxlan_fdb_create.
    rewrite Hnone, Hcreate. cbn [negb]. unfold fdb_full in Hfull.
    rewrite Hfull, Hrepl. fold group. by rewrite Hgroup.
Qed.

Lemma C4_replace_witness :
  let w := fst (vxlan_fdb_add (fun _ => true) 2000 example_world NUD_PERMANENT
                  NTF_SELF (NdaAttrs (Some (4, 0x0a000008)) None None None)
                  mac_ee04 (Z.lor NLM_F_CREATE NLM_F_EXCL)) in
  let r := vxlan_fdb_create 3000 w mac_ee04 0x0a000009 NUD_PERMANENT
             (Z.lor NLM_F_CREATE NLM_F_REPLACE) 4789 10 0 NTF_SELF in
  let r0 := vxlan_fdb_create 3000 example_world all_zeros_mac 0x0a000009
              NUD_REACHABLE (Z.lor NLM_F_CREATE NLM_F_REPLACE) 4789 10 0 NTF_SELF in
  (snd r = 0
   /\ exists f', __vxlan_find_mac (vxlan (fst r)) mac_ee04 = Some f'
                 /\ remotes f' = [Rdst 0x0a000009 4789 10 0])
  /\ (snd r0 = - EOPNOTSUPP
      /\ __vxlan_find_mac (vxlan (fst r0)) all_zeros_mac
         = Some (Fdb 3000 0 [Rdst 0xef010101 4789 10 0] NUD_REACHABLE NTF_SELF
                   all_zeros_mac)).
Proof.
  intros w r r0. split.
  - pose proof (proj1 (C4_replace 3000 w mac_ee04 0x0a000009 NUD_PERMANENT
                         (Z.lor NLM_F_CREATE NLM_F_REPLACE) 4789 10 0 NTF_SELF
                         eq_refl)
                  (Fdb 2000 2000 [Rdst 0x0a000008 4789 10 0] NUD_PERMANENT
                     NTF_SELF mac_ee04)
                  ltac:(vm_compute; reflexivity) eq_refl) as H.
    cbv beta zeta in H. change (is_multicast_ether_addr mac_ee04
                                || is_zero_ether_addr mac_ee04) with false in H.
    cbv iota in H. destruct H as (Hrc & _ & _ & _ & _ & f' & Hl & _ & _ & _ & Hrem).
    split; [exact Hrc|]. exists f'. split; [exact Hl|]. by apply (Hrem _ eq_refl).
  - pose proof (proj1 (C4_replace 3000 example_world all_zeros_mac 0x0a000009
                         NUD_REACHABLE (Z.lor NLM_F_CREATE NLM_F_REPLACE) 4789 10 0
                         NTF_SELF eq_refl)
                  (Fdb 0 0 [Rdst 0xef010101 4789 10 0]
                     (Z.lor NUD_REACHABLE NUD_PERMANENT) NTF_SELF all_zeros_mac)
                  ltac:(vm_compute; reflexivity) eq_refl) as H.
    cbv beta zeta in H. change (is_multicast_ether_addr all_zeros_mac
                                || is_zero_ether_addr all_zeros_mac) with true in H.
    cbv iota in H. destruct H as (Hrc & _ & _ & _ & _ & _ & Hl).
    split; [exact Hrc|]. exact Hl.
Defined.

(** ** Forwarding database: APPEND *)

(** C5 (counterexample): on the existing entry of the unicast address
    ee:ee:ee:ee:ee:04 -> 10.0.0.8 an add of 10.0.0.10 with APPEND returns 0,
    not an error, and leaves the single destination in place.  On the
    address dd:dd:dd:dd:dd:04, whose first octet has the group bit set, the
    same add returns 0 and appends. *)
Lemma C5_counterexample :
  let add mac :=
    vxlan_fdb_add (fun _ => true) 3000 (example_static mac) NUD_PERMANENT NTF_SELF
      (NdaAttrs (Some (4, 0x0a00000a)) None None None) mac
      (Z.lor NLM_F_CREATE NLM_F_APPEND) in
  is_multicast_ether_addr mac_ee04 || is_zero_ether_addr mac_ee04 = false
  /\ __vxlan_find_mac (vxlan (example_static mac_ee04)) mac_ee04
     = Some (Fdb 2000 2000 [Rdst 0x0a000008 4789 10 0] NUD_PERMANENT NTF_SELF mac_ee04)
  /\ snd (add mac_ee04) = 0
  /\ snd (add mac_ee04) <> - EOPNOTSUPP
  /\ __vxlan_find_mac (vxlan (fst (add mac_ee04))) mac_ee04
     = Some (Fdb 2000 2000 [Rdst 0x0a000008 4789 10 0] NUD_PERMANENT NTF_SELF mac_ee04)
  /\ is_multicast_ether_addr mac_dd04 = true
  /\ snd (add mac_dd04) = 0
  /\ __vxlan_find_mac (vxlan (fst (add mac_dd04))) mac_dd04
     = Some (Fdb 2000 2000 [Rdst 0x0a000008 4789 10 0; Rdst 0x0a00000a 4789 10 0]
               NUD_PERMANENT NTF_SELF mac_dd04).
Proof. vm_compute. repeat split; try reflexivity; discriminate. Qed.

(** C5 (amended): create_or_update with APPEND (without EXCL and REPLACE) on
    an existing entry.  Under a unicast MAC the option is ignored: the call
    succeeds and the destinations stay as they are.  Under a multicast or
    all-zero MAC a destination already on the list leaves the list and the
    allocator untouched; a new one is added at the end of the list when its
    allocation succeeds, and the call fails with ENOBUFS, the list unchanged,
    when it does not.  Entries under other addresses are not touched. *)
Theorem C5_append jiffies w mac ip nud_state nlm_flags port vni ifindex ndm_flags f :
  __vxlan_find_mac (vxlan w) mac = Some f ->
  test nlm_flags NLM_F_APPEND = true ->
  test nlm_flags NLM_F_EXCL = false ->
  test nlm_flags NLM_F_REPLACE = false ->
  let r := vxlan_fdb_create jiffies w mac ip nud_state nlm_flags port vni
             ifindex ndm_flags in
  let new := Rdst ip port vni ifindex in
  lookup_same_except mac (vxlan w) (vxlan (fst r))
  /\ exists f',
       __vxlan_find_mac (vxlan (fst r)) mac = Some f'
       /\ if is_multicast_ether_addr mac || is_zero_ether_addr mac then
            if decide (new ∈ remotes f) then
              snd r = 0 /\ remotes f' = remotes f
              /\ atomic_pool (fst r) = atomic_pool w
            else
              (kmalloc_ok 1 (atomic_pool w) ->
               snd r = 0 /\ remotes f' = remotes f ++ [new])
              /\ (fst (kmalloc (atomic_pool w)) = false ->
                  snd r = - ENOBUFS /\ remotes f' = remotes f)
          else
            snd r = 0 /\ remotes f' = remotes f
            /\ atomic_pool (fst r) = atomic_pool w.
Proof.
  intros Hf Happ Hexcl Hrepl r new.
  destruct (vxlan_fdb_create_update jiffies w mac ip nud_state nlm_flags
              port vni ifindex ndm_flags f Hf Hexcl)
    as (f' & pool' & log' & rc & Hr & Hmac & _ & _ & _ & Hcase).
  fold r in Hr. rewrite Hrepl, Happ in Hcase. cbn [andb] in Hcase.
  rewrite vxlan_fdb_find_rdst_spec in Hcase. fold new in Hcase.
  rewrite Hr. cbn [fst snd vxlan atomic_pool]. split.
  - by apply lookup_same_except_fdb_write.
  - exists f'. rewrite find_mac_fdb_write_eq by done. rewrite Hf. split; [done|].
    destruct (is_multicast_ether_addr mac || is_zero_ether_addr mac).
    + destruct (decide (new ∈ remotes f)).
      * destruct Hcase as (-> & -> & ->). done.
      * destruct Hcase as [-> Hcase]. split.
        -- intros Hok. apply kmalloc_ok_S in Hok as [Hk _].
           rewrite Hk in Hcase. exact Hcase.
        -- intros Hfail. rewrite Hfail in Hcase. exact Hcase.
    + destruct Hcase as (-> & -> & ->). done.
Qed.

Lemma C5_append_witness :
  let w := example_static mac_mcast in
  let r := vxlan_fdb_create 3000 w mac_mcast 0x0a00000a NUD_PERMANENT
             (Z.lor NLM_F_CREATE NLM_F_APPEND) 4789 10 0 NTF_SELF in
  exists f', __vxlan_find_mac (vxlan (fst r)) mac_mcast = Some f'
             /\ snd r = 0
             /\ remotes f' = [Rdst 0x0a000008 4789 10 0; Rdst 0x0a00000a 4789 10 0].
Proof.
  intros w r.
  destruct (C5_append 3000 w mac_mcast 0x0a00000a NUD_PERMANENT
              (Z.lor NLM_F_CREATE NLM_F_APPEND) 4789 10 0 NTF_SELF
              (Fdb 2000 2000 [Rdst 0x0a000008 4789 10 0] NUD_PERMANENT
                 NTF_SELF mac_mcast)
              ltac:(vm_compute; reflexivity) eq_refl eq_refl eq_refl)
    as (_ & f' & Hl & Hcase).
  exists f'. split; [exact Hl|].
  change (is_multicast_ether_addr mac_mcast || is_zero_ether_addr mac_mcast)
    with true in Hcase. cbv iota in Hcase.
  destruct (decide _) as [Hin|Hnin] in Hcase.
  - exfalso. apply list_elem_of_singleton in Hin. discriminate Hin.
  - destruct Hcase as [Hok _]. apply Hok. vm_compute. constructor.
Defined.

(** ** Ageing *)

Lemma long_small z : - 2 ^ 63 <= z < 2 ^ 63 -> long z = z.
Proof.
  intros H. unfold long, BITS_PER_LONG.
  change (2 ^ (64 - 1)) with (2 ^ 63). rewrite Z.mod_small; lia.
Qed.

Lemma ulong_small z : 0 <= z < 2 ^ 64 -> ulong z = z.
Proof. intros H. unfold ulong, BITS_PER_LONG. apply Z.mod_small. lia. Qed.

Lemma fdb_timeout_expiry HZ age f :
  0 <= age * HZ -> clock_ok HZ age f -> fdb_timeout HZ age f = expiry HZ age f.
Proof.
  intros Hage [Hu Hs]. unfold fdb_timeout, expiry.
  rewrite (ulong_small (age * HZ)) by lia. apply ulong_small. lia.
Qed.

Lemma time_before_eq_le a b :
  0 <= a < 2 ^ 63 -> 0 <= b < 2 ^ 63 -> time_before_eq a b = (a <=? b).
Proof.
  intros Ha Hb. unfold time_before_eq. rewrite long_small by lia.
  destruct (Z.leb_spec a b), (Z.geb_spec (b - a) 0); lia.
Qed.

Lemma time_before_lt a b :
  0 <= a < 2 ^ 63 -> 0 <= b < 2 ^ 63 -> time_before a b = (a <? b).
Proof.
  intros Ha Hb. unfold time_before. rewrite long_small by lia.
  destruct (Z.ltb_spec a b), (Z.ltb_spec (a - b) 0); lia.
Qed.

Lemma earliest_of_nil HZ age base : earliest_of HZ age base [] base.
Proof. split; [lia|]. split; [intros f []|by left]. Qed.

Lemma earliest_of_cons HZ age base f l next :
  earliest_of HZ age (Z.min base (expiry HZ age f)) l next ->
  earliest_of HZ age base (f :: l) next.
Proof.
  intros (Hle & Hall & Hex). split; [lia|]. split.
  - intros g [<-|Hin]; [lia|by apply Hall].
  - destruct Hex as [->|(g & Hin & ->)].
    + destruct (Z.min_spec base (expiry HZ age f)) as [[_ ->]|[_ ->]];
        [by left|right; exists f; split; [by left|done]].
    + right. exists g. split; [by right|done].
Qed.

Lemma earliest_of_app HZ age base l1 l2 next1 next2 :
  earliest_of HZ age base l1 next1 -> earliest_of HZ age next1 l2 next2 ->
  earliest_of HZ age base (l1 ++ l2) next2.
Proof.
  intros (Hle1 & Hall1 & Hex1) (Hle2 & Hall2 & Hex2). split; [lia|]. split.
  - intros g [Hin|Hin]%in_app_or; [specialize (Hall1 g Hin); lia|by apply Hall2].
  - destruct Hex2 as [->|(g & Hin & ->)].
    + destruct Hex1 as [->|(g & Hin & ->)]; [by left|].
      right. exists g. split; [apply in_or_app; by left|done].
    + right. exists g. split; [apply in_or_app; by right|done].
Qed.

Lemma aged_out_permanent HZ jiffies age f :
  test (state f) NUD_PERMANENT = true -> aged_out HZ jiffies age f = false.
Proof. intros H. unfold aged_out. by rewrite H. Qed.

Lemma aged_out_ageable HZ jiffies age f :
  test (state f) NUD_PERMANENT = false ->
  aged_out HZ jiffies age f = (used f <=? jiffies - age * HZ).
Proof. intros H. unfold aged_out. by rewrite H. Qed.

(** One chain of the ageing walk: the chain keeps exactly the entries that
    are not aged out, and [next_timer] moves to the earliest expiry among
    the ageable entries kept. *)
Lemma vxlan_cleanup_chain_spec HZ jiffies age chain a :
  0 <= jiffies < 2 ^ 63 -> 0 <= age * HZ ->
  Forall (clock_ok HZ age) chain ->
  0 <= next_timer a < 2 ^ 63 ->
  fst (vxlan_cleanup_chain HZ jiffies age chain a)
  = List.filter (fun f => negb (aged_out HZ jiffies age f)) chain
  /\ 0 <= next_timer (snd (vxlan_cleanup_chain HZ jiffies age chain a)) < 2 ^ 63
  /\ earliest_of HZ age (next_timer a)
       (List.filter ageable
          (List.filter (fun f => negb (aged_out HZ jiffies age f)) chain))
       (next_timer (snd (vxlan_cleanup_chain HZ jiffies age chain a))).
Proof.
  intros Hj Hage Hclk. revert a.
  induction Hclk as [|f n Hf Hn IH]; intros a Ha; cbn [vxlan_cleanup_chain].
  - cbn. split; [done|]. split; [done|]. apply earliest_of_nil.
  - cbn [List.filter].
    destruct (test (state f) NUD_PERMANENT) eqn:Hperm.
    + rewrite (aged_out_permanent _ _ _ _ Hperm). cbn [negb List.filter].
      unfold ageable at 1. rewrite Hperm. cbn [negb].
      destruct (IH a Ha) as (Hk & Hb & He).
      destruct (vxlan_cleanup_chain HZ jiffies age n a) as [n' a'].
      cbn [fst snd] in *. by rewrite Hk.
    + rewrite (aged_out_ageable _ _ _ _ Hperm).
      rewrite (fdb_timeout_expiry HZ age f Hage Hf).
      pose proof Hf as [Hu Hs].
      rewrite time_before_eq_le by (unfold expiry; lia).
      assert (Hcmp : (expiry HZ age f <=? jiffies) = (used f <=? jiffies - age * HZ)).
      { unfold expiry. destruct (Z.leb_spec (used f + age * HZ) jiffies),
          (Z.leb_spec (used f) (jiffies - age * HZ)); lia. }
      rewrite Hcmp. destruct (used f <=? jiffies - age * HZ) eqn:Hexp; cbn [negb].
      * apply (IH (walk_destroy (set_state NUD_STALE f) a)). exact Ha.
      * rewrite time_before_lt by (unfold expiry; lia).
        set (a1 := if expiry HZ age f <? next_timer a then _ else a).
        assert (Ha1 : next_timer a1 = Z.min (next_timer a) (expiry HZ age f)).
        { unfold a1. destruct (Z.ltb_spec (expiry HZ age f) (next_timer a));
            cbn [next_timer]; lia. }
        assert (Hb1 : 0 <= next_timer a1 < 2 ^ 63) by (unfold expiry in *; lia).
        destruct (IH a1 Hb1) as (Hk & Hb & He).
        destruct (vxlan_cleanup_chain HZ jiffies age n a1) as [n' a'].
        cbn [fst snd List.filter] in *. unfold ageable at 1. rewrite Hperm.
        cbn [negb]. rewrite Hk. split; [done|]. split; [done|].
        apply earliest_of_cons. by rewrite <- Ha1.
Qed.

(** The walk over all chains. *)
Lemma vxlan_cleanup_table_spec HZ jiffies age {n} (tbl : vec (list vxlan_fdb) n) a :
  0 <= jiffies < 2 ^ 63 -> 0 <= age * HZ ->
  Forall (clock_ok HZ age) (concat (vec_to_list tbl)) ->
  0 <= next_timer a < 2 ^ 63 ->
  fst (for_each_chain (vxlan_cleanup_chain HZ jiffies age) tbl a)
  = vmap (List.filter (fun f => negb (aged_out HZ jiffies age f))) tbl
  /\ 0 <= next_timer (snd (for_each_chain (vxlan_cleanup_chain HZ jiffies age) tbl a))
     < 2 ^ 63
  /\ earliest_of HZ age (next_timer a)
       (List.filter ageable
          (List.filter (fun f => negb (aged_out HZ jiffies age f))
             (concat (vec_to_list tbl))))
       (next_timer (snd (for_each_chain (vxlan_cleanup_chain HZ jiffies age) tbl a))).
Proof.
  intros Hj Hage. revert a.
  induction tbl as [|chain n tbl IH]; intros a Hclk Ha; cbn [for_each_chain].
  - cbn. split; [done|]. split; [done|]. apply earliest_of_nil.
  - cbn [vec_to_list concat] in Hclk. apply Forall_app in Hclk as [Hc Ht].
    destruct (vxlan_cleanup_chain_spec HZ jiffies age chain a Hj Hage Hc Ha)
      as (Hk1 & Hb1 & He1).
    destruct (vxlan_cleanup_chain HZ jiffies age chain a) as [chain' a1].
    cbn [fst snd] in *.
    destruct (IH a1 Ht Hb1) as (Hk2 & Hb2 & He2).
    destruct (for_each_chain _ tbl a1) as [tbl' a2].
    cbn [fst snd] in *. subst chain' tbl'.
    split; [done|]. split; [done|].
    cbn [vec_to_list concat]. rewrite !List.filter_app.
    eapply earliest_of_app; eassumption.
Qed.

Lemma concat_vmap_filter (p : vxlan_fdb -> bool) {n} (tbl : vec (list vxlan_fdb) n) :
  concat (vec_to_list (vmap (List.filter p) tbl))
  = List.filter p (concat (vec_to_list tbl)).
Proof.
  induction tbl as [|chain n tbl IH]; [done|].
  cbn [vmap Vector.map vec_to_list concat]. by rewrite List.filter_app, <- IH.
Qed.

Lemma aged_out_false HZ jiffies age f :
  negb (aged_out HZ jiffies age f) = true
  <-> ~ (test (state f) NUD_PERMANENT = false /\ used f <= jiffies - age * HZ).
Proof.
  unfold aged_out. rewrite negb_true_iff, andb_false_iff, negb_false_iff.
  destruct (Z.leb_spec (used f) (jiffies - age * HZ)); split.
  - intros [H'|H']; [intros [? _]; congruence|done].
  - intros Hn. destruct (test (state f) NUD_PERMANENT); [by left|].
    exfalso. by apply Hn.
  - intros _ [_ ?]. lia.
  - intros _. by right.
Qed.

(** C6: one ageing pass at time [jiffies] over a running endpoint with a
    threshold of [age_interval] seconds, the clock values clear of the wrap
    of a signed long.  Every chain keeps exactly its entries that are
    PERMANENT or were used after [jiffies - age_interval * HZ], in their
    order; so an entry is in the table afterwards if and only if it was
    there before and it is not the case that its state is not PERMANENT and
    its last use is at or before that time; PERMANENT entries all stay; and
    the timer is re-armed for the earliest of the rescan interval and the
    expiry times of the entries that stay and are not PERMANENT. *)
Theorem C6_ageing HZ jiffies w :
  let v := vxlan w in
  let T := age_interval v * HZ in
  netif_running (dev v) = true ->
  0 <= jiffies -> 0 <= HZ -> 0 <= T ->
  jiffies + FDB_AGE_INTERVAL HZ < 2 ^ 63 ->
  Forall (clock_ok HZ (age_interval v)) (fdb_entries v) ->
  let w' := vxlan_cleanup HZ jiffies w in
  fdb_head (vxlan w')
  = vmap (List.filter (fun f => negb (aged_out HZ jiffies (age_interval v) f)))
      (fdb_head v)
  /\ (forall f,
        In f (fdb_entries (vxlan w'))
        <-> In f (fdb_entries v)
            /\ ~ (test (state f) NUD_PERMANENT = false /\ used f <= jiffies - T))
  /\ (forall f,
        In f (fdb_entries v) -> test (state f) NUD_PERMANENT = true ->
        In f (fdb_entries (vxlan w')))
  /\ exists next,
       age_timer (vxlan w') = Some next
       /\ earliest_of HZ (age_interval v) (jiffies + FDB_AGE_INTERVAL HZ)
            (List.filter ageable (fdb_entries (vxlan w'))) next.
Proof.
  intros v T Hup Hj HHZ HT Hnext Hclk w'.
  assert (Hbase : ulong (jiffies + FDB_AGE_INTERVAL HZ) = jiffies + FDB_AGE_INTERVAL HZ).
  { apply ulong_small. unfold FDB_AGE_INTERVAL in *. lia. }
  set (a0 := Walk (addrcnt v) (rtnl w) (ulong (jiffies + FDB_AGE_INTERVAL HZ))).
  assert (Ha0 : next_timer a0 = jiffies + FDB_AGE_INTERVAL HZ) by exact Hbase.
  destruct (vxlan_cleanup_table_spec HZ jiffies (age_interval v) (fdb_head v) a0)
    as (Hk & Hb & He); try done.
  { unfold FDB_AGE_INTERVAL in *. lia. }
  { rewrite Ha0. unfold FDB_AGE_INTERVAL in *. lia. }
  rewrite Ha0 in He.
  set (r := for_each_chain (vxlan_cleanup_chain HZ jiffies (age_interval v))
              (fdb_head v) a0) in *.
  assert (Hw' : vxlan w'
    = set_age_timer (Some (next_timer (snd r)))
        (set_fdb (walk_addrcnt (snd r))
           (vmap (List.filter (fun f => negb (aged_out HZ jiffies (age_interval v) f)))
              (fdb_head v)) v)).
  { unfold w', vxlan_cleanup. fold v. rewrite Hup. cbn [negb]. fold a0. fold r.
    rewrite <- Hk. by destruct r. }
  assert (Hentries : fdb_entries (vxlan w')
    = List.filter (fun f => negb (aged_out HZ jiffies (age_interval v) f))
        (fdb_entries v)).
  { rewrite Hw'. unfold fdb_entries. cbn [fdb_head set_age_timer set_fdb].
    apply concat_vmap_filter. }
  split; [by rewrite Hw'|]. split; [|split].
  - intros f. rewrite Hentries, List.filter_In, aged_out_false. done.
  - intros f Hin Hperm. rewrite Hentries, List.filter_In. split; [done|].
    by rewrite (aged_out_permanent _ _ _ _ Hperm).
  - eexists. split; [by rewrite Hw'|]. rewrite Hentries. exact He.
Qed.

Lemma C6_ageing_witness :
  let w' := vxlan_cleanup 1000 400000 example_learned in
  let learned := Fdb 1000 1000 [Rdst 0x0a000005 4789 10 0] NUD_REACHABLE NTF_SELF
                   mac_aa01 in
  let static := Fdb 2000 2000 [Rdst 0x0a000007 4789 10 0]
                  (Z.lor NUD_NOARP NUD_PERMANENT) NTF_SELF mac_cc03 in
  In learned (fdb_entries (vxlan example_learned))
  /\ ~ In learned (fdb_entries (vxlan w'))
  /\ In static (fdb_entries (vxlan w')).
Proof.
  intros w' learned static.
  pose proof (C6_ageing 1000 400000 example_learned
                eq_refl ltac:(lia) ltac:(lia) ltac:(vm_compute; discriminate)
                ltac:(vm_compute; reflexivity)
                ltac:(unfold clock_ok; apply (bool_decide_unpack _);
                      vm_compute; exact I)) as (_ & Hiff & Hperm & _).
  assert (Hin : forall f, f = learned \/ f = static ->
                          In f (fdb_entries (vxlan example_learned))).
  { intros f Hf. refine (proj1 (list_elem_of_In _ f) _).
    apply (bool_decide_unpack _). destruct Hf as [->| ->]; vm_compute; exact I. }
  split; [exact (Hin learned (or_introl eq_refl))|]. split.
  - intros Hl. destruct (proj1 (Hiff learned) Hl) as [_ Hn]. apply Hn.
    split; [reflexivity|]. vm_compute. discriminate.
  - exact (Hperm static (Hin static (or_intror eq_refl)) eq_refl).
Defined.

(** ** Flush and stop *)

Lemma is_zero_ether_addr_true a :
  is_zero_ether_addr a = true <-> a = all_zeros_mac.
Proof.
  unfold is_zero_ether_addr, all_zeros_mac. rewrite Z.eqb_eq.
  rewrite !Z.lor_eq_0_iff. destruct a; cbn. split.
  - intros (-> & -> & -> & -> & -> & ->). done.
  - intros [= -> -> -> -> -> ->]. done.
Qed.

Lemma vxlan_flush_chain_spec chain a :
  fst (vxlan_flush_chain chain a)
  = List.filter (fun f => is_zero_ether_addr (eth_addr f)) chain.
Proof.
  revert a. induction chain as [|f n IH]; intros a; cbn [vxlan_flush_chain List.filter];
    [done|].
  destruct (is_zero_ether_addr (eth_addr f)); cbn [negb].
  - specialize (IH a). destruct (vxlan_flush_chain n a). cbn [fst] in *. by rewrite IH.
  - apply IH.
Qed.

Lemma vxlan_flush_table_spec {n} (tbl : vec (list vxlan_fdb) n) a :
  fst (for_each_chain vxlan_flush_chain tbl a)
  = vmap (List.filter (fun f => is_zero_ether_addr (eth_addr f))) tbl.
Proof.
  revert a. induction tbl as [|chain n tbl IH]; intros a; cbn [for_each_chain]; [done|].
  pose proof (vxlan_flush_chain_spec chain a) as Hc.
  destruct (vxlan_flush_chain chain a) as [chain' a1]. cbn [fst] in Hc.
  specialize (IH a1). destruct (for_each_chain vxlan_flush_chain tbl a1).
  cbn [fst] in *. by rewrite Hc, IH.
Qed.

Lemma vxlan_flush_entries w :
  fdb_entries (vxlan (vxlan_flush w))
  = List.filter (fun f => is_zero_ether_addr (eth_addr f)) (fdb_entries (vxlan w))
  /\ dev (vxlan (vxlan_flush w)) = dev (vxlan w).
Proof.
  unfold vxlan_flush.
  pose proof (vxlan_flush_table_spec (fdb_head (vxlan w))
                (Walk (addrcnt (vxlan w)) (rtnl w) 0)) as Ht.
  destruct (for_each_chain _ _ _) as [tbl a]. cbn [fst] in Ht.
  cbn [vxlan]. unfold fdb_entries. cbn [fdb_head set_fdb dev]. rewrite Ht.
  split; [apply concat_vmap_filter|done].
Qed.

Lemma NoDup_map_filter {A B} (g : A -> B) (p : A -> bool) l :
  NoDup (map g l) -> NoDup (map g (List.filter p l)).
Proof.
  induction l as [|x l IH]; cbn [map List.filter]; [done|].
  intros [Hnin Hnd]%NoDup_cons. destruct (p x); [|by apply IH].
  cbn [map]. apply NoDup_cons. split; [|by apply IH].
  intros Hin. apply Hnin. apply list_elem_of_In in Hin. apply list_elem_of_In.
  apply in_map_iff in Hin as (y & <- & Hy). apply in_map.
  apply List.filter_In in Hy as [Hy _]. done.
Qed.

Lemma all_same_NoDup_length {A} (z : A) (l : list A) :
  Forall (fun x => x = z) l -> NoDup l -> (length l <= 1)%nat.
Proof.
  destruct l as [|x [|y l]]; cbn; [lia|lia|].
  intros Hall Hnd. exfalso.
  inversion Hall as [|? ? -> Hall']; subst. inversion Hall' as [|? ? -> _]; subst.
  apply NoDup_cons in Hnd as [Hnin _]. apply Hnin. by left.
Qed.

Lemma map_eth_addr_entries v :
  map eth_addr (fdb_entries v) = concat (vec_to_list (fdb_macs v)).
Proof.
  unfold fdb_entries, fdb_macs. induction (fdb_head v) as [|chain n tbl IH]; [done|].
  cbn [vec_to_list concat vmap Vector.map]. by rewrite map_app, IH.
Qed.

(** ** Learning on a stopped device *)

Lemma vxlan_snoop_hit jiffies w src_ip src_mac f rd rest :
  __vxlan_find_mac (vxlan w) src_mac = Some f -> remotes f = rd :: rest ->
  let v := vxlan w in
  let f1 := set_used jiffies f in
  let f2 := set_updated jiffies (set_remotes (set_remote_ip src_ip rd :: rest) f1) in
  vxlan_snoop jiffies w src_ip src_mac
  = if remote_ip rd =? src_ip then Some (set_vxlan (fdb_write src_mac f1 v) w, false)
    else if test (state f) NUD_NOARP
    then Some (set_vxlan (fdb_write src_mac f1 v) w, true)
    else Some (vxlan_fdb_notify
                 (set_vxlan (fdb_write src_mac f2 (fdb_write src_mac f1 v)) w)
                 f2 RTM_NEWNEIGH, false).
Proof.
  intros Hf Hrem v f1 f2. unfold vxlan_snoop. fold v.
  rewrite (vxlan_find_mac_hit jiffies v src_mac f Hf). fold f1.
  unfold first_remote_rcu.
  assert (Hr1 : remotes f1 = rd :: rest) by exact Hrem.
  rewrite Hr1. cbn [head tail]. done.
Qed.

(** On a device that is not running, a packet never adds an entry: the
    chains hold the same addresses afterwards. *)
Lemma vxlan_snoop_stopped jiffies w src_ip src_mac :
  netif_running (dev (vxlan w)) = false ->
  remotes_nonempty (vxlan w) ->
  exists w' drop,
    vxlan_snoop jiffies w src_ip src_mac = Some (w', drop)
    /\ fdb_macs (vxlan w') = fdb_macs (vxlan w)
    /\ addrcnt (vxlan w') = addrcnt (vxlan w)
    /\ dev (vxlan w') = dev (vxlan w)
    /\ remotes_nonempty (vxlan w').
Proof.
  intros Hdown Hinv.
  destruct (__vxlan_find_mac (vxlan w) src_mac) as [f|] eqn:Hf.
  - pose proof (find_mac_is _ _ _ Hf) as Hmac.
    pose proof (find_mac_Forall _ _ _ _ Hinv Hf) as Hne. cbn beta in Hne.
    destruct (remotes f) as [|rd rest] eqn:Hrem; [done|].
    rewrite (vxlan_snoop_hit jiffies w src_ip src_mac f rd rest Hf Hrem).
    assert (H1 : remotes_nonempty (fdb_write src_mac (set_used jiffies f) (vxlan w))).
    { apply Forall_fdb_write; [|done]. intros _. cbn. by rewrite Hrem. }
    destruct (remote_ip rd =? src_ip); [|destruct (test (state f) NUD_NOARP)];
      eexists _, _; (split; [reflexivity|]);
      cbn [vxlan set_vxlan vxlan_fdb_notify];
      rewrite ?fdb_macs_fdb_write by done; repeat split; try done.
    apply Forall_fdb_write; [|done]. intros _. done.
  - exists w, false. unfold vxlan_snoop.
    rewrite (vxlan_find_mac_miss jiffies _ _ Hf), Hdown. done.
Qed.

Lemma vxlan_snoop_all_stopped w pkts :
  netif_running (dev (vxlan w)) = false ->
  remotes_nonempty (vxlan w) ->
  exists w',
    vxlan_snoop_all w pkts = Some w'
    /\ fdb_macs (vxlan w') = fdb_macs (vxlan w)
    /\ addrcnt (vxlan w') = addrcnt (vxlan w)
    /\ dev (vxlan w') = dev (vxlan w).
Proof.
  revert w. induction pkts as [|[[jiffies src_ip] src_mac] pkts IH]; intros w Hdown Hinv.
  - by exists w.
  - destruct (vxlan_snoop_stopped jiffies w src_ip src_mac Hdown Hinv)
      as (w1 & drop & Hs & Hm & Hc & Hd & Hinv1).
    cbn [vxlan_snoop_all]. rewrite Hs.
    destruct (IH w1) as (w' & Hs' & Hm' & Hc' & Hd'); [by rewrite Hd|done|].
    exists w'. split; [done|]. split; [congruence|]. split; congruence.
Qed.

(** C10: on a device that is not running [vxlan_snoop] creates nothing, so
    once [vxlan_stop] has flushed the table, no sequence of received packets
    brings an entry back: the table then holds only entries under the
    all-zero MAC, at most one, the addresses in the chains and the entry
    count being those the flush left. *)
Theorem C10_stopped_device_learns_nothing group_used w pkts :
  netif_running (dev (vxlan w)) = false ->
  remotes_nonempty (vxlan w) ->
  NoDup (map eth_addr (fdb_entries (vxlan w))) ->
  let stopped := fst (vxlan_stop group_used w) in
  (forall jiffies src_ip src_mac,
     __vxlan_find_mac (vxlan stopped) src_mac = None ->
     vxlan_snoop jiffies stopped src_ip src_mac = Some (stopped, false))
  /\ exists w',
       vxlan_snoop_all stopped pkts = Some w'
       /\ fdb_macs (vxlan w') = fdb_macs (vxlan stopped)
       /\ addrcnt (vxlan w') = addrcnt (vxlan stopped)
       /\ Forall (fun f => eth_addr f = all_zeros_mac) (fdb_entries (vxlan w'))
       /\ (length (fdb_entries (vxlan w')) <= 1)%nat.
Proof.
  intros Hdown Hinv Hnd stopped.
  destruct (vxlan_flush_entries (set_vxlan (set_age_timer None (vxlan w)) w))
    as [Hent Hdev].
  change (vxlan_flush (set_vxlan (set_age_timer None (vxlan w)) w))
    with stopped in Hent, Hdev.
  cbn [vxlan set_vxlan] in Hent, Hdev.
  change (fdb_entries (set_age_timer None (vxlan w)))
    with (fdb_entries (vxlan w)) in Hent.
  change (dev (set_age_timer None (vxlan w))) with (dev (vxlan w)) in Hdev.
  assert (Hdown' : netif_running (dev (vxlan stopped)) = false) by by rewrite Hdev.
  assert (Hinv' : remotes_nonempty (vxlan stopped)).
  { unfold remotes_nonempty in *. rewrite Hent. rewrite Forall_forall in *.
    intros f Hin%list_elem_of_In. apply List.filter_In in Hin as [Hin _].
    apply Hinv. by apply list_elem_of_In. }
  split.
  { intros jiffies src_ip src_mac Hnone. unfold vxlan_snoop.
    rewrite (vxlan_find_mac_miss jiffies _ _ Hnone), Hdown'. done. }
  destruct (vxlan_snoop_all_stopped stopped pkts Hdown' Hinv')
    as (w' & Hs & Hm & Hc & _).
  exists w'. split; [done|]. split; [done|]. split; [done|].
  assert (Hmacs : map eth_addr (fdb_entries (vxlan w'))
                  = map eth_addr (fdb_entries (vxlan stopped))).
  { by rewrite !map_eth_addr_entries, Hm. }
  assert (Hzero : Forall (fun a => a = all_zeros_mac)
                    (map eth_addr (fdb_entries (vxlan w')))).
  { rewrite Hmacs, Hent. rewrite Forall_forall.
    intros a Hin%list_elem_of_In. apply in_map_iff in Hin as (f & <- & Hin).
    apply List.filter_In in Hin as [_ Hz]. by apply is_zero_ether_addr_true. }
  split.
  - rewrite Forall_forall in Hzero. rewrite Forall_forall. intros f Hin. apply Hzero.
    apply list_elem_of_In, in_map. by apply list_elem_of_In.
  - rewrite <- (length_map eth_addr).
    apply (all_same_NoDup_length all_zeros_mac); [done|].
    rewrite Hmacs, Hent. by apply NoDup_map_filter.
Qed.

Lemma C10_stopped_device_learns_nothing_witness :
  let w := set_running false example_learned in
  exists w',
    vxlan_snoop_all (fst (vxlan_stop false w))
      [(8000, 0x0a000005, mac_ee04); (9000, 0x0a000005, mac_aa01)] = Some w'
    /\ (length (fdb_entries (vxlan w')) <= 1)%nat.
Proof.
  intros w.
  destruct (proj2 (C10_stopped_device_learns_nothing false w
              [(8000, 0x0a000005, mac_ee04); (9000, 0x0a000005, mac_aa01)]
              eq_refl
              ltac:(apply (bool_decide_unpack _); vm_compute; exact I)
              ltac:(apply (bool_decide_unpack _); vm_compute; exact I)))
    as (w' & Hs & _ & _ & _ & Hlen).
  exists w'. split; [exact Hs|exact Hlen].
Defined.

(** ** Forwarding database: the invariants of the table *)

Lemma find_mac_is_None mac chain :
  find (mac_is mac) chain = None <-> mac ∉ map eth_addr chain.
Proof.
  induction chain as [|f n IH]; cbn [find map].
  - split; [intros _; apply not_elem_of_nil|done].
  - rewrite not_elem_of_cons. destruct (mac_is mac f) eqn:Hm.
    + apply mac_is_true in Hm. split; [done|]. intros [? _]. congruence.
    + apply mac_is_false in Hm. rewrite IH. split; [intros ?; split; congruence|tauto].
Qed.

Lemma find_mac_is_NoDup mac chain f :
  NoDup (map eth_addr chain) -> f ∈ chain -> eth_addr f = mac ->
  find (mac_is mac) chain = Some f.
Proof.
  induction chain as [|g n IH]; cbn [find map]; intros Hnd Hin Hmac.
  - by apply elem_of_nil in Hin.
  - apply NoDup_cons in Hnd as [Hg Hnd]. apply elem_of_cons in Hin as [->|Hin].
    + apply mac_is_true in Hmac. by rewrite Hmac.
    + assert (mac_is mac g = false) as ->; [|by apply IH].
      apply mac_is_false. intros Heq. apply Hg. rewrite Heq, <- Hmac.
      apply (list_elem_of_fmap_2 eth_addr), Hin.
Qed.

Lemma hlist_del_absent mac chain :
  find (mac_is mac) chain = None -> hlist_del mac chain = chain.
Proof.
  induction chain as [|f n IH]; cbn [find hlist_del]; [done|].
  destruct (mac_is mac f); [done|]. intros H. by rewrite IH.
Qed.

Lemma map_eth_addr_hlist_del mac chain :
  NoDup (map eth_addr chain) ->
  map eth_addr (hlist_del mac chain)
  = List.filter (fun m => negb (bool_decide (m = mac))) (map eth_addr chain).
Proof.
  induction chain as [|f n IH]; cbn [hlist_del map List.filter]; [done|].
  intros Hnd. apply NoDup_cons in Hnd as [Hf Hnd].
  destruct (mac_is mac f) eqn:Hm.
  - apply mac_is_true in Hm. rewrite bool_decide_eq_true_2 by done. cbn [negb].
    symmetry. rewrite <- Hm. clear IH Hnd Hm.
    induction (map eth_addr n) as [|m l IHl]; cbn [List.filter]; [done|].
    apply not_elem_of_cons in Hf as [Hne Hf].
    rewrite bool_decide_eq_false_2 by congruence. cbn [negb]. f_equal. by apply IHl.
  - apply mac_is_false in Hm. rewrite bool_decide_eq_false_2 by done. cbn [negb map].
    by rewrite IH.
Qed.

Lemma hlist_del_elem_of mac chain f : f ∈ hlist_del mac chain -> f ∈ chain.
Proof.
  induction chain as [|g n IH]; cbn [hlist_del]; [done|].
  destruct (mac_is mac g); rewrite ?elem_of_cons; [tauto|].
  intros [->|Hin]; [by left|right; by apply IH].
Qed.

Lemma NoDup_hlist_del mac chain :
  NoDup (map eth_addr chain) -> NoDup (map eth_addr (hlist_del mac chain)).
Proof.
  induction chain as [|g n IH]; cbn [hlist_del map]; [done|].
  intros Hnd. apply NoDup_cons in Hnd as [Hg Hnd].
  destruct (mac_is mac g); [done|]. cbn [map]. apply NoDup_cons. split; [|by apply IH].
  intros Hin. apply Hg.
  apply (list_elem_of_fmap_1 eth_addr) in Hin as (f & -> & Hin).
  apply (list_elem_of_fmap_2 eth_addr). by apply hlist_del_elem_of in Hin.
Qed.


Lemma length_hlist_del mac chain f :
  find (mac_is mac) chain = Some f ->
  S (length (hlist_del mac chain)) = length chain.
Proof.
  induction chain as [|g n IH]; cbn [hlist_del find]; [done|].
  destruct (mac_is mac g); [done|]. intros Hf. cbn [length]. by rewrite IH.
Qed.

Lemma length_concat_insert {A} (l : list (list A)) i x y :
  l !! i = Some y ->
  (length (concat (<[i:=x]> l)) + length y = length (concat l) + length x)%nat.
Proof.
  revert i. induction l as [|z l IH]; intros [|i] Hi; try done.
  - injection Hi as ->. change (<[0%nat:=x]> (y :: l)) with (x :: l).
    cbn [concat]. rewrite !length_app. lia.
  - change ((z :: l) !! S i) with (l !! i) in Hi. specialize (IH i Hi).
    change (<[S i:=x]> (z :: l)) with (z :: <[i:=x]> l). cbn [concat].
    rewrite !length_app. lia.
Qed.

Lemma length_fdb_entries_insert v cnt i chain :
  (length (fdb_entries (set_fdb cnt (vinsert i chain (fdb_head v)) v))
   + length (fdb_head v !!! i)
   = length (fdb_entries v) + length chain)%nat.
Proof.
  unfold fdb_entries. rewrite fdb_head_set_fdb, vec_to_list_insert.
  apply length_concat_insert. by apply vlookup_lookup.
Qed.

Lemma fdb_wf_insert v cnt i chain :
  fdb_wf v -> Forall (fun f => fdb_index (eth_addr f) = i) chain ->
  NoDup (map eth_addr chain) ->
  fdb_wf (set_fdb cnt (vinsert i chain (fdb_head v)) v).
Proof.
  intros Hwf Hidx Hnd j. rewrite fdb_head_set_fdb.
  destruct (decide (i = j)) as [<-|Hne].
  - by rewrite vlookup_insert.
  - rewrite vlookup_insert_ne by done. apply Hwf.
Qed.

Lemma fdb_wf_insert_head v cnt mac f :
  fdb_wf v -> eth_addr f = mac -> __vxlan_find_mac v mac = None ->
  fdb_wf (set_fdb cnt (vinsert (fdb_index mac) (f :: vxlan_fdb_head v mac)
                         (fdb_head v)) v).
Proof.
  intros Hwf Hf Hnone. destruct (Hwf (fdb_index mac)) as [Hidx Hnd].
  apply fdb_wf_insert; [done| |].
  - constructor; [by rewrite Hf|done].
  - cbn [map]. apply NoDup_cons. split; [|done].
    rewrite Hf. by apply find_mac_is_None.
Qed.

Lemma fdb_count_insert_head v mac f :
  fdb_count_ok v ->
  fdb_count_ok (set_fdb (u32 (addrcnt v + 1))
                  (vinsert (fdb_index mac) (f :: vxlan_fdb_head v mac)
                     (fdb_head v)) v).
Proof.
  unfold fdb_count_ok. intros Hc.
  pose proof (length_fdb_entries_insert v (u32 (addrcnt v + 1)) (fdb_index mac)
                (f :: vxlan_fdb_head v mac)) as Hlen.
  unfold vxlan_fdb_head in *. cbn [length] in Hlen.
  set (v' := set_fdb _ _ v) in *.
  assert (addrcnt v' = u32 (addrcnt v + 1)) as -> by done.
  assert (length (fdb_entries v') = S (length (fdb_entries v))) as -> by lia.
  rewrite Hc. unfold u32. rewrite Nat2Z.inj_succ, Zplus_mod_idemp_l. f_equal; lia.
Qed.

Lemma fdb_wf_macs v v' : fdb_macs v' = fdb_macs v -> fdb_wf v -> fdb_wf v'.
Proof.
  intros Hm Hwf i. specialize (Hwf i).
  assert (map eth_addr (fdb_head v' !!! i) = map eth_addr (fdb_head v !!! i)) as Hi.
  { apply (f_equal (fun t => t !!! i)) in Hm. unfold fdb_macs in Hm.
    by rewrite !vlookup_map in Hm. }
  destruct Hwf as [Hidx Hnd]. split; [|by rewrite Hi].
  apply (Forall_fmap eth_addr (fun m => fdb_index m = i)).
  apply (Forall_fmap eth_addr (fun m => fdb_index m = i)) in Hidx.
  change (Forall (fun m => fdb_index m = i) (map eth_addr (fdb_head v' !!! i))).
  by rewrite Hi.
Qed.

Lemma fdb_count_macs v v' :
  fdb_macs v' = fdb_macs v -> addrcnt v' = addrcnt v ->
  fdb_count_ok v -> fdb_count_ok v'.
Proof.
  unfold fdb_count_ok. intros Hm Hc Hv. rewrite Hc, Hv. do 2 f_equal.
  rewrite <- (length_map eth_addr (fdb_entries v')), <- (length_map eth_addr (fdb_entries v)).
  by rewrite !map_eth_addr_entries, Hm.
Qed.

(** ** Forwarding database: every way through [vxlan_fdb_create] *)

Lemma vxlan_fdb_create_absent jiffies w mac ip nud_state nlm_flags port vni
    ifindex ndm_flags :
  __vxlan_find_mac (vxlan w) mac = None ->
  let v := vxlan w in
  let pool1 := snd (kmalloc (atomic_pool w)) in
  let f := Fdb jiffies jiffies
             (if fst (kmalloc pool1) then [Rdst ip port vni ifindex] else [])
             nud_state ndm_flags mac in
  vxlan_fdb_create jiffies w mac ip nud_state nlm_flags port vni ifindex ndm_flags
  = if negb (test nlm_flags NLM_F_CREATE) then (w, - ENOENT)
    else if fdb_full v then (w, - ENOSPC)
    else if test nlm_flags NLM_F_REPLACE
            && (is_multicast_ether_addr mac || is_zero_ether_addr mac)
    then (w, - EOPNOTSUPP)
    else if negb (fst (kmalloc (atomic_pool w))) then (set_pool pool1 w, - ENOMEM)
    else (World
            (set_fdb (u32 (addrcnt v + 1))
               (vinsert (fdb_index mac) (f :: vxlan_fdb_head v mac) (fdb_head v)) v)
            (snd (kmalloc pool1)) ((RTM_NEWNEIGH, f) :: rtnl w), 0).
Proof.
  intros Hnone v pool1 f. unfold vxlan_fdb_create. rewrite Hnone.
  fold v. unfold fdb_full.
  destruct (negb (test nlm_flags NLM_F_CREATE)); [done|].
  destruct (negb (addrmax v =? 0) && (addrcnt v >=? addrmax v)); [done|].
  destruct (test nlm_flags NLM_F_REPLACE && _); [done|].
  subst pool1 f. destruct (kmalloc (atomic_pool w)) as [[|] pool1]; [|done].
  cbn [negb fst snd]. unfold vxlan_fdb_append, vxlan_fdb_find_rdst. cbn [remotes find].
  destruct (kmalloc pool1) as [[|] pool2]; done.
Qed.

Lemma vxlan_fdb_create_present jiffies w mac ip nud_state nlm_flags
    port vni ifindex ndm_flags f :
  __vxlan_find_mac (vxlan w) mac = Some f ->
  test nlm_flags NLM_F_EXCL = false ->
  exists f' pool' log' rc,
    vxlan_fdb_create jiffies w mac ip nud_state nlm_flags port vni ifindex ndm_flags
    = (World (fdb_write mac f' (vxlan w)) pool' log', rc)
    /\ eth_addr f' = mac /\ used f' = used f
    /\ state f' = nud_state /\ flags f' = ndm_flags
    /\ (rc = 0 \/ rc = - EOPNOTSUPP \/ rc = - ENOBUFS)
    /\ (rc <> 0 -> log' = rtnl w /\ remotes f' = remotes f)
    /\ (rc = 0 -> (f' = f /\ log' = rtnl w)
                  \/ (f' <> f /\ log' = (RTM_NEWNEIGH, f') :: rtnl w)).
Proof.
  intros Hf Hexcl. pose proof (find_mac_is _ _ _ Hf) as Hmac. subst mac.
  unfold vxlan_fdb_create. rewrite Hf, Hexcl.
  unfold vxlan_fdb_replace, vxlan_fdb_append, vxlan_fdb_find_rdst.
  fdb_reduce. repeat (case_inner; fdb_reduce).
  all: (eexists _, _, _, _; split; [reflexivity|]); fdb_reduce.
  all: repeat match goal with
         | H : negb _ = true |- _ => apply negb_true_iff in H
         | H : negb _ = false |- _ => apply negb_false_iff in H
         | H : (_ =? _) = true |- _ => apply Z.eqb_eq in H
         | H : (_ =? _) = false |- _ => apply Z.eqb_neq in H
         end.
  all: simpl in *.
  all: split_and!; try done; auto.
  all: try (intros Hrc; exfalso; by apply Hrc).
  all: intros _; first [ left; split; [congruence|reflexivity]
                       | right; split; [entry_differs|reflexivity] ].
Qed.

(** ** Forwarding database: every way through [vxlan_fdb_delete] *)

Lemma hlist_del_hlist_store mac f' chain :
  eth_addr f' = mac -> hlist_del mac (hlist_store mac f' chain) = hlist_del mac chain.
Proof.
  intros Hf'. induction chain as [|g n IH]; cbn [hlist_store hlist_del]; [done|].
  destruct (mac_is mac g) eqn:Hm; cbn [hlist_del].
  - apply mac_is_true in Hf'. by rewrite Hf'.
  - by rewrite Hm, IH.
Qed.

Lemma vinsert_vinsert {A n} (i : fin n) (x y : A) (t : vec A n) :
  vinsert i y (vinsert i x t) = vinsert i y t.
Proof.
  apply vec_eq. intros j. destruct (decide (i = j)) as [<-|Hne].
  - by rewrite !vlookup_insert.
  - by rewrite !vlookup_insert_ne.
Qed.

Lemma vxlan_fdb_destroy_write w v mac f1 :
  eth_addr f1 = mac ->
  vxlan_fdb_destroy (set_vxlan (fdb_write mac f1 v) w) f1
  = World (set_fdb (u32 (addrcnt v - 1))
             (vinsert (fdb_index mac) (hlist_del mac (vxlan_fdb_head v mac))
                (fdb_head v)) v)
      (atomic_pool w) ((RTM_DELNEIGH, f1) :: rtnl w).
Proof.
  intros Hf1. unfold vxlan_fdb_destroy, vxlan_fdb_notify, fdb_write, vxlan_fdb_head.
  cbn [vxlan set_vxlan atomic_pool rtnl]. rewrite Hf1, !fdb_head_set_fdb.
  rewrite vlookup_insert, vinsert_vinsert, hlist_del_hlist_store by done.
  reflexivity.
Qed.

Lemma fdb_write_fdb_write v mac f1 f2 :
  eth_addr f1 = mac ->
  fdb_write mac f2 (fdb_write mac f1 v) = fdb_write mac f2 v.
Proof.
  intros Hf1. unfold fdb_write at 1 3. unfold vxlan_fdb_head.
  assert (fdb_head (fdb_write mac f1 v)
          = vinsert (fdb_index mac) (hlist_store mac f1 (vxlan_fdb_head v mac))
              (fdb_head v)) as -> by done.
  rewrite vlookup_insert, vinsert_vinsert.
  assert (hlist_store mac f2 (hlist_store mac f1 (vxlan_fdb_head v mac))
          = hlist_store mac f2 (vxlan_fdb_head v mac)) as ->; [|done].
  apply mac_is_true in Hf1.
  induction (vxlan_fdb_head v mac) as [|g n IH]; cbn [hlist_store]; [done|].
  destruct (mac_is mac g) eqn:Hm; cbn [hlist_store]; [by rewrite Hf1|].
  by rewrite Hm, IH.
Qed.

Lemma vxlan_fdb_delete_cases dev_get_by_index jiffies w tb addr :
  let r := vxlan_fdb_delete dev_get_by_index jiffies w tb addr in
  match vxlan_fdb_parse dev_get_by_index tb (vxlan w) with
  | inl err => r = (w, err)
  | inr (ip, port, vni, ifindex) =>
      match __vxlan_find_mac (vxlan w) addr with
      | None => r = (w, - ENOENT)
      | Some f =>
          let v := vxlan w in
          let f1 := set_used jiffies f in
          let listed := bool_decide (Rdst ip port vni ifindex ∈ remotes f) in
          if (ip =? INADDR_ANY) || listed && list_is_singular (remotes f) then
            r = (World (set_fdb (u32 (addrcnt v - 1))
                          (vinsert (fdb_index addr)
                             (hlist_del addr (vxlan_fdb_head v addr)) (fdb_head v)) v)
                   (atomic_pool w) ((RTM_DELNEIGH, f1) :: rtnl w), 0)
          else if listed then
            r = (set_vxlan
                   (fdb_write addr
                      (set_remotes (list_del_rdst ip port vni ifindex (remotes f)) f1)
                      v) w, 0)
          else r = (set_vxlan (fdb_write addr f1 v) w, - ENOENT)
      end
  end.
Proof.
  intros r. subst r. unfold vxlan_fdb_delete.
  destruct (vxlan_fdb_parse _ _ _) as [err|[[[ip port] vni] ifindex]]; [done|].
  destruct (__vxlan_find_mac (vxlan w) addr) as [f|] eqn:Hf.
  2: { by rewrite (vxlan_find_mac_miss _ _ _ Hf). }
  rewrite (vxlan_find_mac_hit _ _ _ _ Hf). cbv zeta.
  pose proof (find_mac_is _ _ _ Hf) as Hmac.
  rewrite (vxlan_fdb_find_rdst_spec (set_used jiffies f)).
  change (remotes (set_used jiffies f)) with (remotes f).
  destruct (ip =? INADDR_ANY) eqn:Hip; cbn [negb andb orb].
  - change (bool_decide (is_Some None)) with false. cbn [andb].
    by rewrite vxlan_fdb_destroy_write.
  - destruct (decide (Rdst ip port vni ifindex ∈ remotes f)) as [Hin|Hin].
    + rewrite (bool_decide_eq_true_2 _ Hin).
      rewrite (bool_decide_eq_true_2 (is_Some (Some _))) by done. cbn [negb andb].
      destruct (list_is_singular (remotes f)); cbn [negb].
      * by rewrite vxlan_fdb_destroy_write.
      * cbn [set_vxlan vxlan atomic_pool rtnl]. by rewrite fdb_write_fdb_write.
    + rewrite (bool_decide_eq_false_2 _ Hin).
      rewrite (bool_decide_eq_false_2 (is_Some None)) by (by intros [? ?]).
      done.
Qed.

(** ** Forwarding database: the walks of ageing and flush *)

Lemma u32_pred k n : u32 (u32 (k + Z.of_nat (S n)) - 1) = u32 (k + Z.of_nat n).
Proof.
  unfold u32. rewrite Zminus_mod_idemp_l. f_equal. lia.
Qed.

Lemma vxlan_cleanup_chain_walk HZ jiffies age :
  walk_filter (fun f => test (state f) NUD_PERMANENT
                        || negb (time_before_eq (fdb_timeout HZ age f) jiffies))
    (vxlan_cleanup_chain HZ jiffies age).
Proof.
  intros chain. induction chain as [|f n IH]; intros a; cbn [vxlan_cleanup_chain List.filter].
  - split; [done|]. intros k Hk. done.
  - destruct (test (state f) NUD_PERMANENT) eqn:Hperm; cbn [orb].
    + destruct (IH a) as [IH1 IH2].
      destruct (vxlan_cleanup_chain HZ jiffies age n a) as [n' a'] eqn:Hrec.
      cbn [fst snd] in *. split; [by rewrite IH1|]. intros k Hk. cbn [length].
      rewrite (IH2 (k + 1)); [f_equal; lia|]. rewrite Hk. cbn [length]. f_equal. lia.
    + destruct (time_before_eq (fdb_timeout HZ age f) jiffies) eqn:Hdue; cbn [negb].
      * destruct (IH (walk_destroy (set_state NUD_STALE f) a)) as [IH1 IH2].
        split; [done|]. intros k Hk. apply IH2.
        cbn [walk_destroy walk_addrcnt]. rewrite Hk. apply u32_pred.
      * set (a1 := if time_before _ _ then _ else a).
        assert (walk_addrcnt a1 = walk_addrcnt a) as Ha1
          by (subst a1; by destruct (time_before _ _)).
        destruct (IH a1) as [IH1 IH2].
        destruct (vxlan_cleanup_chain HZ jiffies age n a1) as [n' a'] eqn:Hrec.
        cbn [fst snd] in *. split; [by rewrite IH1|]. intros k Hk. cbn [length].
        rewrite (IH2 (k + 1)); [f_equal; lia|]. rewrite Ha1, Hk. cbn [length].
        f_equal. lia.
Qed.

Lemma vxlan_flush_chain_walk :
  walk_filter (fun f => is_zero_ether_addr (eth_addr f)) vxlan_flush_chain.
Proof.
  intros chain. induction chain as [|f n IH]; intros a; cbn [vxlan_flush_chain List.filter].
  - split; [done|]. intros k Hk. done.
  - destruct (is_zero_ether_addr (eth_addr f)) eqn:Hz; cbn [negb].
    + destruct (IH a) as [IH1 IH2].
      destruct (vxlan_flush_chain n a) as [n' a'] eqn:Hrec.
      cbn [fst snd] in *. split; [by rewrite IH1|]. intros k Hk. cbn [length].
      rewrite (IH2 (k + 1)); [f_equal; lia|]. rewrite Hk. cbn [length]. f_equal. lia.
    + destruct (IH (walk_destroy f a)) as [IH1 IH2].
      split; [done|]. intros k Hk. apply IH2.
      cbn [walk_destroy walk_addrcnt]. rewrite Hk. apply u32_pred.
Qed.

Lemma for_each_chain_walk p body {n} (tbl : vec (list vxlan_fdb) n) a :
  walk_filter p body ->
  fst (for_each_chain body tbl a) = vmap (List.filter p) tbl
  /\ forall k,
       walk_addrcnt a = u32 (k + Z.of_nat (length (concat (vec_to_list tbl)))) ->
       walk_addrcnt (snd (for_each_chain body tbl a))
       = u32 (k + Z.of_nat (length (concat (vec_to_list (vmap (List.filter p) tbl))))).
Proof.
  intros Hbody. revert a.
  induction tbl as [|chain n tbl IH]; intros a; cbn [for_each_chain].
  - split; [done|]. intros k Hk. done.
  - destruct (Hbody chain a) as [Hb1 Hb2].
    destruct (body chain a) as [chain' a1] eqn:Hc. cbn [fst snd] in *.
    destruct (IH a1) as [IH1 IH2].
    destruct (for_each_chain body tbl a1) as [tbl' a2] eqn:Ht. cbn [fst snd] in *.
    split.
    + rewrite Hb1, IH1. done.
    + intros k Hk.
      change (vec_to_list (vmap (List.filter p) (chain ::: tbl)))
        with (List.filter p chain :: vec_to_list (vmap (List.filter p) tbl)).
      change (vec_to_list (chain ::: tbl)) with (chain :: vec_to_list tbl) in Hk.
      cbn [concat] in *. rewrite length_app in *.
      rewrite (IH2 (k + Z.of_nat (length (List.filter p chain)))); [f_equal; lia|].
      rewrite (Hb2 (k + Z.of_nat (length (concat (vec_to_list tbl))))); [f_equal; lia|].
      rewrite Hk. f_equal. lia.
Qed.

Lemma fdb_wf_filter (p : vxlan_fdb -> bool) v v' :
  fdb_head v' = vmap (List.filter p) (fdb_head v) -> fdb_wf v -> fdb_wf v'.
Proof.
  intros Hv' Hwf i. rewrite Hv', vlookup_map. destruct (Hwf i) as [Hidx Hnd]. split.
  - rewrite Forall_forall in Hidx. rewrite Forall_forall. intros f Hin. apply Hidx.
    apply list_elem_of_In. apply list_elem_of_In in Hin.
    by apply filter_In in Hin as [? _].
  - by apply NoDup_map_filter.
Qed.

Lemma fdb_inv_walk (p : vxlan_fdb -> bool) body v v' a :
  walk_filter p body ->
  walk_addrcnt a = addrcnt v ->
  fdb_head v' = fst (for_each_chain body (fdb_head v) a) ->
  addrcnt v' = walk_addrcnt (snd (for_each_chain body (fdb_head v) a)) ->
  fdb_wf v /\ fdb_count_ok v -> fdb_wf v' /\ fdb_count_ok v'.
Proof.
  intros Hbody Ha Hhead Hcnt [Hwf Hcount].
  destruct (for_each_chain_walk p body (fdb_head v) a Hbody) as [H1 H2].
  rewrite H1 in Hhead. split; [by apply (fdb_wf_filter p v)|].
  unfold fdb_count_ok, fdb_entries in *. rewrite Hcnt, Hhead.
  rewrite (H2 0); [done|]. by rewrite Ha, Hcount.
Qed.

(** ** Forwarding database: the invariants hold after every operation *)

Lemma vxlan_fdb_create_excl jiffies w mac ip nud_state nlm_flags port vni
    ifindex ndm_flags f :
  __vxlan_find_mac (vxlan w) mac = Some f ->
  test nlm_flags NLM_F_EXCL = true ->
  vxlan_fdb_create jiffies w mac ip nud_state nlm_flags port vni ifindex ndm_flags
  = (w, - EEXIST).
Proof. intros Hf Hexcl. unfold vxlan_fdb_create. by rewrite Hf, Hexcl. Qed.

Lemma fdb_inv_fdb_write v mac f' :
  eth_addr f' = mac ->
  fdb_wf v /\ fdb_count_ok v ->
  fdb_wf (fdb_write mac f' v) /\ fdb_count_ok (fdb_write mac f' v).
Proof.
  intros Hf' [Hwf Hcount]. pose proof (fdb_macs_fdb_write v mac f' Hf') as Hm. split.
  - by apply (fdb_wf_macs v).
  - by apply (fdb_count_macs v).
Qed.

Lemma fdb_inv_create jiffies w mac ip nud_state nlm_flags port vni ifindex ndm_flags :
  fdb_wf (vxlan w) /\ fdb_count_ok (vxlan w) ->
  let w' := fst (vxlan_fdb_create jiffies w mac ip nud_state nlm_flags port vni
                   ifindex ndm_flags) in
  fdb_wf (vxlan w') /\ fdb_count_ok (vxlan w').
Proof.
  intros Hinv w'. subst w'.
  destruct (__vxlan_find_mac (vxlan w) mac) as [f|] eqn:Hf.
  - destruct (test nlm_flags NLM_F_EXCL) eqn:Hexcl.
    + by rewrite (vxlan_fdb_create_excl _ _ _ _ _ _ _ _ _ _ _ Hf Hexcl).
    + destruct (vxlan_fdb_create_present jiffies w mac ip nud_state nlm_flags port
                  vni ifindex ndm_flags f Hf Hexcl)
        as (f' & pool' & log' & rc & -> & Hmac & _).
      cbn [fst vxlan]. by apply fdb_inv_fdb_write.
  - rewrite (vxlan_fdb_create_absent _ _ _ _ _ _ _ _ _ _ Hf).
    repeat case_inner; cbn [fst vxlan set_pool]; try done.
    all: destruct Hinv as [Hwf Hcount]; split;
      [by apply fdb_wf_insert_head|by apply fdb_count_insert_head].
Qed.

Lemma fdb_count_delete v mac f :
  __vxlan_find_mac v mac = Some f -> fdb_count_ok v ->
  fdb_count_ok (set_fdb (u32 (addrcnt v - 1))
                  (vinsert (fdb_index mac) (hlist_del mac (vxlan_fdb_head v mac))
                     (fdb_head v)) v).
Proof.
  unfold fdb_count_ok. intros Hf Hc.
  pose proof (length_fdb_entries_insert v (u32 (addrcnt v - 1)) (fdb_index mac)
                (hlist_del mac (vxlan_fdb_head v mac))) as Hlen.
  pose proof (length_hlist_del _ _ _ Hf) as Hdel.
  unfold vxlan_fdb_head in *. set (v' := set_fdb _ _ v) in *.
  assert (addrcnt v' = u32 (addrcnt v - 1)) as -> by done.
  assert (length (fdb_entries v) = S (length (fdb_entries v'))) as Hs by lia.
  rewrite Hc, Hs. apply (u32_pred 0).
Qed.

Lemma fdb_inv_delete_entry v mac f :
  __vxlan_find_mac v mac = Some f ->
  fdb_wf v /\ fdb_count_ok v ->
  let v' := set_fdb (u32 (addrcnt v - 1))
              (vinsert (fdb_index mac) (hlist_del mac (vxlan_fdb_head v mac))
                 (fdb_head v)) v in
  fdb_wf v' /\ fdb_count_ok v'.
Proof.
  intros Hf [Hwf Hcount] v'. split; [|by apply (fdb_count_delete v mac f)].
  destruct (Hwf (fdb_index mac)) as [Hidx Hnd].
  apply fdb_wf_insert; [done|by apply Forall_hlist_del|by apply NoDup_hlist_del].
Qed.

Lemma fdb_inv_delete dev_get_by_index jiffies w tb addr :
  fdb_wf (vxlan w) /\ fdb_count_ok (vxlan w) ->
  let w' := fst (vxlan_fdb_delete dev_get_by_index jiffies w tb addr) in
  fdb_wf (vxlan w') /\ fdb_count_ok (vxlan w').
Proof.
  intros Hinv w'. subst w'.
  pose proof (vxlan_fdb_delete_cases dev_get_by_index jiffies w tb addr) as Hcases.
  cbv zeta in Hcases. revert Hcases.
  destruct (vxlan_fdb_parse _ _ _) as [err|[[[ip port] vni] ifindex]];
    [by intros ->|].
  destruct (__vxlan_find_mac (vxlan w) addr) as [f|] eqn:Hf; [|by intros ->].
  pose proof (find_mac_is _ _ _ Hf) as Hmac.
  repeat case_inner; intros ->; cbn [fst vxlan set_vxlan].
  - by apply (fdb_inv_delete_entry _ _ f).
  - by apply fdb_inv_fdb_write.
  - by apply fdb_inv_fdb_write.
Qed.

Lemma fdb_inv_snoop jiffies w src_ip src_mac w' drop :
  vxlan_snoop jiffies w src_ip src_mac = Some (w', drop) ->
  fdb_wf (vxlan w) /\ fdb_count_ok (vxlan w) ->
  fdb_wf (vxlan w') /\ fdb_count_ok (vxlan w').
Proof.
  intros Hs Hinv.
  destruct (__vxlan_find_mac (vxlan w) src_mac) as [f|] eqn:Hf.
  - pose proof (find_mac_is _ _ _ Hf) as Hmac.
    destruct (remotes f) as [|rd rest] eqn:Hr.
    + unfold vxlan_snoop in Hs. rewrite (vxlan_find_mac_hit _ _ _ _ Hf) in Hs.
      unfold first_remote_rcu in Hs. cbn [set_used remotes] in Hs.
      by rewrite Hr in Hs.
    + rewrite (vxlan_snoop_hit _ _ _ _ _ _ _ Hf Hr) in Hs. cbv zeta in Hs.
      revert Hs. repeat case_inner; intros Hs; injection Hs as <- <-;
        cbn [vxlan set_vxlan vxlan_fdb_notify].
      * by apply fdb_inv_fdb_write.
      * by apply fdb_inv_fdb_write.
      * apply fdb_inv_fdb_write; [done|]. by apply fdb_inv_fdb_write.
  - unfold vxlan_snoop in Hs. rewrite (vxlan_find_mac_miss _ _ _ Hf) in Hs.
    destruct (netif_running _).
    + apply (f_equal (fun o => match o with Some (x, _) => x | None => w end)) in Hs.
      cbv beta iota in Hs. rewrite <- Hs. by apply fdb_inv_create.
    + by injection Hs as <- <-.
Qed.

Lemma fdb_inv_cleanup HZ jiffies w :
  fdb_wf (vxlan w) /\ fdb_count_ok (vxlan w) ->
  fdb_wf (vxlan (vxlan_cleanup HZ jiffies w))
  /\ fdb_count_ok (vxlan (vxlan_cleanup HZ jiffies w)).
Proof.
  intros Hinv. unfold vxlan_cleanup.
  destruct (negb (netif_running _)); [done|].
  destruct (for_each_chain _ _ _) as [tbl a] eqn:Hwalk. cbn [vxlan].
  eapply fdb_inv_walk; [apply vxlan_cleanup_chain_walk| | | |exact Hinv].
  2: { rewrite Hwalk. reflexivity. }
  2: { rewrite Hwalk. reflexivity. }
  reflexivity.
Qed.

Lemma fdb_inv_flush w :
  fdb_wf (vxlan w) /\ fdb_count_ok (vxlan w) ->
  fdb_wf (vxlan (vxlan_flush w)) /\ fdb_count_ok (vxlan (vxlan_flush w)).
Proof.
  intros Hinv. unfold vxlan_flush.
  destruct (for_each_chain _ _ _) as [tbl a] eqn:Hwalk. cbn [vxlan].
  eapply fdb_inv_walk; [apply vxlan_flush_chain_walk| | | |exact Hinv].
  2: { rewrite Hwalk. reflexivity. }
  2: { rewrite Hwalk. reflexivity. }
  reflexivity.
Qed.

Lemma fdb_inv_delete_default w :
  fdb_wf (vxlan w) /\ fdb_count_ok (vxlan w) ->
  fdb_wf (vxlan (vxlan_fdb_delete_default w))
  /\ fdb_count_ok (vxlan (vxlan_fdb_delete_default w)).
Proof.
  intros Hinv. unfold vxlan_fdb_delete_default.
  destruct (__vxlan_find_mac (vxlan w) all_zeros_mac) as [f|] eqn:Hf; [|done].
  pose proof (find_mac_is _ _ _ Hf) as Hmac.
  unfold vxlan_fdb_destroy, vxlan_fdb_notify. cbn [vxlan set_vxlan]. rewrite Hmac.
  by apply (fdb_inv_delete_entry _ _ f).
Qed.

(** ** Forwarding database: what [vxlan_fdb_create] guarantees *)



(** X2. A [vxlan_fdb_create] that fails adds no entry, removes none, changes
    no destination list and notifies nobody; its error is one of EEXIST,
    ENOENT, ENOSPC, EOPNOTSUPP, ENOMEM and ENOBUFS.  For an address that was
    absent the device is left exactly as it was. *)
Theorem X2_create_failure jiffies w mac ip nud_state nlm_flags port vni ifindex
    ndm_flags :
  let r := vxlan_fdb_create jiffies w mac ip nud_state nlm_flags port vni
             ifindex ndm_flags in
  snd r <> 0 ->
  fdb_macs (vxlan (fst r)) = fdb_macs (vxlan w)
  /\ addrcnt (vxlan (fst r)) = addrcnt (vxlan w)
  /\ rtnl (fst r) = rtnl w
  /\ (forall mac', option_map remotes (__vxlan_find_mac (vxlan (fst r)) mac')
                   = option_map remotes (__vxlan_find_mac (vxlan w) mac'))
  /\ (__vxlan_find_mac (vxlan w) mac = None -> vxlan (fst r) = vxlan w)
  /\ snd r ∈ [- EEXIST; - ENOENT; - ENOSPC; - EOPNOTSUPP; - ENOMEM; - ENOBUFS].
Proof.
  intros r Hrc. subst r.
  destruct (__vxlan_find_mac (vxlan w) mac) as [f|] eqn:Hf.
  - destruct (test nlm_flags NLM_F_EXCL) eqn:Hexcl.
    { rewrite (vxlan_fdb_create_excl _ _ _ _ _ _ _ _ _ _ _ Hf Hexcl).
      cbn [fst snd]. split_and!; try done. in_list. }
    destruct (vxlan_fdb_create_present jiffies w mac ip nud_state nlm_flags port
                vni ifindex ndm_flags f Hf Hexcl)
      as (f' & pool' & log' & rc & Hr & Hmac & Hused & Hst & Hfl & Hcode & Hfail & _).
    rewrite Hr in *. cbn [fst snd vxlan rtnl] in *.
    destruct (Hfail Hrc) as [-> Hrem].
    split_and!; try done.
    + by apply fdb_macs_fdb_write.
    + intros mac'. destruct (decide (mac' = mac)) as [->|Hne].
      * rewrite find_mac_fdb_write_eq, Hf by done. cbn [option_map]. by rewrite Hrem.
      * by rewrite find_mac_fdb_write_ne.
    + destruct Hcode as [->|[->| ->]]; [done|in_list..].
  - rewrite (vxlan_fdb_create_absent _ _ _ _ _ _ _ _ _ _ Hf) in *.
    destruct (negb (test nlm_flags NLM_F_CREATE));
      [cbn [fst snd]; split_and!; try done; in_list|].
    destruct (fdb_full (vxlan w));
      [cbn [fst snd]; split_and!; try done; in_list|].
    destruct (test nlm_flags NLM_F_REPLACE && _);
      [cbn [fst snd]; split_and!; try done; in_list|].
    destruct (negb (fst (kmalloc (atomic_pool w))));
      [cbn [fst snd]; split_and!; try done; in_list|].
    done.
Qed.

Lemma X2_create_failure_witness :
  let r := vxlan_fdb_create 3000 example_learned mac_aa01 0x0a000009
             NUD_REACHABLE (Z.lor NLM_F_EXCL NLM_F_CREATE) 4789 10 0 NTF_SELF in
  snd r = - EEXIST /\ rtnl (fst r) = rtnl example_learned.
Proof.
  intros r. split; [vm_compute; reflexivity|].
  exact (proj1 (proj2 (proj2 (X2_create_failure 3000 example_learned mac_aa01
                                0x0a000009 NUD_REACHABLE
                                (Z.lor NLM_F_EXCL NLM_F_CREATE) 4789 10 0 NTF_SELF
                                ltac:(vm_compute; discriminate))))).
Defined.

(** X3. A [vxlan_fdb_create] on an existing entry that is refused after the
    EXCL check (REPLACE on a multicast or all-zero address, or an APPEND
    whose allocation fails) has already overwritten the state and the flags
    of the entry; the destinations stay as they were and no notification is
    sent for the change. *)
Theorem X3_create_refused_update jiffies w mac ip nud_state nlm_flags port vni
    ifindex ndm_flags f :
  let r := vxlan_fdb_create jiffies w mac ip nud_state nlm_flags port vni
             ifindex ndm_flags in
  __vxlan_find_mac (vxlan w) mac = Some f ->
  test nlm_flags NLM_F_EXCL = false ->
  snd r <> 0 ->
  (snd r = - EOPNOTSUPP \/ snd r = - ENOBUFS)
  /\ rtnl (fst r) = rtnl w
  /\ exists f',
       __vxlan_find_mac (vxlan (fst r)) mac = Some f'
       /\ state f' = nud_state /\ flags f' = ndm_flags
       /\ remotes f' = remotes f /\ used f' = used f.
Proof.
  intros r Hf Hexcl Hrc. subst r.
  destruct (vxlan_fdb_create_present jiffies w mac ip nud_state nlm_flags port
              vni ifindex ndm_flags f Hf Hexcl)
    as (f' & pool' & log' & rc & Hr & Hmac & Hused & Hst & Hfl & Hcode & Hfail & _).
  rewrite Hr in *. cbn [fst snd vxlan rtnl] in *.
  destruct (Hfail Hrc) as [-> Hrem]. split_and!; [|done|].
  - destruct Hcode as [->|Hcode]; [done|exact Hcode].
  - exists f'. rewrite find_mac_fdb_write_eq, Hf by done. done.
Qed.

Lemma X3_create_refused_update_witness :
  let r := vxlan_fdb_create 3000 example_world all_zeros_mac 0x0a000009
             NUD_REACHABLE (Z.lor NLM_F_CREATE NLM_F_REPLACE) 4789 10 0 0 in
  snd r = - EOPNOTSUPP
  /\ exists f', __vxlan_find_mac (vxlan (fst r)) all_zeros_mac = Some f'
                /\ state f' = NUD_REACHABLE /\ flags f' = 0.
Proof.
  intros r.
  destruct (X3_create_refused_update 3000 example_world all_zeros_mac 0x0a000009
              NUD_REACHABLE (Z.lor NLM_F_CREATE NLM_F_REPLACE) 4789 10 0 0
              (Fdb 0 0 [Rdst 0xef010101 4789 10 0]
                 (Z.lor NUD_REACHABLE NUD_PERMANENT) NTF_SELF all_zeros_mac)
              ltac:(vm_compute; reflexivity) eq_refl
              ltac:(vm_compute; discriminate))
    as (_ & _ & f' & Hl & Hst & Hfl & _).
  split; [vm_compute; reflexivity|]. exists f'. by split_and!.
Defined.

(** ** Forwarding database: what [vxlan_fdb_delete] guarantees *)

Lemma list_del_rdst_spec ip port vni ifindex l :
  Rdst ip port vni ifindex ∈ l ->
  exists l1 l2,
    l = l1 ++ (Rdst ip port vni ifindex :: l2)
    /\ (Rdst ip port vni ifindex ∉ l1)
    /\ list_del_rdst ip port vni ifindex l = l1 ++ l2.
Proof.
  induction l as [|rd rest IH]; intros Hin; [by apply not_elem_of_nil in Hin|].
  cbn [list_del_rdst]. destruct (rdst_is ip port vni ifindex rd) eqn:Hrd.
  - apply rdst_is_true in Hrd. subst rd. exists [], rest.
    split_and!; [done|apply not_elem_of_nil|done].
  - assert (rd <> Rdst ip port vni ifindex) as Hne.
    { intros Heq. apply rdst_is_true in Heq. congruence. }
    apply elem_of_cons in Hin as [Heq|Hin]; [congruence|].
    destruct (IH Hin) as (l1 & l2 & -> & Hnot & ->).
    exists (rd :: l1), l2. split_and!; [done| |done].
    apply not_elem_of_cons. split; [congruence|done].
Qed.



Lemma fdb_macs_delete v cnt mac :
  fdb_macs (set_fdb cnt (vinsert (fdb_index mac) (hlist_del mac (vxlan_fdb_head v mac))
                           (fdb_head v)) v)
  = vinsert (fdb_index mac) (map eth_addr (hlist_del mac (vxlan_fdb_head v mac)))
      (fdb_macs v).
Proof. unfold fdb_macs. by rewrite fdb_head_set_fdb, vmap_insert. Qed.

(** X4. A [vxlan_fdb_delete] that names one destination of an entry with
    several removes exactly that destination: the first one with the four
    values leaves the list and the others keep their order.  The entry
    stays, its [used] refreshed by the lookup; [addrcnt] and every other
    entry are untouched, and no notification is sent. *)
Theorem X4_delete_destination dev_get_by_index jiffies w tb addr f ip port vni
    ifindex :
  let r := vxlan_fdb_delete dev_get_by_index jiffies w tb addr in
  vxlan_fdb_parse dev_get_by_index tb (vxlan w) = inr (ip, port, vni, ifindex) ->
  __vxlan_find_mac (vxlan w) addr = Some f ->
  ip <> INADDR_ANY ->
  Rdst ip port vni ifindex ∈ remotes f ->
  list_is_singular (remotes f) = false ->
  snd r = 0
  /\ rtnl (fst r) = rtnl w
  /\ addrcnt (vxlan (fst r)) = addrcnt (vxlan w)
  /\ fdb_macs (vxlan (fst r)) = fdb_macs (vxlan w)
  /\ lookup_same_except addr (vxlan w) (vxlan (fst r))
  /\ exists f' l1 l2,
       __vxlan_find_mac (vxlan (fst r)) addr = Some f'
       /\ used f' = jiffies /\ updated f' = updated f
       /\ state f' = state f /\ flags f' = flags f
       /\ remotes f = l1 ++ (Rdst ip port vni ifindex :: l2)
       /\ (Rdst ip port vni ifindex ∉ l1)
       /\ remotes f' = l1 ++ l2.
Proof.
  intros r Hparse Hf Hip Hin Hsing. subst r.
  pose proof (vxlan_fdb_delete_cases dev_get_by_index jiffies w tb addr) as Hcases.
  cbv zeta in Hcases. rewrite Hparse, Hf, Hsing in Hcases.
  apply Z.eqb_neq in Hip. rewrite Hip, (bool_decide_eq_true_2 _ Hin) in Hcases.
  cbn [andb orb] in Hcases. rewrite Hcases. cbn [fst snd vxlan set_vxlan rtnl].
  pose proof (find_mac_is _ _ _ Hf) as Hmac.
  destruct (list_del_rdst_spec ip port vni ifindex (remotes f) Hin)
    as (l1 & l2 & Hrem & Hnot & Hdel).
  split_and!; try done.
  - by apply fdb_macs_fdb_write.
  - by apply lookup_same_except_fdb_write.
  - eexists _, l1, l2. rewrite find_mac_fdb_write_eq, Hf by done.
    split; [reflexivity|]. cbn [used updated state flags remotes set_remotes set_used].
    done.
Qed.

Lemma X4_delete_destination_witness :
  let w := fst (vxlan_fdb_create 3000 (example_static mac_mcast) mac_mcast
                  0x0a00000a NUD_PERMANENT (Z.lor NLM_F_CREATE NLM_F_APPEND)
                  4789 10 0 NTF_SELF) in
  let r := vxlan_fdb_delete (fun _ => true) 4000 w
             (NdaAttrs (Some (4, 0x0a000008)) None None None) mac_mcast in
  snd r = 0 /\ rtnl (fst r) = rtnl w.
Proof.
  intros w r.
  destruct (X4_delete_destination (fun _ => true) 4000 w
              (NdaAttrs (Some (4, 0x0a000008)) None None None) mac_mcast
              (Fdb 2000 2000 [Rdst 0x0a000008 4789 10 0; Rdst 0x0a00000a 4789 10 0]
                 NUD_PERMANENT NTF_SELF mac_mcast)
              0x0a000008 4789 10 0
              ltac:(vm_compute; reflexivity) ltac:(vm_compute; reflexivity)
              ltac:(vm_compute; discriminate) ltac:(in_list) eq_refl)
    as (Hrc & Hlog & _).
  split; [exact Hrc|exact Hlog].
Defined.



(** X6. A [vxlan_fdb_delete] that fails removes nothing and notifies nobody.
    A malformed attribute leaves the device exactly as it was; otherwise the
    error is ENOENT, returned when the address is absent or when a non-zero
    destination address is given that the entry does not list, and in the
    second case the lookup has already refreshed [used] of the entry. *)
Theorem X6_delete_failure dev_get_by_index jiffies w tb addr :
  let r := vxlan_fdb_delete dev_get_by_index jiffies w tb addr in
  snd r <> 0 ->
  fdb_macs (vxlan (fst r)) = fdb_macs (vxlan w)
  /\ addrcnt (vxlan (fst r)) = addrcnt (vxlan w)
  /\ rtnl (fst r) = rtnl w
  /\ lookup_same_except addr (vxlan w) (vxlan (fst r))
  /\ match vxlan_fdb_parse dev_get_by_index tb (vxlan w) with
     | inl err => r = (w, err)
     | inr (ip, port, vni, ifindex) =>
         snd r = - ENOENT
         /\ match __vxlan_find_mac (vxlan w) addr with
            | None => fst r = w
            | Some f =>
                ip <> INADDR_ANY
                /\ (Rdst ip port vni ifindex ∉ remotes f)
                /\ __vxlan_find_mac (vxlan (fst r)) addr = Some (set_used jiffies f)
            end
     end.
Proof.
  intros r Hrc. subst r.
  pose proof (vxlan_fdb_delete_cases dev_get_by_index jiffies w tb addr) as Hcases.
  cbv zeta in Hcases. revert Hcases.
  destruct (vxlan_fdb_parse _ _ _) as [err|[[[ip port] vni] ifindex]].
  { intros Hr. rewrite Hr. done. }
  destruct (__vxlan_find_mac (vxlan w) addr) as [f|] eqn:Hf.
  2: { intros Hr. rewrite Hr. done. }
  pose proof (find_mac_is _ _ _ Hf) as Hmac.
  destruct (ip =? INADDR_ANY) eqn:Hip; cbn [orb].
  { intros Hr. by rewrite Hr in Hrc. }
  destruct (decide (Rdst ip port vni ifindex ∈ remotes f)) as [Hin|Hin].
  { rewrite (bool_decide_eq_true_2 _ Hin). cbn [andb].
    destruct (list_is_singular _); intros Hr; by rewrite Hr in Hrc. }
  rewrite (bool_decide_eq_false_2 _ Hin). cbn [andb].
  intros Hr. rewrite Hr. cbn [fst snd vxlan set_vxlan rtnl].
  apply Z.eqb_neq in Hip.
  split_and!; try done.
  - by apply fdb_macs_fdb_write.
  - by apply lookup_same_except_fdb_write.
  - rewrite find_mac_fdb_write_eq by done. by rewrite Hf.
Qed.

Lemma X6_delete_failure_witness :
  let r := vxlan_fdb_delete (fun _ => true) 4000 example_learned
             (NdaAttrs (Some (4, 0x0a000063)) None None None) mac_aa01 in
  snd r = - ENOENT
  /\ __vxlan_find_mac (vxlan (fst r)) mac_aa01
     = Some (Fdb 1000 4000 [Rdst 0x0a000005 4789 10 0] NUD_REACHABLE NTF_SELF
               mac_aa01).
Proof.
  intros r.
  pose proof (X6_delete_failure (fun _ => true) 4000 example_learned
                (NdaAttrs (Some (4, 0x0a000063)) None None None) mac_aa01
                ltac:(vm_compute; discriminate)) as H.
  destruct H as (_ & _ & _ & _ & H).
  change (vxlan_fdb_parse (fun _ => true)
            (NdaAttrs (Some (4, 0x0a000063)) None None None) (vxlan example_learned))
    with (@inr Z _ (0x0a000063, 4789, 10, 0)) in H.
  cbv beta iota in H. destruct H as [Hrc H]. split; [exact Hrc|].
  assert (__vxlan_find_mac (vxlan example_learned) mac_aa01
          = Some (Fdb 1000 1000 [Rdst 0x0a000005 4789 10 0] NUD_REACHABLE NTF_SELF
                    mac_aa01)) as Hl by (vm_compute; reflexivity).
  rewrite Hl in H. by destruct H as (_ & _ & H).
Defined.






(** ** Forwarding database: the invariants as theorems *)

(** X8. The table invariants are kept by every operation that adds, changes
    or removes single entries: if every entry hangs in the chain of its
    hash, no chain holds an address twice and [addrcnt] counts the entries,
    then the same holds after [vxlan_fdb_create], [vxlan_fdb_add],
    [vxlan_fdb_delete] and [vxlan_snoop], whatever their arguments and
    whether they succeed or fail. *)
Theorem X8_invariants_kept_by_updates w :
  fdb_wf (vxlan w) -> fdb_count_ok (vxlan w) ->
  (forall jiffies mac ip nud_state nlm_flags port vni ifindex ndm_flags,
     let w' := fst (vxlan_fdb_create jiffies w mac ip nud_state nlm_flags port vni
                      ifindex ndm_flags) in
     fdb_wf (vxlan w') /\ fdb_count_ok (vxlan w'))
  /\ (forall dev_get_by_index jiffies ndm_state ndm_flags tb addr nlm_flags,
        let w' := fst (vxlan_fdb_add dev_get_by_index jiffies w ndm_state ndm_flags
                         tb addr nlm_flags) in
        fdb_wf (vxlan w') /\ fdb_count_ok (vxlan w'))
  /\ (forall dev_get_by_index jiffies tb addr,
        let w' := fst (vxlan_fdb_delete dev_get_by_index jiffies w tb addr) in
        fdb_wf (vxlan w') /\ fdb_count_ok (vxlan w'))
  /\ (forall jiffies src_ip src_mac w' drop,
        vxlan_snoop jiffies w src_ip src_mac = Some (w', drop) ->
        fdb_wf (vxlan w') /\ fdb_count_ok (vxlan w')).
Proof.
  intros Hwf Hcount. split_and!.
  - intros. by apply fdb_inv_create.
  - intros dev_get_by_index jiffies nud fl tb addr nlm_flags w'. subst w'.
    unfold vxlan_fdb_add.
    destruct (negb (test nud _)); [done|].
    destruct (NDA_DST tb); [|done].
    destruct (vxlan_fdb_parse _ _ _) as [err|[[[ip port] vni] ifindex]]; [done|].
    by apply fdb_inv_create.
  - intros. by apply fdb_inv_delete.
  - intros jiffies src_ip src_mac w' drop Hs. by apply (fdb_inv_snoop _ _ _ _ _ _ Hs).
Qed.

Lemma fdb_wf_example_world :
  fdb_wf (vxlan example_world) /\ fdb_count_ok (vxlan example_world).
Proof.
  apply (fdb_inv_create 0 (World example_dev [] [])). split.
  - intros i. cbn [vxlan example_dev fdb_head]. rewrite vlookup_replicate.
    split; [constructor|]. cbn [map]. constructor.
  - reflexivity.
Qed.

Lemma X8_invariants_kept_by_updates_witness :
  let w' := fst (vxlan_fdb_delete (fun _ => true) 3000 example_world
                   (NdaAttrs None None None None) all_zeros_mac) in
  fdb_wf (vxlan w') /\ fdb_count_ok (vxlan w').
Proof.
  exact (proj1 (proj2 (proj2 (X8_invariants_kept_by_updates example_world
                                (proj1 fdb_wf_example_world)
                                (proj2 fdb_wf_example_world))))
           (fun _ => true) 3000 (NdaAttrs None None None None) all_zeros_mac).
Defined.

(** X9. The table invariants are kept by the operations that sweep the
    table: ageing ([vxlan_cleanup]), [vxlan_flush], [vxlan_stop] and the
    removal of the default entry ([vxlan_fdb_delete_default]). *)
Theorem X9_invariants_kept_by_sweeps w :
  fdb_wf (vxlan w) -> fdb_count_ok (vxlan w) ->
  (forall HZ jiffies,
     fdb_wf (vxlan (vxlan_cleanup HZ jiffies w))
     /\ fdb_count_ok (vxlan (vxlan_cleanup HZ jiffies w)))
  /\ (fdb_wf (vxlan (vxlan_flush w)) /\ fdb_count_ok (vxlan (vxlan_flush w)))
  /\ (forall group_used,
        fdb_wf (vxlan (fst (vxlan_stop group_used w)))
        /\ fdb_count_ok (vxlan (fst (vxlan_stop group_used w))))
  /\ (fdb_wf (vxlan (vxlan_fdb_delete_default w))
      /\ fdb_count_ok (vxlan (vxlan_fdb_delete_default w))).
Proof.
  intros Hwf Hcount. split; [|split; [|split]].
  - intros. by apply fdb_inv_cleanup.
  - by apply fdb_inv_flush.
  - intros. unfold vxlan_stop. cbn [fst]. by apply fdb_inv_flush.
  - by apply fdb_inv_delete_default.
Qed.

Lemma X9_invariants_kept_by_sweeps_witness :
  fdb_wf (vxlan (vxlan_flush example_world))
  /\ fdb_count_ok (vxlan (vxlan_flush example_world)).
Proof.
  exact (proj1 (proj2 (X9_invariants_kept_by_sweeps example_world
                         (proj1 fdb_wf_example_world)
                         (proj2 fdb_wf_example_world)))).
Defined.

Lemma NoDup_concat_indexed {A} (h : A -> nat) (ls : list (list A)) (k : nat) :
  (forall i l, ls !! i = Some l -> Forall (fun m => h m = (k + i)%nat) l /\ NoDup l) ->
  NoDup (concat ls).
Proof.
  revert k. induction ls as [|l ls IH]; intros k Hall; cbn [concat].
  - constructor.
  - apply NoDup_app. destruct (Hall 0%nat l eq_refl) as [Hidx Hnd]. split_and!.
    + done.
    + intros x Hx Hin. rewrite Forall_forall in Hidx. specialize (Hidx x Hx).
      apply list_elem_of_In, in_concat in Hin as (l' & Hl' & Hin').
      apply list_elem_of_In, list_elem_of_lookup in Hl' as [i Hi].
      destruct (Hall (S i) l' Hi) as [Hidx' _].
      rewrite Forall_forall in Hidx'. apply list_elem_of_In in Hin'.
      specialize (Hidx' x Hin'). lia.
    + apply (IH (S k)). intros i l' Hi. destruct (Hall (S i) l' Hi) as [Hidx' Hnd'].
      split; [|done]. eapply Forall_impl; [exact Hidx'|]. intros m Hm. cbn beta in *. lia.
Qed.

Lemma fdb_wf_NoDup v : fdb_wf v -> NoDup (map eth_addr (fdb_entries v)).
Proof.
  intros Hwf. rewrite map_eth_addr_entries.
  apply (NoDup_concat_indexed (fun m => fin_to_nat (fdb_index m)) _ 0).
  intros i l Hi. apply vlookup_lookup' in Hi as [Hlt Hl]. subst l.
  unfold fdb_macs. rewrite vlookup_map.
  destruct (Hwf (nat_to_fin Hlt)) as [Hidx Hnd]. split; [|done].
  apply (Forall_fmap eth_addr (fun m => fin_to_nat (fdb_index m) = (0 + i)%nat)).
  eapply Forall_impl; [exact Hidx|]. intros f Hf. unfold compose. cbn beta in *.
  rewrite Hf. apply fin_to_nat_to_fin.
Qed.

Lemma elem_of_fdb_entries v f :
  f ∈ fdb_entries v <-> exists i, f ∈ fdb_head v !!! i.
Proof.
  unfold fdb_entries. split.
  - intros Hin. apply list_elem_of_In, in_concat in Hin as (l & Hl & Hin).
    apply list_elem_of_In, elem_of_vlookup in Hl as [i <-].
    exists i. by apply list_elem_of_In.
  - intros [i Hin]. apply list_elem_of_In, in_concat.
    exists (fdb_head v !!! i). split; apply list_elem_of_In; [|done].
    apply elem_of_vlookup. by exists i.
Qed.

(** X10. In a table that satisfies the chain invariant, lookup and content
    agree: every entry of the table is the one [__vxlan_find_mac] returns
    for its address, whatever [__vxlan_find_mac] returns is an entry of the
    table with the address asked for, and no two entries of the whole table
    share an address. *)
Theorem X10_lookup_finds_every_entry v :
  fdb_wf v ->
  (forall f, f ∈ fdb_entries v -> __vxlan_find_mac v (eth_addr f) = Some f)
  /\ (forall mac f, __vxlan_find_mac v mac = Some f ->
                    f ∈ fdb_entries v /\ eth_addr f = mac)
  /\ NoDup (map eth_addr (fdb_entries v)).
Proof.
  intros Hwf. split_and!.
  - intros f Hin. apply elem_of_fdb_entries in Hin as [i Hin].
    destruct (Hwf i) as [Hidx Hnd]. rewrite Forall_forall in Hidx.
    pose proof (Hidx f Hin) as Hi. subst i.
    unfold __vxlan_find_mac, vxlan_fdb_head. by apply find_mac_is_NoDup.
  - intros mac f Hf. split; [|by apply (find_mac_is _ _ _ Hf)].
    apply elem_of_fdb_entries. exists (fdb_index mac).
    unfold __vxlan_find_mac, vxlan_fdb_head in Hf.
    apply find_some in Hf as [Hin _]. by apply list_elem_of_In.
  - by apply fdb_wf_NoDup.
Qed.

Lemma X10_lookup_finds_every_entry_witness :
  NoDup (map eth_addr (fdb_entries (vxlan example_world))).
Proof.
  exact (proj2 (proj2 (X10_lookup_finds_every_entry (vxlan example_world)
                         (proj1 fdb_wf_example_world)))).
Defined.

(** ** Forwarding database: the entry limit *)

Lemma length_filter_le {A} (p : A -> bool) l :
  (length (List.filter p l) <= length l)%nat.
Proof.
  induction l as [|x l IH]; cbn [List.filter length]; [done|].
  destruct (p x); cbn [length]; lia.
Qed.

Lemma length_fdb_entries_macs v v' :
  fdb_macs v' = fdb_macs v -> length (fdb_entries v') = length (fdb_entries v).
Proof.
  intros Hm.
  rewrite <- (length_map eth_addr (fdb_entries v')), <- (length_map eth_addr (fdb_entries v)).
  by rewrite !map_eth_addr_entries, Hm.
Qed.

Lemma fdb_within_limit_step v v' :
  fdb_within_limit v ->
  addrmax v' = addrmax v ->
  fdb_count_ok v' ->
  (length (fdb_entries v') <= length (fdb_entries v))%nat
  \/ (length (fdb_entries v') = S (length (fdb_entries v)) /\ fdb_full v = false) ->
  fdb_within_limit v'.
Proof.
  unfold fdb_within_limit, fdb_count_ok, fdb_full.
  intros (Hmax & Hcnt & Hle) Hmax' Hcnt' Hlen. rewrite Hmax'.
  assert (Z.of_nat (length (fdb_entries v')) <= addrmax v) as Hbound.
  { destruct Hlen as [Hlen|[Hlen Hfull]]; [lia|].
    apply andb_false_iff in Hfull as [Hfull|Hfull].
    - apply negb_false_iff, Z.eqb_eq in Hfull. lia.
    - rewrite Z.geb_leb in Hfull. apply Z.leb_gt in Hfull. lia. }
  rewrite Hcnt'. unfold u32. rewrite Z.mod_small by lia. lia.
Qed.

Lemma vxlan_fdb_create_step jiffies w mac ip nud_state nlm_flags port vni ifindex
    ndm_flags :
  let v := vxlan w in
  let v' := vxlan (fst (vxlan_fdb_create jiffies w mac ip nud_state nlm_flags port
                          vni ifindex ndm_flags)) in
  addrmax v' = addrmax v
  /\ ((length (fdb_entries v') <= length (fdb_entries v))%nat
      \/ (length (fdb_entries v') = S (length (fdb_entries v))
          /\ fdb_full v = false)).
Proof.
  intros v v'. subst v v'.
  destruct (__vxlan_find_mac (vxlan w) mac) as [f|] eqn:Hf.
  - destruct (test nlm_flags NLM_F_EXCL) eqn:Hexcl.
    + rewrite (vxlan_fdb_create_excl _ _ _ _ _ _ _ _ _ _ _ Hf Hexcl).
      split; [done|left; done].
    + destruct (vxlan_fdb_create_present jiffies w mac ip nud_state nlm_flags port
                  vni ifindex ndm_flags f Hf Hexcl)
        as (f' & pool' & log' & rc & -> & Hmac & _).
      cbn [fst vxlan]. split; [done|left].
      by rewrite (length_fdb_entries_macs _ _ (fdb_macs_fdb_write _ _ _ Hmac)).
  - rewrite (vxlan_fdb_create_absent _ _ _ _ _ _ _ _ _ _ Hf).
    destruct (negb (test nlm_flags NLM_F_CREATE)); [split; [done|left; done]|].
    destruct (fdb_full (vxlan w)) eqn:Hfull; [split; [done|left; done]|].
    destruct (test nlm_flags NLM_F_REPLACE && _); [split; [done|left; done]|].
    destruct (negb (fst (kmalloc (atomic_pool w)))); [split; [done|left; done]|].
    cbn [fst vxlan]. split; [done|right]. split; [|done].
    match goal with |- context [set_fdb ?c (vinsert ?i ?ch _) _] =>
      pose proof (length_fdb_entries_insert (vxlan w) c i ch) as Hlen end.
    unfold vxlan_fdb_head in *. cbn [length] in Hlen. lia.
Qed.

Lemma vxlan_fdb_delete_step dev_get_by_index jiffies w tb addr :
  let v := vxlan w in
  let v' := vxlan (fst (vxlan_fdb_delete dev_get_by_index jiffies w tb addr)) in
  addrmax v' = addrmax v
  /\ (length (fdb_entries v') <= length (fdb_entries v))%nat.
Proof.
  intros v v'. subst v v'.
  pose proof (vxlan_fdb_delete_cases dev_get_by_index jiffies w tb addr) as Hcases.
  cbv zeta in Hcases. revert Hcases.
  destruct (vxlan_fdb_parse _ _ _) as [err|[[[ip port] vni] ifindex]];
    [by intros ->|].
  destruct (__vxlan_find_mac (vxlan w) addr) as [f|] eqn:Hf; [|by intros ->].
  pose proof (find_mac_is _ _ _ Hf) as Hmac.
  repeat case_inner; intros ->; cbn [fst vxlan set_vxlan]; (split; [done|]).
  - match goal with |- context [set_fdb ?c (vinsert ?i ?ch _) _] =>
      pose proof (length_fdb_entries_insert (vxlan w) c i ch) as Hlen end.
    pose proof (length_hlist_del _ _ _ Hf) as Hdel.
    unfold vxlan_fdb_head in *. lia.
  - by rewrite (length_fdb_entries_macs (vxlan w)) by (by apply fdb_macs_fdb_write).
  - by rewrite (length_fdb_entries_macs (vxlan w)) by (by apply fdb_macs_fdb_write).
Qed.

Lemma vxlan_snoop_step jiffies w src_ip src_mac w' drop :
  vxlan_snoop jiffies w src_ip src_mac = Some (w', drop) ->
  addrmax (vxlan w') = addrmax (vxlan w)
  /\ ((length (fdb_entries (vxlan w')) <= length (fdb_entries (vxlan w)))%nat
      \/ (length (fdb_entries (vxlan w')) = S (length (fdb_entries (vxlan w)))
          /\ fdb_full (vxlan w) = false)).
Proof.
  intros Hs.
  destruct (__vxlan_find_mac (vxlan w) src_mac) as [f|] eqn:Hf.
  - pose proof (find_mac_is _ _ _ Hf) as Hmac.
    destruct (remotes f) as [|rd rest] eqn:Hr.
    + unfold vxlan_snoop in Hs. rewrite (vxlan_find_mac_hit _ _ _ _ Hf) in Hs.
      unfold first_remote_rcu in Hs. cbn [set_used remotes] in Hs.
      by rewrite Hr in Hs.
    + rewrite (vxlan_snoop_hit _ _ _ _ _ _ _ Hf Hr) in Hs. cbv zeta in Hs.
      revert Hs. repeat case_inner; intros Hs; injection Hs as <- <-;
        cbn [vxlan set_vxlan vxlan_fdb_notify]; (split; [done|left]).
      * by rewrite (length_fdb_entries_macs (vxlan w)) by (by apply fdb_macs_fdb_write).
      * by rewrite (length_fdb_entries_macs (vxlan w)) by (by apply fdb_macs_fdb_write).
      * rewrite (length_fdb_entries_macs (fdb_write src_mac (set_used jiffies f) (vxlan w)))
          by (by apply fdb_macs_fdb_write).
        by rewrite (length_fdb_entries_macs (vxlan w)) by (by apply fdb_macs_fdb_write).
  - unfold vxlan_snoop in Hs. rewrite (vxlan_find_mac_miss _ _ _ Hf) in Hs.
    destruct (netif_running _).
    + apply (f_equal (fun o => match o with Some (x, _) => x | None => w end)) in Hs.
      cbv beta iota in Hs. rewrite <- Hs. apply vxlan_fdb_create_step.
    + injection Hs as <- <-. split; [done|left; done].
Qed.

Lemma vxlan_sweep_step (p : vxlan_fdb -> bool) v v' :
  fdb_head v' = vmap (List.filter p) (fdb_head v) ->
  (length (fdb_entries v') <= length (fdb_entries v))%nat.
Proof.
  intros Hh. unfold fdb_entries. rewrite Hh, concat_vmap_filter.
  apply length_filter_le.
Qed.

(** X11. The entry limit is respected.  On a device with a limit
    ([addrmax] non-zero) whose table satisfies the chain invariant, whose
    [addrcnt] is the number of entries and is within the limit, the same
    holds after [vxlan_fdb_create], [vxlan_fdb_delete], [vxlan_snoop] and
    [vxlan_cleanup]: no sequence of these takes the table past
    [addrmax] entries, and [addrcnt] never wraps. *)
Theorem X11_limit_respected w :
  fdb_wf (vxlan w) -> fdb_within_limit (vxlan w) ->
  (forall jiffies mac ip nud_state nlm_flags port vni ifindex ndm_flags,
     fdb_within_limit
       (vxlan (fst (vxlan_fdb_create jiffies w mac ip nud_state nlm_flags port vni
                      ifindex ndm_flags))))
  /\ (forall dev_get_by_index jiffies tb addr,
        fdb_within_limit
          (vxlan (fst (vxlan_fdb_delete dev_get_by_index jiffies w tb addr))))
  /\ (forall jiffies src_ip src_mac w' drop,
        vxlan_snoop jiffies w src_ip src_mac = Some (w', drop) ->
        fdb_within_limit (vxlan w'))
  /\ (forall HZ jiffies, fdb_within_limit (vxlan (vxlan_cleanup HZ jiffies w))).
Proof.
  intros Hwf Hlim.
  assert (fdb_count_ok (vxlan w)) as Hcount.
  { destruct Hlim as (Hmax & Hcnt & Hle). unfold fdb_count_ok, u32.
    rewrite Z.mod_small by lia. done. }
  split; [|split; [|split]].
  - intros.
    destruct (vxlan_fdb_create_step jiffies w mac ip nud_state nlm_flags port vni
                ifindex ndm_flags) as [Hmax Hlen].
    apply (fdb_within_limit_step (vxlan w)); [done|done| |done].
    by apply fdb_inv_create.
  - intros.
    destruct (vxlan_fdb_delete_step dev_get_by_index jiffies w tb addr) as [Hmax Hlen].
    apply (fdb_within_limit_step (vxlan w)); [done|done| |by left].
    by apply fdb_inv_delete.
  - intros jiffies src_ip src_mac w' drop Hs.
    destruct (vxlan_snoop_step _ _ _ _ _ _ Hs) as [Hmax Hlen].
    apply (fdb_within_limit_step (vxlan w)); [done|done| |done].
    by apply (fdb_inv_snoop _ _ _ _ _ _ Hs).
  - intros.
    apply (fdb_within_limit_step (vxlan w)); [done| | |left].
    + unfold vxlan_cleanup. destruct (negb (netif_running _)); [done|].
      by destruct (for_each_chain _ _ _).
    + by apply fdb_inv_cleanup.
    + unfold vxlan_cleanup. destruct (negb (netif_running _)); [done|].
      pose proof (for_each_chain_walk _ _ (fdb_head (vxlan w))
                    (Walk (addrcnt (vxlan w)) (rtnl w)
                       (ulong (jiffies + FDB_AGE_INTERVAL HZ)))
                    (vxlan_cleanup_chain_walk HZ jiffies (age_interval (vxlan w))))
        as [Hh _].
      destruct (for_each_chain _ _ _) as [tbl a]. cbn [fst] in Hh. cbn [vxlan].
      eapply vxlan_sweep_step. exact Hh.
Qed.

Lemma X11_limit_respected_witness :
  let w := set_addrmax 1 example_world in
  let w' := fst (vxlan_fdb_create 1000 w mac_aa01 0x0a000005 NUD_REACHABLE
                   (Z.lor NLM_F_EXCL NLM_F_CREATE) 4789 10 0 NTF_SELF) in
  addrcnt (vxlan w') <= 1.
Proof.
  intros w w'.
  assert (fdb_wf (vxlan w)) as Hwf by exact (proj1 fdb_wf_example_world).
  assert (fdb_within_limit (vxlan w)) as Hlim.
  { unfold fdb_within_limit. apply (bool_decide_unpack _). vm_compute. exact I. }
  exact (proj2 (proj2 (proj1 (X11_limit_respected w Hwf Hlim) 1000 mac_aa01
                         0x0a000005 NUD_REACHABLE (Z.lor NLM_F_EXCL NLM_F_CREATE)
                         4789 10 0 NTF_SELF))).
Defined.

(** ** Flush, stop and uninit *)


Lemma for_each_chain_logs q g body {n} (tbl : vec (list vxlan_fdb) n) a :
  walk_logs q g body ->
  walk_rtnl (snd (for_each_chain body tbl a))
  = map (fun f => (RTM_DELNEIGH, g f)) (rev (List.filter q (concat (vec_to_list tbl))))
    ++ walk_rtnl a.
Proof.
  intros Hbody. revert a.
  induction tbl as [|chain n tbl IH]; intros a; cbn [for_each_chain]; [done|].
  pose proof (Hbody chain a) as Hb.
  destruct (body chain a) as [chain' a1]. cbn [snd] in Hb.
  pose proof (IH a1) as IH1.
  destruct (for_each_chain body tbl a1) as [tbl' a2]. cbn [snd] in *.
  change (vec_to_list (chain ::: tbl)) with (chain :: vec_to_list tbl).
  cbn [concat]. rewrite List.filter_app, rev_app_distr, map_app, <- app_assoc.
  by rewrite IH1, Hb.
Qed.





Lemma Forall_False_nil {A} (l : list A) : Forall (fun _ => False) l -> l = [].
Proof. destruct l as [|x l]; [done|]. by inversion 1. Qed.

(** X13. Taking a device down and removing it empties the table: after
    [vxlan_stop] (which flushes all but the default entry) and
    [vxlan_fdb_delete_default] (what [vxlan_uninit] does), a table that
    satisfied the invariants holds no entry at all and [addrcnt] is 0. *)
Theorem X13_stop_uninit_empties group_used w :
  fdb_wf (vxlan w) -> fdb_count_ok (vxlan w) ->
  let w' := vxlan_fdb_delete_default (fst (vxlan_stop group_used w)) in
  fdb_entries (vxlan w') = [] /\ addrcnt (vxlan w') = 0.
Proof.
  intros Hwf Hcount w'.
  set (w1 := fst (vxlan_stop group_used w)) in *.
  assert (fdb_wf (vxlan w1) /\ fdb_count_ok (vxlan w1)) as [Hwf1 Hcount1].
  { unfold w1, vxlan_stop. cbn [fst]. by apply fdb_inv_flush. }
  assert (Forall (fun f => eth_addr f = all_zeros_mac) (fdb_entries (vxlan w1)))
    as Hzero.
  { unfold w1, vxlan_stop. cbn [fst]. rewrite (proj1 (vxlan_flush_entries _)).
    rewrite Forall_forall. intros f Hin. apply list_elem_of_In in Hin.
    apply List.filter_In in Hin as [_ Hz]. by apply is_zero_ether_addr_true. }
  assert (fdb_wf (vxlan w') /\ fdb_count_ok (vxlan w')) as [_ Hcount'].
  { by apply fdb_inv_delete_default. }
  assert (fdb_entries (vxlan w') = []) as Hnil.
  { apply Forall_False_nil. apply fdb_entries_Forall. intros i.
    rewrite fdb_entries_Forall in Hzero.
    destruct (Hwf1 i) as [Hidx Hnd]. specialize (Hzero i).
    unfold w', vxlan_fdb_delete_default.
    destruct (__vxlan_find_mac (vxlan w1) all_zeros_mac) as [f|] eqn:Hf.
    - pose proof (find_mac_is _ _ _ Hf) as Hmac.
      unfold vxlan_fdb_destroy, vxlan_fdb_notify. cbn [vxlan set_vxlan].
      rewrite Hmac, fdb_head_set_fdb.
      destruct (decide (fdb_index all_zeros_mac = i)) as [<-|Hne].
      + rewrite vlookup_insert.
        unfold __vxlan_find_mac, vxlan_fdb_head in *.
        assert (length (map eth_addr (fdb_head (vxlan w1) !!! fdb_index all_zeros_mac))
                <= 1)%nat as Hlen.
        { apply (all_same_NoDup_length all_zeros_mac); [|done].
          by apply (Forall_fmap eth_addr (fun m => m = all_zeros_mac)). }
        rewrite length_map in Hlen.
        destruct (fdb_head (vxlan w1) !!! fdb_index all_zeros_mac) as [|g [|g' l]];
          [done| |cbn in Hlen; lia].
        cbn [find] in Hf. cbn [hlist_del].
        destruct (mac_is all_zeros_mac g); [constructor|done].
      + rewrite vlookup_insert_ne by done.
        destruct (fdb_head (vxlan w1) !!! i) as [|g l]; [constructor|].
        exfalso. apply Hne.
        apply Forall_cons in Hidx as [Hg _]. apply Forall_cons in Hzero as [Hz _].
        by rewrite <- Hg, Hz.
    - destruct (fdb_head (vxlan w1) !!! i) as [|g l] eqn:Hi; [constructor|].
      exfalso. rewrite ?Hi in Hidx, Hzero.
      apply Forall_cons in Hidx as [Hg _]. apply Forall_cons in Hzero as [Hz _].
      unfold __vxlan_find_mac, vxlan_fdb_head in Hf.
      rewrite <- Hz, Hg, Hi in Hf. cbn [find] in Hf.
      assert (mac_is (eth_addr g) g = true) as Hm by (by apply mac_is_true).
      by rewrite Hm in Hf. }
  split; [done|]. unfold fdb_count_ok in Hcount'. by rewrite Hcount', Hnil.
Qed.

Lemma X13_stop_uninit_empties_witness :
  fdb_entries (vxlan (vxlan_fdb_delete_default (fst (vxlan_stop false example_world))))
  = [].
Proof.
  exact (proj1 (X13_stop_uninit_empties false example_world
                  (proj1 fdb_wf_example_world) (proj2 fdb_wf_example_world))).
Defined.

(** ** Ageing and lookup *)

Lemma find_filter_absent mac (q : vxlan_fdb -> bool) chain :
  find (mac_is mac) chain = None -> find (mac_is mac) (List.filter q chain) = None.
Proof.
  induction chain as [|g n IH]; cbn [List.filter find]; [done|].
  destruct (mac_is mac g) eqn:Hm; [done|]. intros Hn.
  destruct (q g); cbn [find]; [rewrite Hm|]; by apply IH.
Qed.

Lemma find_filter_NoDup mac (q : vxlan_fdb -> bool) chain :
  NoDup (map eth_addr chain) ->
  find (mac_is mac) (List.filter q chain)
  = match find (mac_is mac) chain with
    | Some f => if q f then Some f else None
    | None => None
    end.
Proof.
  induction chain as [|g n IH]; cbn [List.filter find map]; [done|].
  intros Hnd. apply NoDup_cons in Hnd as [Hg Hnd].
  destruct (mac_is mac g) eqn:Hm.
  - destruct (q g); cbn [find]; [by rewrite Hm|].
    apply find_filter_absent, find_mac_is_None.
    apply mac_is_true in Hm. by rewrite <- Hm.
  - destruct (q g); cbn [find]; [rewrite Hm|]; by apply IH.
Qed.

Lemma vxlan_cleanup_chain_logs HZ jiffies age :
  walk_logs (fun f => negb (test (state f) NUD_PERMANENT)
                      && time_before_eq (fdb_timeout HZ age f) jiffies)
    (set_state NUD_STALE) (vxlan_cleanup_chain HZ jiffies age).
Proof.
  intros chain. induction chain as [|f n IH]; intros a;
    cbn [vxlan_cleanup_chain List.filter]; [done|].
  destruct (test (state f) NUD_PERMANENT); cbn [negb andb].
  - specialize (IH a). destruct (vxlan_cleanup_chain HZ jiffies age n a). exact IH.
  - destruct (time_before_eq (fdb_timeout HZ age f) jiffies).
    + rewrite IH. cbn [rev walk_destroy walk_rtnl]. rewrite map_app. cbn [map].
      by rewrite <- app_assoc.
    + set (a1 := if time_before _ _ then _ else a).
      assert (walk_rtnl a1 = walk_rtnl a) as Ha1
        by (subst a1; by destruct (time_before _ _)).
      specialize (IH a1). destruct (vxlan_cleanup_chain HZ jiffies age n a1).
      cbn [snd] in *. by rewrite IH, Ha1.
Qed.

Lemma aged_out_code HZ jiffies age f :
  0 <= jiffies < 2 ^ 63 -> 0 <= age * HZ -> clock_ok HZ age f ->
  negb (test (state f) NUD_PERMANENT) && time_before_eq (fdb_timeout HZ age f) jiffies
  = aged_out HZ jiffies age f.
Proof.
  intros Hj HT Hclk. unfold aged_out. f_equal.
  rewrite fdb_timeout_expiry by done. unfold clock_ok, expiry in *.
  rewrite time_before_eq_le by lia.
  destruct (Z.leb_spec (used f + age * HZ) jiffies);
    destruct (Z.leb_spec (used f) (jiffies - age * HZ)); (done || lia).
Qed.

Lemma vxlan_cleanup_running HZ jiffies w :
  let v := vxlan w in
  netif_running (dev v) = true ->
  0 <= jiffies -> 0 <= HZ -> 0 <= age_interval v * HZ ->
  jiffies + FDB_AGE_INTERVAL HZ < 2 ^ 63 ->
  Forall (clock_ok HZ (age_interval v)) (fdb_entries v) ->
  let w' := vxlan_cleanup HZ jiffies w in
  fdb_head (vxlan w')
  = vmap (List.filter (fun f => negb (aged_out HZ jiffies (age_interval v) f)))
      (fdb_head v)
  /\ rtnl w'
     = map (fun f => (RTM_DELNEIGH, set_state NUD_STALE f))
         (rev (List.filter (aged_out HZ jiffies (age_interval v)) (fdb_entries v)))
       ++ rtnl w
  /\ atomic_pool w' = atomic_pool w.
Proof.
  intros v Hup Hj HHZ HT Hnext Hclk w'.
  set (a0 := Walk (addrcnt v) (rtnl w) (ulong (jiffies + FDB_AGE_INTERVAL HZ))).
  assert (Ha0 : next_timer a0 = jiffies + FDB_AGE_INTERVAL HZ).
  { apply ulong_small. unfold FDB_AGE_INTERVAL in *. lia. }
  destruct (vxlan_cleanup_table_spec HZ jiffies (age_interval v) (fdb_head v) a0)
    as (Hk & _ & _); try done.
  { unfold FDB_AGE_INTERVAL in *. lia. }
  { rewrite Ha0. unfold FDB_AGE_INTERVAL in *. lia. }
  pose proof (for_each_chain_logs _ _ _ (fdb_head v) a0
                (vxlan_cleanup_chain_logs HZ jiffies (age_interval v))) as Hl.
  subst w'. unfold vxlan_cleanup. fold v. rewrite Hup. cbn [negb]. fold a0.
  destruct (for_each_chain _ _ _) as [tbl a]. cbn [fst snd] in Hk, Hl.
  cbn [vxlan rtnl atomic_pool]. split_and!; [done| |done].
  rewrite Hl. cbn [a0 walk_rtnl]. do 3 f_equal.
  apply List.filter_ext_in. intros f Hin. apply aged_out_code; [|done|].
  - unfold FDB_AGE_INTERVAL in *. lia.
  - rewrite Forall_forall in Hclk. apply Hclk. by apply list_elem_of_In.
Qed.

Lemma find_mac_cleanup HZ jiffies w mac :
  let v := vxlan w in
  netif_running (dev v) = true -> fdb_wf v ->
  0 <= jiffies -> 0 <= HZ -> 0 <= age_interval v * HZ ->
  jiffies + FDB_AGE_INTERVAL HZ < 2 ^ 63 ->
  Forall (clock_ok HZ (age_interval v)) (fdb_entries v) ->
  __vxlan_find_mac (vxlan (vxlan_cleanup HZ jiffies w)) mac
  = match __vxlan_find_mac v mac with
    | Some f => if aged_out HZ jiffies (age_interval v) f then None else Some f
    | None => None
    end.
Proof.
  intros v Hup Hwf Hj HHZ HT Hnext Hclk.
  destruct (vxlan_cleanup_running HZ jiffies w Hup Hj HHZ HT Hnext Hclk) as [Hh _].
  unfold __vxlan_find_mac, vxlan_fdb_head. rewrite Hh, vlookup_map.
  rewrite find_filter_NoDup by apply Hwf. fold v.
  destruct (find _ _) as [f|]; [|done]. by destruct (aged_out _ _ _ f).
Qed.


Lemma fdb_inv_add dev_get_by_index jiffies w ndm_state ndm_flags tb addr nlm_flags :
  fdb_wf (vxlan w) /\ fdb_count_ok (vxlan w) ->
  let w' := fst (vxlan_fdb_add dev_get_by_index jiffies w ndm_state ndm_flags tb
                   addr nlm_flags) in
  fdb_wf (vxlan w') /\ fdb_count_ok (vxlan w').
Proof.
  intros Hinv w'. subst w'. unfold vxlan_fdb_add.
  destruct (negb (test ndm_state _)); [done|].
  destruct (NDA_DST tb); [|done].
  destruct (vxlan_fdb_parse _ _ _) as [err|[[[ip port] vni] ifindex]]; [done|].
  by apply fdb_inv_create.
Qed.

Lemma fdb_wf_example_learned :
  fdb_wf (vxlan example_learned) /\ fdb_count_ok (vxlan example_learned).
Proof.
  unfold example_learned.
  destruct (vxlan_snoop 1000 example_world 0x0a000005 mac_aa01) as [[w d]|] eqn:Hs.
  - apply fdb_inv_add. apply (fdb_inv_snoop _ _ _ _ _ _ Hs), fdb_wf_example_world.
  - apply fdb_wf_example_world.
Qed.


(** X15. A lookup protects an entry from ageing.  When [vxlan_find_mac]
    has found an entry at time [jiffies], refreshing its [used], an ageing
    pass at any later time before [jiffies + age_interval * HZ] leaves the
    entry in the table, whatever its state. *)
Theorem X15_lookup_protects_from_ageing HZ jiffies jiffies' w mac f :
  let v := vxlan w in
  let age := age_interval v in
  netif_running (dev v) = true -> fdb_wf v ->
  __vxlan_find_mac v mac = Some f ->
  0 <= jiffies <= jiffies' -> 0 <= HZ -> 0 <= age * HZ ->
  jiffies' + FDB_AGE_INTERVAL HZ < 2 ^ 63 ->
  Forall (clock_ok HZ age) (fdb_entries v) ->
  jiffies + age * HZ < 2 ^ 63 ->
  jiffies' < jiffies + age * HZ ->
  let w1 := set_vxlan (fst (vxlan_find_mac jiffies v mac)) w in
  snd (vxlan_find_mac jiffies v mac) = Some (set_used jiffies f)
  /\ __vxlan_find_mac (vxlan (vxlan_cleanup HZ jiffies' w1)) mac
     = Some (set_used jiffies f).
Proof.
  intros v age Hup Hwf Hf Hj HHZ HT Hnext Hclk Hfresh Hlive w1.
  pose proof (find_mac_is _ _ _ Hf) as Hmac.
  subst w1. rewrite (vxlan_find_mac_hit _ _ _ _ Hf). cbn [fst snd]. split; [done|].
  set (f1 := set_used jiffies f). set (v1 := fdb_write mac f1 v).
  assert (__vxlan_find_mac v1 mac = Some f1) as Hf1.
  { unfold v1. rewrite find_mac_fdb_write_eq by done. fold v. by rewrite Hf. }
  rewrite find_mac_cleanup; cbn [vxlan set_vxlan]; fold v1.
  - rewrite Hf1. unfold aged_out. cbn [f1 set_used used state].
    assert ((jiffies <=? jiffies' - age_interval v1 * HZ) = false) as ->.
    { apply Z.leb_gt. change (age_interval v1) with age. lia. }
    by rewrite andb_false_r.
  - done.
  - apply (fdb_wf_macs v); [|done]. by apply fdb_macs_fdb_write.
  - lia.
  - done.
  - done.
  - done.
  - apply Forall_fdb_write; [|done]. intros _. unfold clock_ok. cbn [f1 set_used used].
    change (age_interval v1) with age. lia.
Qed.

Lemma X15_lookup_protects_from_ageing_witness :
  let v := vxlan example_learned in
  let w1 := set_vxlan (fst (vxlan_find_mac 350000 v mac_aa01)) example_learned in
  __vxlan_find_mac (vxlan (vxlan_cleanup 1000 400000 w1)) mac_aa01
  = Some (Fdb 1000 350000 [Rdst 0x0a000005 4789 10 0] NUD_REACHABLE NTF_SELF mac_aa01).
Proof.
  exact (proj2 (X15_lookup_protects_from_ageing 1000 350000 400000 example_learned
                  mac_aa01
                  (Fdb 1000 1000 [Rdst 0x0a000005 4789 10 0] NUD_REACHABLE NTF_SELF
                     mac_aa01)
                  eq_refl (proj1 fdb_wf_example_learned)
                  ltac:(vm_compute; reflexivity)
                  ltac:(lia) ltac:(lia) ltac:(vm_compute; discriminate)
                  ltac:(vm_compute; reflexivity)
                  ltac:(unfold clock_ok; apply (bool_decide_unpack _);
                        vm_compute; exact I)
                  ltac:(vm_compute; reflexivity) ltac:(vm_compute; reflexivity))).
Defined.

Lemma testbit_byte x n :
  0 <= n -> Z.testbit (Z.land x 0xff) n = Z.testbit x n && (n <? 8).
Proof.
  intros Hn. change 0xff with (Z.ones 8). rewrite Z.land_spec, Z.testbit_ones by lia.
  destruct (Z.leb_spec 0 n); [|lia]. done.
Qed.

Lemma testbit_above x k n : 0 <= x < 2 ^ k -> k <= n -> Z.testbit x n = false.
Proof.
  intros Hx Hn. destruct (decide (x = 0)) as [->|Hne]; [apply Z.bits_0|].
  apply Z.bits_above_log2; [lia|]. 
  assert (Z.log2 x < k); [|lia]. apply Z.log2_lt_pow2; lia.
Qed.

Lemma be32_roundtrip x :
  0 <= x < 2 ^ 32 ->
  Z.lor (Z.shiftl (Z.land (Z.shiftr x 24) 0xff) 24)
    (Z.lor (Z.shiftl (Z.land (Z.shiftr x 16) 0xff) 16)
       (Z.lor (Z.shiftl (Z.land (Z.shiftr x 8) 0xff) 8) (Z.land x 0xff))) = x.
Proof.
  intros Hx. apply Z.bits_inj'. intros n Hn.
  rewrite !Z.lor_spec, !Z.shiftl_spec by lia.
  destruct (Z.ltb_spec n 8); [|destruct (Z.ltb_spec n 16);
    [|destruct (Z.ltb_spec n 24); [|destruct (Z.ltb_spec n 32)]]].
  - rewrite !(Z.testbit_neg_r _ (n - _)) by lia. rewrite testbit_byte by lia.
    cbn [orb]. destruct (Z.ltb_spec n 8); [|lia]. by rewrite andb_true_r.
  - rewrite !(Z.testbit_neg_r _ (n - 24)), !(Z.testbit_neg_r _ (n - 16)) by lia.
    rewrite !testbit_byte, Z.shiftr_spec by lia. cbn [orb].
    replace (n - 8 + 8) with n by lia.
    destruct (Z.ltb_spec (n - 8) 8); [|lia]. destruct (Z.ltb_spec n 8); [lia|].
    by rewrite andb_true_r, andb_false_r, orb_false_r.
  - rewrite !(Z.testbit_neg_r _ (n - 24)) by lia.
    rewrite !testbit_byte, !Z.shiftr_spec by lia. cbn [orb].
    replace (n - 16 + 16) with n by lia.
    destruct (Z.ltb_spec (n - 16) 8); [|lia]. destruct (Z.ltb_spec (n - 8) 8); [lia|].
    destruct (Z.ltb_spec n 8); [lia|].
    by rewrite andb_true_r, !andb_false_r, !orb_false_r.
  - rewrite !testbit_byte, !Z.shiftr_spec by lia.
    replace (n - 24 + 24) with n by lia.
    destruct (Z.ltb_spec (n - 24) 8); [|lia]. destruct (Z.ltb_spec (n - 16) 8); [lia|].
    destruct (Z.ltb_spec (n - 8) 8); [lia|]. destruct (Z.ltb_spec n 8); [lia|].
    by rewrite andb_true_r, !andb_false_r, !orb_false_r.
  - rewrite !testbit_byte, !Z.shiftr_spec by lia.
    destruct (Z.ltb_spec (n - 24) 8); [lia|]. destruct (Z.ltb_spec (n - 16) 8); [lia|].
    destruct (Z.ltb_spec (n - 8) 8); [lia|]. destruct (Z.ltb_spec n 8); [lia|].
    rewrite !andb_false_r. cbn [orb]. symmetry. by apply (testbit_above x 32).
Qed.

(** ** Wire format: what is sent is what is received *)

Lemma be32_at_app_octets hdr x rest :
  0 <= x < 2 ^ 32 ->
  be32_at (hdr ++ be32_octets x ++ rest) (length hdr) = x.
Proof.
  intros Hx. unfold be32_at, octet_at.
  pose proof (fun k => app_nth2_plus hdr (be32_octets x ++ rest) 0 k) as Hn.
  pose proof (Hn 0%nat) as H0. rewrite Nat.add_0_r in H0.
  rewrite H0, !Hn. cbn [be32_octets app nth]. by apply be32_roundtrip.
Qed.

Lemma vni_word_low v : Z.land (u32 (Z.shiftl v 8)) 0xff = 0.
Proof.
  change 0xff with (Z.ones 8). rewrite Z.land_ones by lia. unfold u32.
  rewrite Z.shiftl_mul_pow2 by lia.
  change (2 ^ 32) with (2 ^ 8 * 2 ^ 24). rewrite Z.mul_comm.
  rewrite Z.mul_mod_distr_l by lia. rewrite Z.mul_comm. apply Z.mod_mul. lia.
Qed.

Lemma vni_word_high v : Z.shiftr (u32 (Z.shiftl v 8)) 8 = v mod 2 ^ 24.
Proof.
  unfold u32. rewrite Z.shiftl_mul_pow2, Z.shiftr_div_pow2 by lia.
  change (2 ^ 32) with (2 ^ 8 * 2 ^ 24). rewrite (Z.mul_comm v).
  rewrite Z.mul_mod_distr_l by lia. rewrite Z.mul_comm. apply Z.div_mul. lia.
Qed.

Lemma be16_roundtrip x :
  0 <= x < 2 ^ 16 ->
  Z.lor (Z.shiftl (Z.land (Z.shiftr x 8) 0xff) 8) (Z.land x 0xff) = x.
Proof.
  intros Hx. apply Z.bits_inj'. intros n Hn.
  rewrite !Z.lor_spec, !Z.shiftl_spec by lia.
  destruct (Z.ltb_spec n 8); [|destruct (Z.ltb_spec n 16)].
  - rewrite !(Z.testbit_neg_r _ (n - _)) by lia. rewrite testbit_byte by lia.
    cbn [orb]. destruct (Z.ltb_spec n 8); [|lia]. by rewrite andb_true_r.
  - rewrite !testbit_byte, Z.shiftr_spec by lia.
    replace (n - 8 + 8) with n by lia.
    destruct (Z.ltb_spec (n - 8) 8); [|lia]. destruct (Z.ltb_spec n 8); [lia|].
    by rewrite andb_true_r, andb_false_r, orb_false_r.
  - rewrite !testbit_byte, !Z.shiftr_spec by lia.
    destruct (Z.ltb_spec (n - 8) 8); [lia|]. destruct (Z.ltb_spec n 8); [lia|].
    rewrite !andb_false_r. cbn [orb]. symmetry. by apply (testbit_above x 16).
Qed.

Lemma u16_range x : 0 <= u16 x < 2 ^ 16.
Proof. unfold u16. apply Z.mod_pos_bound. lia. Qed.

(** The buffer [vxlan_xmit_skb] hands to [iptunnel_xmit]: the frame, with
    the VLAN tag put into it when the buffer carried one, behind the eight
    octets of the UDP header and the eight of the VXLAN header. *)
Lemma vxlan_xmit_skb_sent xe skb src dst tos ttl df src_port dst_port vni ret pkt :
  Wire.vxlan_xmit_skb xe skb src dst tos ttl df src_port dst_port vni
  = (ret, Some pkt) ->
  exists inner,
    match vlan_tx_tag xe skb with
    | Some tci => __vlan_put_tag xe skb tci = Some inner
    | None => inner = skb
    end
    /\ pkt = SkBuff
               (be16_octets src_port ++ be16_octets dst_port
                ++ be16_octets (u16 (16 + Z.of_nat (length (data inner))))
                ++ be16_octets 0
                ++ be32_octets (u32 VXLAN_FLAGS) ++ be32_octets vni ++ data inner)
               (protocol inner)
    /\ ret = iptunnel_xmit xe pkt src dst IPPROTO_UDP tos ttl df.
Proof.
  unfold Wire.vxlan_xmit_skb.
  destruct (negb (skb_cow_head xe skb =? 0)); [done|].
  set (inner := match vlan_tx_tag xe skb with
                | Some tci => match __vlan_put_tag xe skb tci with
                              | Some skb' => Next skb'
                              | None => Return (- ENOMEM)
                              end
                | None => Next skb
                end).
  assert (forall i, inner = Next i ->
                    match vlan_tx_tag xe skb with
                    | Some tci => __vlan_put_tag xe skb tci = Some i
                    | None => i = skb
                    end) as Hinner.
  { subst inner. intros i. destruct (vlan_tx_tag xe skb) as [tci|].
    - destruct (__vlan_put_tag xe skb tci); [|done]. by intros [= ->].
    - by intros [= ->]. }
  destruct inner as [i|err]; [|done]. specialize (Hinner i eq_refl).
  cbv zeta.
  assert (8 + Z.of_nat (length (data (__skb_push
                                        (be32_octets (u32 VXLAN_FLAGS) ++ be32_octets vni) i)))
          = 16 + Z.of_nat (length (data i))) as ->.
  { unfold __skb_push. cbn [data]. rewrite !length_app. cbn [be32_octets length]. lia. }
  set (p := __skb_push _ (__skb_push _ i)).
  assert (p = SkBuff
                (be16_octets src_port ++ be16_octets dst_port
                 ++ be16_octets (u16 (16 + Z.of_nat (length (data i))))
                 ++ be16_octets 0
                 ++ be32_octets (u32 VXLAN_FLAGS) ++ be32_octets vni ++ data i)
                (protocol i)) as Hp.
  { subst p. unfold __skb_push. cbn [data protocol]. by rewrite <- !app_assoc. }
  clearbody p. destruct (negb (handle_offloads xe p =? 0)); [done|].
  intros [= <- <-]. exists i. rewrite <- Hp. done.
Qed.

(** X16. Encapsulation and decapsulation agree.  The buffer that
    [vxlan_xmit_skb] hands to [iptunnel_xmit] carries, behind a UDP header
    with the ports of the call, the length of the datagram and a zero
    checksum, a VXLAN header with the flags word VXLAN_FLAGS and the VNI
    word of the call, and then the frame unchanged.  For the VNI word
    [vni << 8] that [vxlan_xmit_one] passes, [vxlan_udp_encap_recv] accepts
    the buffer and [vxlan_rcv] takes the VNI [vni mod 2^24] from it: a VNI
    of 24 bits comes out as it went in. *)
Theorem X16_encap_decap_roundtrip xe skb src dst tos ttl df src_port dst_port vni
    ret pkt :
  Wire.vxlan_xmit_skb xe skb src dst tos ttl df src_port dst_port
    (u32 (Z.shiftl vni 8)) = (ret, Some pkt) ->
  0 <= src_port < 2 ^ 16 -> 0 <= dst_port < 2 ^ 16 ->
  exists inner,
    match vlan_tx_tag xe skb with
    | Some tci => __vlan_put_tag xe skb tci = Some inner
    | None => inner = skb
    end
    /\ skipn (Z.to_nat VXLAN_HLEN) (data pkt) = data inner
    /\ protocol pkt = protocol inner
    /\ uh_source pkt = src_port /\ uh_dest pkt = dst_port
    /\ uh_len pkt = u16 (Z.of_nat (length (data pkt))) /\ uh_check pkt = 0
    /\ vx_flags pkt = VXLAN_FLAGS
    /\ vx_vni pkt = u32 (Z.shiftl vni 8)
    /\ vxlan_udp_encap_recv 0 true pkt = (0, RECEIVED (u32 (Z.shiftl vni 8)))
    /\ decode 0 true pkt = Decoded (vni mod 2 ^ 24).
Proof.
  intros Hsent Hsp Hdp.
  destruct (vxlan_xmit_skb_sent _ _ _ _ _ _ _ _ _ _ _ _ Hsent) as (inner & Hin & -> & _).
  exists inner. split; [done|].
  set (len := u16 (16 + Z.of_nat (length (data inner)))).
  assert (0 <= len < 2 ^ 16) as Hlen by apply u16_range.
  assert (0 <= u32 (Z.shiftl vni 8) < 2 ^ 32) as Hw by apply u32_range.
  set (w := u32 (Z.shiftl vni 8)) in *.
  assert (Hflags : vx_flags
            (SkBuff (be16_octets src_port ++ be16_octets dst_port ++ be16_octets len
                     ++ be16_octets 0 ++ be32_octets (u32 VXLAN_FLAGS)
                     ++ be32_octets w ++ data inner) (protocol inner)) = VXLAN_FLAGS).
  { unfold vx_flags. cbn [data].
    apply (be32_at_app_octets
             (be16_octets src_port ++ be16_octets dst_port ++ be16_octets len
              ++ be16_octets 0) (u32 VXLAN_FLAGS) (be32_octets w ++ data inner)).
    done. }
  assert (Hvni : vx_vni
            (SkBuff (be16_octets src_port ++ be16_octets dst_port ++ be16_octets len
                     ++ be16_octets 0 ++ be32_octets (u32 VXLAN_FLAGS)
                     ++ be32_octets w ++ data inner) (protocol inner)) = w).
  { unfold vx_vni. cbn [data].
    pose proof (be32_at_app_octets
                  (be16_octets src_port ++ be16_octets dst_port ++ be16_octets len
                   ++ be16_octets 0 ++ be32_octets (u32 VXLAN_FLAGS))
                  w (data inner) Hw) as H.
    rewrite <- !app_assoc in H. exact H. }
  assert (Hrecv : vxlan_udp_encap_recv 0 true
            (SkBuff (be16_octets src_port ++ be16_octets dst_port ++ be16_octets len
                     ++ be16_octets 0 ++ be32_octets (u32 VXLAN_FLAGS)
                     ++ be32_octets w ++ data inner) (protocol inner))
          = (0, RECEIVED w)).
  { unfold vxlan_udp_encap_recv. rewrite Hflags, Hvni.
    unfold pskb_may_pull. cbn [data].
    assert ((VXLAN_HLEN <=? Z.of_nat (length
              (be16_octets src_port ++ be16_octets dst_port ++ be16_octets len
               ++ be16_octets 0 ++ be32_octets (u32 VXLAN_FLAGS)
               ++ be32_octets w ++ data inner))) = true) as ->.
    { apply Z.leb_le. cbn [be16_octets be32_octets app length]. unfold VXLAN_HLEN. lia. }
    rewrite Z.eqb_refl. unfold w at 1. rewrite vni_word_low. done. }
  split_and!; try done.
  - unfold uh_source, be16_at, octet_at. cbn [data be16_octets app nth Nat.add].
    by apply be16_roundtrip.
  - unfold uh_dest, be16_at, octet_at. cbn [data be16_octets app nth Nat.add].
    by apply be16_roundtrip.
  - unfold uh_len, be16_at, octet_at. cbn [data be16_octets app nth Nat.add].
    rewrite be16_roundtrip by done. unfold len. f_equal.
    cbn [be32_octets app length]. lia.
  - unfold decode. rewrite Hrecv. f_equal. unfold w.
    rewrite (u32_small (u32 (Z.shiftl vni 8))) by apply u32_range.
    apply vni_word_high.
Qed.

Lemma X16_encap_decap_roundtrip_witness :
  exists pkt,
    snd (Wire.vxlan_xmit_skb example_xmit_skb_env example_frame 0x0a000001
           0x0a000005 0 64 0 40000 4789 (u32 (Z.shiftl 10 8))) = Some pkt
    /\ decode 0 true pkt = Decoded 10.
Proof.
  eexists. split; [vm_compute; reflexivity|].
  match goal with
  | |- decode 0 true ?pkt = _ =>
      destruct (X16_encap_decap_roundtrip example_xmit_skb_env example_frame
                  0x0a000001 0x0a000005 0 64 0 40000 4789 10 70 pkt
                  ltac:(vm_compute; reflexivity) ltac:(lia) ltac:(lia))
        as (inner & _ & _ & _ & _ & _ & _ & _ & _ & _ & _ & Hdec)
  end.
  exact Hdec.
Defined.

(** ** Receive path: one endpoint per VNI *)

Lemma vxlan_sock_eta vs : VxlanSock (vni_list vs) (sock_pool vs) (sock_rtnl vs) = vs.
Proof. by destruct vs. Qed.

(** X17. [vxlan_rcv] touches one endpoint at most, the first one of the
    socket whose VNI is that of the packet ([ntohl(vx_vni) >> 8]).  With no
    such endpoint the packet is dropped and nothing changes.  Otherwise all
    other endpoints are as before; a frame whose source address is the
    address of the endpoint itself is dropped with nothing changed (loop
    suppression); an endpoint without VXLAN_F_LEARN is not changed at all;
    and a frame handed to [netif_rx] goes to that endpoint and no other. *)
Theorem X17_rcv_one_endpoint eth_type_trans INET_ECN_set_ce jiffies vs skb
    vx_vni oip_saddr vs' out :
  vxlan_rcv eth_type_trans INET_ECN_set_ce jiffies vs skb vx_vni oip_saddr
  = Some (vs', out) ->
  let vni := Z.shiftr (u32 vx_vni) 8 in
  length (vni_list vs') = length (vni_list vs)
  /\ match vxlan_vs_find_vni vs vni with
     | None =>
         (forall v, v ∈ vni_list vs -> remote_vni (default_dst v) <> vni)
         /\ vs' = vs /\ out = RCV_DROP
     | Some (i, v) =>
         vni_list vs !! i = Some v
         /\ remote_vni (default_dst v) = vni
         /\ (forall j, j <> i -> vni_list vs' !! j = vni_list vs !! j)
         /\ (h_source skb = dev_addr (dev v) -> vs' = vs /\ out = RCV_DROP)
         /\ (test (vflags v) VXLAN_F_LEARN = false -> vs' = vs)
         /\ (forall k skb', out = RCV_NETIF_RX k skb' ->
               k = i /\ skb' = eth_type_trans skb (dev v)
               /\ h_source skb <> dev_addr (dev v))
     end.
Proof.
  intros Hrcv vni. revert Hrcv. unfold vxlan_rcv. fold vni.
  unfold vxlan_vs_find_vni.
  destruct (list_find _ (vni_list vs)) as [[i v]|] eqn:Hfind.
  2: { intros [= <- <-]. split; [done|]. split_and!; try done.
       intros v Hin Hv. apply list_find_None in Hfind.
       rewrite Forall_forall in Hfind. by apply (Hfind v). }
  apply list_find_Some in Hfind as (Hi & Hvni & Hfirst). cbv zeta.
  unfold compare_ether_addr.
  destruct (decide (h_source skb = dev_addr (dev v))) as [Hsrc|Hsrc].
  { change (0 =? 0) with true. cbv iota. intros [= <- <-].
    split; [done|]. split_and!; try done. }
  change (1 =? 0) with false. cbv iota.
  destruct (test (vflags v) VXLAN_F_LEARN) eqn:Hlearn.
  - destruct (vxlan_snoop _ _ _ _) as [[w bogus]|]; [|done].
    assert (forall o, Some (VxlanSock (<[i:=vxlan w]> (vni_list vs)) (atomic_pool w)
                              (rtnl w), o) = Some (vs', out) ->
                      length (vni_list vs') = length (vni_list vs)
                      /\ (forall j, j <> i -> vni_list vs' !! j = vni_list vs !! j)
                      /\ o = out) as Hframe.
    { intros o [= <- <-]. cbn [vni_list]. rewrite length_insert. split_and!; try done.
      intros j Hj. by apply list_lookup_insert_ne. }
    destruct bogus.
    + intros Hr. destruct (Hframe _ Hr) as (Hlen & Hother & <-).
      split; [done|]. split_and!; try done.
    + destruct (negb (INET_ECN_set_ce _ =? 0) && _).
      * intros Hr. destruct (Hframe _ Hr) as (Hlen & Hother & <-).
        split; [done|]. split_and!; try done.
      * intros Hr. destruct (Hframe _ Hr) as (Hlen & Hother & <-).
        split; [done|]. split_and!; try done. by intros k skb' [= <- <-].
  - cbn [vxlan atomic_pool rtnl]. rewrite (list_insert_id _ _ _ Hi), vxlan_sock_eta.
    destruct (negb (INET_ECN_set_ce _ =? 0) && _); intros [= <- <-].
    + split; [done|]. split_and!; try done.
    + split; [done|]. split_and!; try done. by intros k skb' [= <- <-].
Qed.

Lemma X17_rcv_one_endpoint_witness :
  exists vs',
    vxlan_rcv example_eth_type_trans (fun _ => 0) 5000 example_sock example_frame
      (u32 (Z.shiftl 10 8)) 0x0a000005
    = Some (vs', RCV_NETIF_RX 0 (example_eth_type_trans example_frame
                                    (dev (vxlan example_learned))))
    /\ length (vni_list vs') = 1%nat.
Proof.
  eexists. split; [vm_compute; reflexivity|].
  match goal with
  | |- length (vni_list ?vs') = _ =>
      exact (proj1 (X17_rcv_one_endpoint example_eth_type_trans (fun _ => 0) 5000
                      example_sock example_frame (u32 (Z.shiftl 10 8)) 0x0a000005
                      vs' (RCV_NETIF_RX 0 (example_eth_type_trans example_frame
                                             (dev (vxlan example_learned))))
                      ltac:(vm_compute; reflexivity)))
  end.
Defined.

(** ** Transmit and receive: the VNI of a destination *)

Lemma vxlan_xmit_one_skb env v skb rdst did_rsc fl4 e err :
  vxlan_xmit_one env v skb rdst did_rsc = XMIT_SKB fl4 e err ->
  remote_ip rdst <> 0
  /\ encap_dst e = remote_ip rdst
  /\ encap_src e = saddr v
  /\ encap_dst_port e
     = (if remote_port rdst =? 0 then dst_port v else remote_port rdst)
  /\ encap_src_port e = vxlan_src_port env (port_min v) (port_max v) skb
  /\ encap_vni e = u32 (Z.shiftl (remote_vni rdst) 8)
  /\ encap_df e = 0
  /\ err = vxlan_xmit_skb env skb
  /\ exists rt,
       ip_route_output_key env fl4 = Some rt
       /\ rt_dev_is_self rt = false
       /\ fl4_dst fl4 = remote_ip rdst /\ oif fl4 = remote_ifindex rdst
       /\ encap_ttl e
          = (if negb (ttl v =? 0) then ttl v
             else if IN_MULTICAST (remote_ip rdst) then 1 else u8 (rt_hoplimit rt)).
Proof.
  unfold vxlan_xmit_one.
  destruct (remote_ip rdst =? 0) eqn:Hdst; [by destruct did_rsc|].
  apply Z.eqb_neq in Hdst. cbv zeta.
  destruct (ip_route_output_key env _) as [rt|] eqn:Hrt; [|done].
  destruct (rt_dev_is_self rt) eqn:Hself; [done|].
  destruct (test (rt_flags rt) RTCF_LOCAL && _); [by destruct (vxlan_find_vni _ _ _)|].
  intros [= <- <- <-]. cbn [encap_dst encap_src encap_dst_port encap_src_port
    encap_vni encap_df encap_ttl fl4_src fl4_dst oif].
  split_and!; try done.
  - by destruct (remote_port rdst =? 0).
  - exists rt. split_and!; try done.
    destruct (ttl v =? 0) eqn:Httl; cbn [andb negb].
    + destruct (IN_MULTICAST (remote_ip rdst)); [done|]. by rewrite Httl.
    + by rewrite Httl.
Qed.

Lemma vxlan_rcv_netif_rx eth_type_trans INET_ECN_set_ce jiffies vs skb vx_vni
    oip_saddr vs' i skb' :
  vxlan_rcv eth_type_trans INET_ECN_set_ce jiffies vs skb vx_vni oip_saddr
  = Some (vs', RCV_NETIF_RX i skb') ->
  exists peer,
    vni_list vs !! i = Some peer
    /\ remote_vni (default_dst peer) = Z.shiftr (u32 vx_vni) 8.
Proof.
  unfold vxlan_rcv, vxlan_vs_find_vni.
  destruct (list_find _ (vni_list vs)) as [[k v]|] eqn:Hfind; [|done].
  apply list_find_Some in Hfind as (Hk & Hvni & _). cbv zeta.
  destruct (compare_ether_addr _ _ =? 0); [done|].
  destruct (if test (vflags v) VXLAN_F_LEARN then _ else _) as [[w bogus]|]; [|done].
  destruct bogus; [done|].
  destruct (negb (INET_ECN_set_ce _ =? 0) && _); [done|].
  intros [= _ <- _]. by exists v.
Qed.

(** X18. The VNI of a destination reaches the peer.  A frame that
    [vxlan_xmit_one] encapsulates for a destination goes to the address of
    that destination (never 0.0.0.0) and to its port, or to the port of the
    endpoint when the destination has none, over a route that does not lead
    back to the endpoint itself; and when [vxlan_rcv] at a peer hands a
    packet with that VNI word to [netif_rx], the receiving endpoint is one
    whose VNI is that of the destination, taken modulo 2^24 (the VNI of a
    destination is not limited to 24 bits when it is configured). *)
Theorem X18_vni_reaches_peer env v skb rdst did_rsc fl4 e err
    eth_type_trans INET_ECN_set_ce jiffies vs skb' oip_saddr vs' i skb'' :
  vxlan_xmit_one env v skb rdst did_rsc = XMIT_SKB fl4 e err ->
  vxlan_rcv eth_type_trans INET_ECN_set_ce jiffies vs skb' (encap_vni e) oip_saddr
  = Some (vs', RCV_NETIF_RX i skb'') ->
  remote_ip rdst <> 0
  /\ encap_dst e = remote_ip rdst
  /\ encap_dst_port e = (if remote_port rdst =? 0 then dst_port v else remote_port rdst)
  /\ (exists rt, ip_route_output_key env fl4 = Some rt /\ rt_dev_is_self rt = false)
  /\ Z.land (encap_vni e) 0xff = 0
  /\ exists peer,
       vni_list vs !! i = Some peer
       /\ remote_vni (default_dst peer) = remote_vni rdst mod 2 ^ 24.
Proof.
  intros Hx Hrcv.
  destruct (vxlan_xmit_one_skb _ _ _ _ _ _ _ _ Hx)
    as (Hdst & He & _ & Hport & _ & Hvni & _ & _ & rt & Hrt & Hself & _).
  split_and!; try done.
  - by exists rt.
  - rewrite Hvni. apply vni_word_low.
  - destruct (vxlan_rcv_netif_rx _ _ _ _ _ _ _ _ _ _ Hrcv) as (peer & Hi & Hpeer).
    exists peer. split; [done|]. rewrite Hpeer, Hvni.
    rewrite (u32_small (u32 _)) by apply u32_range. apply vni_word_high.
Qed.

Lemma X18_vni_reaches_peer_witness :
  let rdst := Rdst 0x0a000005 0 10 0 in
  let e := Encap 0 0x0a000005 0 64 0
             (vxlan_src_port example_env 32768 61000 example_frame) 4789
             (u32 (Z.shiftl 10 8)) in
  exists peer,
    vni_list example_sock !! 0%nat = Some peer
    /\ remote_vni (default_dst peer) = 10.
Proof.
  intros rdst e.
  destruct (X18_vni_reaches_peer example_env example_dev example_frame rdst false
              (Flowi 0 IPPROTO_UDP 0x0a000005 0 0) e
              (Z.of_nat (length (data example_frame)))
              example_eth_type_trans (fun _ => 0) 5000 example_sock example_frame
              0x0a000005
              (VxlanSock
                 [vxlan (fst (default (example_learned, false)
                                (vxlan_snoop 5000 example_learned 0x0a000005 mac_aa01)))]
                 [] (rtnl example_learned))
              0%nat
              (example_eth_type_trans example_frame (dev (vxlan example_learned)))
              ltac:(vm_compute; reflexivity) ltac:(vm_compute; reflexivity))
    as (_ & _ & _ & _ & _ & peer & Hi & Hpeer).
  exists peer. split; [exact Hi|exact Hpeer].
Defined.

(** ** Transmit path: the choice of the destinations *)








Lemma nth_skipn_plus {A} n k (l : list A) d : nth k (skipn n l) d = nth (n + k) l d.
Proof.
  revert l. induction n as [|n IH]; intros l; [done|].
  destruct l as [|x l]; [by destruct k|]. cbn [skipn Nat.add nth]. apply IH.
Qed.

Lemma ether_addr_eta a :
  EtherAddr (octet0 a) (octet1 a) (octet2 a) (octet3 a) (octet4 a) (octet5 a) = a.
Proof. by destruct a. Qed.

(** X19. [route_shortcircuit] rewrites the two addresses of the Ethernet
    header and nothing else.  When it returns true the frame has the
    hardware address of the neighbour as destination and the old
    destination as source, the rest of the frame is as before, the old
    destination was not a multicast address, differs from the new one, and
    the frame is IPv4; when it returns false the frame is untouched.  The
    forwarding table is never changed, and the only notification it can
    send is the L3 miss (RTM_GETNEIGH for the neighbour's IP address) when
    no neighbour is known and VXLAN_F_L3MISS is set. *)
Theorem X19_route_shortcircuit neigh_lookup w skb :
  let r := route_shortcircuit neigh_lookup w skb in
  let w' := fst (fst r) in
  let skb' := snd (fst r) in
  vxlan w' = vxlan w /\ atomic_pool w' = atomic_pool w
  /\ (if snd r then
        rtnl w' = rtnl w
        /\ is_multicast_ether_addr (h_dest skb) = false
        /\ h_proto skb = ETH_P_IP
        /\ neigh_lookup (be32_at (data skb) 30) = Some (h_dest skb')
        /\ h_dest skb' <> h_dest skb
        /\ h_source skb' = h_dest skb
        /\ skipn 12 (data skb') = skipn 12 (data skb)
        /\ h_proto skb' = h_proto skb
        /\ protocol skb' = protocol skb
      else
        skb' = skb
        /\ (rtnl w' = rtnl w
            \/ (test (vflags (vxlan w)) VXLAN_F_L3MISS = true
                /\ neigh_lookup (be32_at (data skb) 30) = None
                /\ rtnl w'
                   = (RTM_GETNEIGH,
                      Fdb 0 0 [Rdst (be32_at (data skb) 30) 0 VXLAN_N_VID 0]
                        NUD_STALE 0 all_zeros_mac) :: rtnl w))).
Proof.
  intros r w' skb'. subst r w' skb'. unfold route_shortcircuit.
  destruct (is_multicast_ether_addr (h_dest skb)) eqn:Hm;
    [cbn [fst snd]; split_and!; try done; by left|].
  destruct (h_proto skb =? ETH_P_IP) eqn:Hp;
    [|cbn [fst snd]; split_and!; try done; by left].
  apply Z.eqb_eq in Hp.
  destruct (negb (pskb_may_pull skb 20));
    [cbn [fst snd]; split_and!; try done; by left|].
  cbv zeta. destruct (neigh_lookup _) as [ha|] eqn:Hn.
  - unfold compare_ether_addr. destruct (decide (h_dest skb = ha)) as [Heq|Hne].
    + change (0 =? 0) with true. cbn [negb fst snd]. split_and!; try done. by left.
    + change (1 =? 0) with false. cbn [negb fst snd].
      assert (h_dest (SkBuff (ether_addr_octets ha ++ ether_addr_octets (h_dest skb)
                              ++ skipn 12 (data skb)) (protocol skb)) = ha) as Hd.
      { unfold h_dest at 1, octet_at. cbn [data ether_addr_octets app nth].
        apply ether_addr_eta. }
      rewrite Hd. split_and!; try done.
      unfold h_proto, octet_at. cbn [data ether_addr_octets app nth].
      by rewrite !nth_skipn_plus.
  - destruct (test (vflags (vxlan w)) VXLAN_F_L3MISS) eqn:Hl3; cbn [fst snd].
    + split_and!; try done. right. done.
    + split_and!; try done. by left.
Qed.



























(** ** Forwarding database: every entry keeps a destination *)

Lemma remotes_nonempty_filter (p : vxlan_fdb -> bool) v v' :
  fdb_head v' = vmap (List.filter p) (fdb_head v) ->
  remotes_nonempty v -> remotes_nonempty v'.
Proof.
  unfold remotes_nonempty, fdb_entries. intros -> Hall.
  rewrite concat_vmap_filter. rewrite Forall_forall in Hall. rewrite Forall_forall.
  intros f Hin. apply Hall. apply list_elem_of_In. apply list_elem_of_In in Hin.
  by apply List.filter_In in Hin as [? _].
Qed.

(** X22. "Guaranteed to be non-NULL because remotes are never deleted": the
    read of the first destination in [vxlan_snoop] is defined on every
    table whose entries all have a destination, and that property of the
    table is kept by [vxlan_snoop] and [vxlan_fdb_create] as long as the
    two allocations of a new entry succeed, and unconditionally by
    [vxlan_fdb_delete], [vxlan_cleanup] and [vxlan_flush]. *)
Theorem X22_entries_keep_a_destination w :
  remotes_nonempty (vxlan w) ->
  (forall jiffies src_ip src_mac,
     exists w' drop,
       vxlan_snoop jiffies w src_ip src_mac = Some (w', drop)
       /\ (kmalloc_ok 2 (atomic_pool w) -> remotes_nonempty (vxlan w')))
  /\ (forall jiffies mac ip nud_state nlm_flags port vni ifindex ndm_flags,
        kmalloc_ok 2 (atomic_pool w) ->
        remotes_nonempty
          (vxlan (fst (vxlan_fdb_create jiffies w mac ip nud_state nlm_flags port
                         vni ifindex ndm_flags))))
  /\ (forall dev_get_by_index jiffies tb addr,
        remotes_nonempty
          (vxlan (fst (vxlan_fdb_delete dev_get_by_index jiffies w tb addr))))
  /\ (forall HZ jiffies, remotes_nonempty (vxlan (vxlan_cleanup HZ jiffies w)))
  /\ remotes_nonempty (vxlan (vxlan_flush w)).
Proof.
  intros Hinv. split_and!.
  - intros jiffies src_ip src_mac.
    destruct (__vxlan_find_mac (vxlan w) src_mac) as [f|] eqn:Hf.
    + pose proof (find_mac_is _ _ _ Hf) as Hmac.
      pose proof (find_mac_Forall _ _ _ _ Hinv Hf) as Hrem. cbn beta in Hrem.
      destruct (remotes f) as [|rd rest] eqn:Hr; [done|].
      rewrite (vxlan_snoop_hit _ _ _ _ _ _ _ Hf Hr). cbv zeta.
      assert (remotes_nonempty (fdb_write src_mac (set_used jiffies f) (vxlan w)))
        as H1.
      { apply Forall_fdb_write; [|done]. intros _. cbn [set_used remotes].
        by rewrite Hr. }
      repeat case_inner; eexists _, _; (split; [reflexivity|]); intros _;
        cbn [vxlan set_vxlan vxlan_fdb_notify]; try done.
      by apply Forall_fdb_write.
    + unfold vxlan_snoop. rewrite (vxlan_find_mac_miss _ _ _ Hf).
      destruct (netif_running _); eexists _, _; (split; [reflexivity|]); [|done].
      intros Hpool. by apply vxlan_fdb_create_remotes_nonempty.
  - intros. by apply vxlan_fdb_create_remotes_nonempty.
  - intros. by apply vxlan_fdb_delete_remotes_nonempty.
  - intros HZ jiffies. unfold vxlan_cleanup. destruct (negb (netif_running _)); [done|].
    pose proof (for_each_chain_walk _ _ (fdb_head (vxlan w))
                  (Walk (addrcnt (vxlan w)) (rtnl w)
                     (ulong (jiffies + FDB_AGE_INTERVAL HZ)))
                  (vxlan_cleanup_chain_walk HZ jiffies (age_interval (vxlan w))))
      as [Hh _].
    destruct (for_each_chain _ _ _) as [tbl a]. cbn [fst] in Hh. cbn [vxlan].
    eapply remotes_nonempty_filter; [|exact Hinv]. exact Hh.
  - unfold vxlan_flush.
    pose proof (vxlan_flush_table_spec (fdb_head (vxlan w))
                  (Walk (addrcnt (vxlan w)) (rtnl w) 0)) as Hh.
    destruct (for_each_chain _ _ _) as [tbl a]. cbn [fst] in Hh. cbn [vxlan].
    eapply remotes_nonempty_filter; [|exact Hinv]. exact Hh.
Qed.

Lemma X22_entries_keep_a_destination_witness :
  exists w' drop,
    vxlan_snoop 5000 example_world 0x0a000005 mac_aa01 = Some (w', drop)
    /\ remotes_nonempty (vxlan w').
Proof.
  assert (remotes_nonempty (vxlan example_world)) as Hinv.
  { unfold remotes_nonempty. apply (bool_decide_unpack _). vm_compute. exact I. }
  destruct (proj1 (X22_entries_keep_a_destination example_world Hinv)
              5000 0x0a000005 mac_aa01) as (w' & drop & Hs & Hrem).
  exists w', drop. split; [exact Hs|]. apply Hrem.
  unfold kmalloc_ok. apply Forall_nil_2.
Defined.

(** ** Netlink: neighbour messages *)

Lemma nla_put_bind_Some {B} c set m (k : neigh_msg -> nl_build B) room room' r :
  (nla_put c set m ≫= k) room = (room', Some r) ->
  exists room1, k (if c then set m else m) room1 = (room', Some r).
Proof.
  unfold mbind, nl_build_bind, nla_put.
  destruct c; [destruct room as [|[] room1]|]; intros H; try done; by eexists.
Qed.

Lemma nla_put_Some c set m room room' r :
  nla_put c set m room = (room', Some r) -> r = if c then set m else m.
Proof.
  unfold nla_put. destruct c; [destruct room as [|[] room1]|]; intros H; congruence.
Qed.

Lemma nlmsg_put_bind_Some {B} portid seq type nlm_flags (k : nlmsghdr -> nl_build B)
    room room' r :
  (nlmsg_put portid seq type nlm_flags ≫= k) room = (room', Some r) ->
  exists room1, k (Nlmsghdr type nlm_flags seq portid) room1 = (room', Some r).
Proof.
  unfold mbind, nl_build_bind, nlmsg_put.
  destruct room as [|[] room1]; intros H; try done; by eexists.
Qed.

(** The message of a call of [vxlan_fdb_info] that succeeds. *)
Lemma vxlan_fdb_info_msg j2c jiffies ifindex skb v f portid seq type nlm_flags rd
    skb' m :
  vxlan_fdb_info j2c jiffies ifindex skb v f portid seq type nlm_flags rd
  = (skb', inr m) ->
  nl_msgs skb' = nl_msgs skb ++ [m]
  /\ nlh m = Nlmsghdr type nlm_flags seq portid
  /\ ndm m = Neigh.Ndmsg (if type =? RTM_GETNEIGH then AF_INET else AF_BRIDGE) ifindex
               (state f) (flags f) 1
  /\ NDA_LLADDR m
     = (if (type =? RTM_GETNEIGH) && is_zero_ether_addr (eth_addr f) then None
        else Some (ETH_ALEN, eth_addr f))
  /\ NDA_DST (nda_tb m)
     = (if (type =? RTM_GETNEIGH) && (remote_ip rd =? INADDR_ANY) then None
        else Some (4, remote_ip rd))
  /\ NDA_PORT (nda_tb m)
     = (if (remote_port rd =? 0) || (remote_port rd =? dst_port v) then None
        else Some (2, remote_port rd))
  /\ NDA_VNI (nda_tb m)
     = (if remote_vni rd =? remote_vni (default_dst v) then None
        else Some (4, remote_vni rd))
  /\ NDA_IFINDEX (nda_tb m)
     = (if remote_ifindex rd =? 0 then None else Some (4, remote_ifindex rd))
  /\ NDA_CACHEINFO m
     = Some (16, NdaCacheinfo 0 (u32 (j2c (ulong (jiffies - used f))))
                   (u32 (j2c (ulong (jiffies - updated f)))) 0).
Proof.
  unfold vxlan_fdb_info. cbv zeta.
  match goal with |- context [match ?b (nl_room skb) with _ => _ end] =>
    destruct (b (nl_room skb)) as [room [m'|]] eqn:Hb end; [|done].
  intros [= <- <-]. cbn [nl_msgs]. split; [done|].
  apply nlmsg_put_bind_Some in Hb as [r0 Hb].
  do 5 (apply nla_put_bind_Some in Hb as [? Hb]).
  apply nla_put_Some in Hb. subst m'.
  destruct (type =? RTM_GETNEIGH), (is_zero_ether_addr (eth_addr f)),
    (remote_ip rd =? INADDR_ANY), (remote_port rd =? 0),
    (remote_port rd =? dst_port v), (remote_vni rd =? remote_vni (default_dst v)),
    (remote_ifindex rd =? 0); cbn; done.
Qed.

(** A call of [vxlan_fdb_info] that fails leaves the messages of the buffer
    as they were. *)
Lemma vxlan_fdb_info_err j2c jiffies ifindex skb v f portid seq type nlm_flags rd
    skb' e :
  vxlan_fdb_info j2c jiffies ifindex skb v f portid seq type nlm_flags rd
  = (skb', inl e) ->
  e = - EMSGSIZE /\ nl_msgs skb' = nl_msgs skb.
Proof.
  unfold vxlan_fdb_info. cbv zeta.
  match goal with |- context [match ?b (nl_room skb) with _ => _ end] =>
    destruct (b (nl_room skb)) as [room [m'|]] end; [done|].
  by intros [= <- <-].
Qed.

Lemma nla_put_bind_room {B} c set m (k : neigh_msg -> nl_build B) room :
  Forall (eq true) room ->
  (forall m1 room1, Forall (eq true) room1 ->
     exists room2 r, k m1 room1 = (room2, Some r) /\ Forall (eq true) room2) ->
  exists room2 r,
    (nla_put c set m ≫= k) room = (room2, Some r) /\ Forall (eq true) room2.
Proof.
  intros Hroom Hk. unfold mbind, nl_build_bind, nla_put.
  destruct c; [|by apply Hk].
  destruct room as [|ok room1]; [by apply Hk|].
  apply Forall_cons in Hroom as [<- Hroom]. by apply Hk.
Qed.

Lemma nlmsg_put_bind_room {B} portid seq type nlm_flags (k : nlmsghdr -> nl_build B)
    room :
  Forall (eq true) room ->
  (forall h room1, Forall (eq true) room1 ->
     exists room2 r, k h room1 = (room2, Some r) /\ Forall (eq true) room2) ->
  exists room2 r,
    (nlmsg_put portid seq type nlm_flags ≫= k) room = (room2, Some r)
    /\ Forall (eq true) room2.
Proof.
  intros Hroom Hk. unfold mbind, nl_build_bind, nlmsg_put.
  destruct room as [|ok room1]; [by apply Hk|].
  apply Forall_cons in Hroom as [<- Hroom]. by apply Hk.
Qed.

(** With room for every put, [vxlan_fdb_info] succeeds. *)
Lemma vxlan_fdb_info_room j2c jiffies ifindex skb v f portid seq type nlm_flags rd :
  Forall (eq true) (nl_room skb) ->
  exists skb' m,
    vxlan_fdb_info j2c jiffies ifindex skb v f portid seq type nlm_flags rd
    = (skb', inr m)
    /\ Forall (eq true) (nl_room skb').
Proof.
  intros Hroom. unfold vxlan_fdb_info. cbv zeta.
  match goal with |- context [match ?b (nl_room skb) with _ => _ end] =>
    assert (exists room2 r, b (nl_room skb) = (room2, Some r)
                            /\ Forall (eq true) room2) as (room2 & r & -> & Hr)
  end.
  { apply nlmsg_put_bind_room; [done|]. intros h room1 Hroom1.
    do 5 (apply nla_put_bind_room; [done|]; clear room1 Hroom1;
          intros ? room1 Hroom1).
    unfold nla_put. destruct room1 as [|ok room2]; [by eexists _, _|].
    apply Forall_cons in Hroom1 as [<- Hroom1]. by eexists _, _. }
  by eexists _, _.
Qed.

(** ** Netlink: dumping the table *)

Section dump.
Variable info : nl_skb -> vxlan_fdb -> vxlan_rdst -> nl_skb * (Z + neigh_msg).
Variable args0 : Z.

(** What the walk needs of [vxlan_fdb_info]: a message is appended or the
    messages are as before. *)
Hypothesis info_ok : forall skb f rd skb' m,
  info skb f rd = (skb', inr m) -> nl_msgs skb' = nl_msgs skb ++ [m].
Hypothesis info_err : forall skb f rd skb' e,
  info skb f rd = (skb', inl e) -> nl_msgs skb' = nl_msgs skb.

Lemma vxlan_fdb_dump_remotes_spec f rds skb :
  exists ms k,
    nl_msgs (fst (vxlan_fdb_dump_remotes info f rds skb)) = nl_msgs skb ++ ms
    /\ Forall2 (info_record info) ms (map (pair f) (take k rds))
    /\ (if snd (vxlan_fdb_dump_remotes info f rds skb)
        then (k < length rds)%nat else k = length rds).
Proof.
  revert skb. induction rds as [|rd rds IH]; intros skb; cbn [vxlan_fdb_dump_remotes].
  - exists [], 0%nat. cbn. rewrite app_nil_r. split_and!; [done|constructor|done].
  - destruct (info skb f rd) as [skb1 [e|m]] eqn:Hi.
    + exists [], 0%nat. cbn. rewrite app_nil_r.
      split_and!; [by eapply info_err|constructor|lia].
    + destruct (IH skb1) as (ms & k & Hms & Hrec & Hk).
      exists (m :: ms), (S k). split_and!.
      * rewrite Hms, (info_ok _ _ _ _ _ Hi), <- app_assoc. done.
      * cbn. constructor; [by exists skb, skb1|done].
      * destruct (snd _); cbn; lia.
Qed.

Lemma vxlan_fdb_dump_chain_out chain d :
  dump_out d = true -> vxlan_fdb_dump_chain info args0 chain d = d.
Proof. intros Hd. destruct chain; cbn; [done|]. by rewrite Hd. Qed.

Lemma vxlan_fdb_dump_chain_app l1 l2 d :
  vxlan_fdb_dump_chain info args0 (l1 ++ l2) d
  = vxlan_fdb_dump_chain info args0 l2 (vxlan_fdb_dump_chain info args0 l1 d).
Proof.
  revert d. induction l1 as [|f l1 IH]; intros d; [done|].
  cbn [app vxlan_fdb_dump_chain].
  destruct (dump_out d) eqn:Hd; [by rewrite vxlan_fdb_dump_chain_out|].
  destruct (dump_idx d <? args0); [apply IH|].
  destruct (vxlan_fdb_dump_remotes _ _ _ _) as [skb [|]]; [|apply IH].
  by rewrite vxlan_fdb_dump_chain_out.
Qed.

Lemma vxlan_fdb_dump_chains chains d :
  fold_left (fun d chain => vxlan_fdb_dump_chain info args0 chain d) chains d
  = vxlan_fdb_dump_chain info args0 (concat chains) d.
Proof.
  revert d. induction chains as [|c chains IH]; intros d; [done|].
  cbn [fold_left concat]. by rewrite IH, vxlan_fdb_dump_chain_app.
Qed.

Lemma int_succ idx : 0 <= idx -> idx + 1 < 2 ^ 31 -> int (idx + 1) = idx + 1.
Proof. intros. unfold int. rewrite Z.mod_small; lia. Qed.

(** The walk over the entries [l], counted from [idx]: [n] entries are
    passed; those counted [args0] or more have a message for each
    destination; the walk stops only on an entry counted [args0] or more,
    after messages for some but not all of its destinations. *)
Lemma vxlan_fdb_dump_chain_spec l skb idx :
  0 <= idx -> idx + Z.of_nat (length l) < 2 ^ 31 ->
  let d' := vxlan_fdb_dump_chain info args0 l (Dump skb idx false) in
  exists (n : nat) ms rest,
    dump_idx d' = idx + Z.of_nat n
    /\ nl_msgs (dump_skb d') = nl_msgs skb ++ ms
    /\ Forall2 (info_record info) ms
         (fdb_destinations (drop (Z.to_nat (args0 - idx)) (take n l)) ++ rest)
    /\ (if dump_out d'
        then exists f k, l !! n = Some f /\ args0 <= idx + Z.of_nat n
                         /\ (k < length (remotes f))%nat
                         /\ rest = map (pair f) (take k (remotes f))
        else n = length l /\ rest = []).
Proof.
  revert skb idx. induction l as [|f l IH]; intros skb idx H0 Hlen; cbv zeta.
  - exists 0%nat, [], []. cbn. rewrite app_nil_r, Z.add_0_r.
    split_and!; try done. rewrite drop_nil. constructor.
  - cbn [vxlan_fdb_dump_chain dump_out dump_idx dump_skb].
    cbn [length] in Hlen. rewrite int_succ by lia.
    destruct (idx <? args0) eqn:Hskip.
    + apply Z.ltb_lt in Hskip.
      destruct (IH skb (idx + 1)) as (n & ms & rest & Hidx & Hms & Hrec & Hout);
        [lia|lia|].
      exists (S n), ms, rest. split_and!.
      * rewrite Hidx. lia.
      * done.
      * replace (Z.to_nat (args0 - idx)) with (S (Z.to_nat (args0 - (idx + 1))))
          by lia.
        done.
      * destruct (dump_out _).
        -- destruct Hout as (f' & k & Hf' & Ha & Hk & ->).
           exists f', k. split_and!; try done. lia.
        -- destruct Hout as [-> ->]. done.
    + apply Z.ltb_ge in Hskip.
      destruct (vxlan_fdb_dump_remotes_spec f (remotes f) skb)
        as (ms1 & k & Hms1 & Hrec1 & Hk).
      destruct (vxlan_fdb_dump_remotes info f (remotes f) skb) as [skb1 err].
      cbn [fst snd] in *. destruct err.
      * exists 0%nat, ms1, (map (pair f) (take k (remotes f))).
        cbn [dump_idx dump_skb dump_out]. rewrite Z.add_0_r.
        split_and!; try done.
        all: first [by rewrite take_0, drop_nil
                   |exists f, k; split_and!; try done; lia].
      * subst k. rewrite firstn_all in Hrec1.
        destruct (IH skb1 (idx + 1)) as (n & ms & rest & Hidx & Hms & Hrec & Hout);
          [lia|lia|].
        exists (S n), (ms1 ++ ms), rest. split_and!.
        -- rewrite Hidx. lia.
        -- rewrite Hms, Hms1, <- app_assoc. done.
        -- replace (Z.to_nat (args0 - idx)) with 0%nat by lia.
           replace (Z.to_nat (args0 - (idx + 1))) with 0%nat in Hrec by lia.
           rewrite drop_0 in *. cbn [take fdb_destinations flat_map].
           rewrite <- app_assoc. by apply Forall2_app.
        -- destruct (dump_out _).
           ++ destruct Hout as (f' & k & Hf' & Ha & Hk & ->).
              exists f', k. split_and!; try done. lia.
           ++ destruct Hout as [-> ->]. done.
Qed.

(** With room for every put the walk goes through. *)
Hypothesis info_room : forall skb f rd,
  Forall (eq true) (nl_room skb) ->
  exists skb' m, info skb f rd = (skb', inr m) /\ Forall (eq true) (nl_room skb').

Lemma vxlan_fdb_dump_remotes_room f rds skb :
  Forall (eq true) (nl_room skb) ->
  snd (vxlan_fdb_dump_remotes info f rds skb) = false
  /\ Forall (eq true) (nl_room (fst (vxlan_fdb_dump_remotes info f rds skb))).
Proof.
  revert skb. induction rds as [|rd rds IH]; intros skb Hroom;
    cbn [vxlan_fdb_dump_remotes]; [done|].
  destruct (info_room skb f rd Hroom) as (skb1 & m & -> & Hroom1). by apply IH.
Qed.

Lemma vxlan_fdb_dump_chain_room l d :
  Forall (eq true) (nl_room (dump_skb d)) -> dump_out d = false ->
  dump_out (vxlan_fdb_dump_chain info args0 l d) = false.
Proof.
  revert d. induction l as [|f l IH]; intros d Hroom Hd;
    cbn [vxlan_fdb_dump_chain]; [done|]. rewrite Hd.
  destruct (dump_idx d <? args0); [by apply IH|].
  destruct (vxlan_fdb_dump_remotes_room f (remotes f) _ Hroom) as [He Hr].
  destruct (vxlan_fdb_dump_remotes _ _ _ _) as [skb1 err]. cbn [fst snd] in *.
  subst err. by apply IH.
Qed.
End dump.

Lemma vxlan_fdb_find_rdst_self f rd :
  rd ∈ remotes f ->
  vxlan_fdb_find_rdst f (remote_ip rd) (remote_port rd) (remote_vni rd)
    (remote_ifindex rd) = Some rd.
Proof.
  unfold vxlan_fdb_find_rdst. induction (remotes f) as [|rd' l IH]; intros Hin.
  - by apply not_elem_of_nil in Hin.
  - cbn [find]. destruct (rdst_is _ _ _ _ rd') eqn:Hrd.
    + unfold rdst_is in Hrd.
      apply andb_prop in Hrd as [Hrd H4]. apply andb_prop in Hrd as [Hrd H3].
      apply andb_prop in Hrd as [H1 H2].
      apply Z.eqb_eq in H1, H2, H3, H4. destruct rd, rd'. cbn in *. by subst.
    + apply elem_of_cons in Hin as [->|Hin]; [|by apply IH].
      unfold rdst_is in Hrd. by rewrite !Z.eqb_refl in Hrd.
Qed.

(** X23. What [vxlan_fdb_info] writes is what [vxlan_fdb_parse] reads: a
    message built for a destination of an entry (any type but
    RTM_GETNEIGH) carries the address, state and flags of the entry, and
    its attributes, given to [vxlan_fdb_parse] on the same device, are
    accepted and give back the address, VNI and interface of the
    destination, and its port, or the port of the device for a destination
    whose port is 0, provided the interface, when there is one, still
    exists.  For a destination with a port, the values parsed are those
    under which [vxlan_fdb_find_rdst] finds it in the entry. *)
Theorem X23_info_parse_roundtrip j2c jiffies ifindex dev_get_by_index skb v f
    portid seq type nlm_flags rd skb' m :
  vxlan_fdb_info j2c jiffies ifindex skb v f portid seq type nlm_flags rd
  = (skb', inr m) ->
  type <> RTM_GETNEIGH ->
  remote_ifindex rd = 0 \/ dev_get_by_index (remote_ifindex rd) = true ->
  let port := if remote_port rd =? 0 then dst_port v else remote_port rd in
  nl_msgs skb' = nl_msgs skb ++ [m]
  /\ nlmsg_type (nlh m) = type
  /\ Neigh.ndm_family (ndm m) = AF_BRIDGE
  /\ Neigh.ndm_state (ndm m) = state f
  /\ Neigh.ndm_flags (ndm m) = flags f
  /\ NDA_LLADDR m = Some (ETH_ALEN, eth_addr f)
  /\ vxlan_fdb_parse dev_get_by_index (nda_tb m) v
     = inr (remote_ip rd, port, remote_vni rd, remote_ifindex rd)
  /\ (rd ∈ remotes f -> remote_port rd <> 0 ->
      vxlan_fdb_find_rdst f (remote_ip rd) port (remote_vni rd) (remote_ifindex rd)
      = Some rd).
Proof.
  intros Hi Htype Hif port.
  apply vxlan_fdb_info_msg in Hi
    as (Hms & Hh & Hn & Hll & Hdst & Hport & Hvni & Hifx & _).
  apply Z.eqb_neq in Htype. rewrite Htype in *. cbn [andb] in *.
  rewrite Hh, Hn. cbn [nlmsg_type Neigh.ndm_family Neigh.ndm_state Neigh.ndm_flags].
  split_and!; try done.
  - unfold vxlan_fdb_parse. rewrite Hdst, Hport, Hvni, Hifx. subst port.
    rewrite Z.eqb_refl. cbn [negb].
    destruct (remote_port rd =? 0) eqn:Hp; cbn [orb].
    + destruct (remote_vni rd =? _) eqn:Hv;
        [apply Z.eqb_eq in Hv; rewrite <- Hv|rewrite Z.eqb_refl; cbn [negb]].
      all: destruct (remote_ifindex rd =? 0) eqn:Hx;
        [apply Z.eqb_eq in Hx; by rewrite Hx|].
      all: apply Z.eqb_neq in Hx; destruct Hif as [?|Hdev]; [done|];
        by rewrite Z.eqb_refl, Hdev.
    + destruct (remote_port rd =? dst_port v) eqn:Hpd;
        [apply Z.eqb_eq in Hpd; rewrite <- Hpd|rewrite Z.eqb_refl; cbn [negb]].
      all: destruct (remote_vni rd =? _) eqn:Hv;
        [apply Z.eqb_eq in Hv; rewrite <- Hv|rewrite Z.eqb_refl; cbn [negb]].
      all: destruct (remote_ifindex rd =? 0) eqn:Hx;
        [apply Z.eqb_eq in Hx; by rewrite Hx|].
      all: apply Z.eqb_neq in Hx; destruct Hif as [?|Hdev]; [done|];
        by rewrite Z.eqb_refl, Hdev.
  - intros Hin Hp. subst port. apply Z.eqb_neq in Hp. rewrite Hp.
    by apply vxlan_fdb_find_rdst_self.
Qed.

Lemma X23_info_parse_roundtrip_witness :
  let v := vxlan example_learned in
  let rd := Rdst 0x0a000005 4790 11 0 in
  let f := Fdb 1000 2000 [rd] NUD_REACHABLE NTF_SELF mac_aa01 in
  exists skb' m,
    vxlan_fdb_info (fun j => j) 5000 3 (NlSkb [true] []) v f 0 7 RTM_NEWNEIGH
      NLM_F_MULTI rd = (skb', inr m)
    /\ vxlan_fdb_parse (fun _ => false) (nda_tb m) v = inr (0x0a000005, 4790, 11, 0).
Proof.
  intros v rd f. eexists _, _. split; [vm_compute; reflexivity|].
  refine (proj1 (proj2 (proj2 (proj2 (proj2 (proj2 (proj2
    (X23_info_parse_roundtrip (fun j => j) 5000 3 (fun _ => false) (NlSkb [true] [])
       v f 0 7 RTM_NEWNEIGH NLM_F_MULTI rd _ _ _ _ _)))))))).
  - vm_compute. reflexivity.
  - done.
  - by left.
Defined.

(** X24. [vxlan_fdb_dump] started at count [idx] passes [n] entries of the
    table in the order of the hash chains and returns [idx + n].  It adds
    one message per destination, in list order, for each passed entry
    counted [cb->args[0]] or more, and none for those counted less.  It
    stops before the end ([n] less than the number of entries) only when
    [vxlan_fdb_info] fails, on an entry counted [cb->args[0]] or more, of
    which some but not all destinations have then got their message; that
    entry is not counted.  With room for every put it passes the whole
    table. *)
Theorem X24_dump_records j2c jiffies ifindex pid seq args0 skb v idx :
  0 <= idx ->
  idx + Z.of_nat (length (fdb_entries v)) < 2 ^ 31 ->
  let r := vxlan_fdb_dump j2c jiffies ifindex pid seq args0 skb v idx in
  exists (n : nat) ms rest,
    snd r = idx + Z.of_nat n
    /\ (n <= length (fdb_entries v))%nat
    /\ nl_msgs (fst r) = nl_msgs skb ++ ms
    /\ Forall2 (dump_record j2c jiffies ifindex pid seq v) ms
         (fdb_destinations (drop (Z.to_nat (args0 - idx)) (take n (fdb_entries v)))
          ++ rest)
    /\ (n = length (fdb_entries v) -> rest = [])
    /\ ((n < length (fdb_entries v))%nat ->
        exists f k,
          fdb_entries v !! n = Some f /\ args0 <= snd r
          /\ (k < length (remotes f))%nat
          /\ rest = map (pair f) (take k (remotes f)))
    /\ (Forall (eq true) (nl_room skb) -> n = length (fdb_entries v)).
Proof.
  intros H0 Hlen r. subst r. unfold vxlan_fdb_dump. cbv zeta. cbn [fst snd].
  rewrite vxlan_fdb_dump_chains. fold (fdb_entries v).
  set (info := fun skb f rd =>
         vxlan_fdb_info j2c jiffies ifindex skb v f pid seq RTM_NEWNEIGH
           NLM_F_MULTI rd).
  assert (forall skb f rd skb' m,
            info skb f rd = (skb', inr m) -> nl_msgs skb' = nl_msgs skb ++ [m])
    as Hok.
  { intros ????? Hi. by apply vxlan_fdb_info_msg in Hi as [? _]. }
  assert (forall skb f rd skb' e,
            info skb f rd = (skb', inl e) -> nl_msgs skb' = nl_msgs skb) as Herr.
  { intros ????? Hi. by apply vxlan_fdb_info_err in Hi as [_ ?]. }
  destruct (vxlan_fdb_dump_chain_spec info args0 Hok Herr (fdb_entries v) skb idx
              H0 Hlen) as (n & ms & rest & Hidx & Hms & Hrec & Hout).
  pose proof (vxlan_fdb_dump_chain_room info args0
                (fun skb f rd => vxlan_fdb_info_room j2c jiffies ifindex skb v f
                                   pid seq RTM_NEWNEIGH NLM_F_MULTI rd)
                (fdb_entries v) (Dump skb idx false)) as Hroom.
  cbn [dump_skb dump_out] in Hroom.
  destruct (dump_out _) eqn:Ho.
  - destruct Hout as (f & k & Hf & Ha & Hk & ->).
    pose proof (lookup_lt_Some _ _ _ Hf) as Hn.
    exists n, ms, (map (pair f) (take k (remotes f))).
    split_and!; try done; try lia.
    + intros _. exists f, k. split_and!; try done. lia.
    + intros Hr. by specialize (Hroom Hr eq_refl).
  - destruct Hout as [-> ->]. exists (length (fdb_entries v)), ms, [].
    split_and!; try done. lia.
Qed.

Lemma X24_dump_records_witness :
  let v := vxlan example_learned in
  let r := vxlan_fdb_dump (fun j => j) 5000 3 0 7 1
             (NlSkb (repeat true 12 ++ [false]) []) v 0 in
  exists (n : nat) ms rest,
    snd r = 0 + Z.of_nat n
    /\ (n <= length (fdb_entries v))%nat
    /\ nl_msgs (fst r) = [] ++ ms
    /\ Forall2 (dump_record (fun j => j) 5000 3 0 7 v) ms
         (fdb_destinations (drop (Z.to_nat (1 - 0)) (take n (fdb_entries v))) ++ rest)
    /\ (n = length (fdb_entries v) -> rest = [])
    /\ ((n < length (fdb_entries v))%nat ->
        exists f k,
          fdb_entries v !! n = Some f /\ 1 <= snd r
          /\ (k < length (remotes f))%nat
          /\ rest = map (pair f) (take k (remotes f)))
    /\ (Forall (eq true) (repeat true 12 ++ [false]) -> n = length (fdb_entries v)).
Proof.
  apply (X24_dump_records (fun j => j) 5000 3 0 7 1
           (NlSkb (repeat true 12 ++ [false]) []) (vxlan example_learned) 0).
  - done.
  - apply Z.ltb_lt. vm_compute. reflexivity.
Defined.

(** X25. A dump that was cut short is completed by the next call.  When a
    first call of [vxlan_fdb_dump] returns [idx1] and a second call, given
    [idx1] as [cb->args[0]] and a buffer with room, walks the same table,
    the second call returns the number of entries and adds a message for
    every destination of every entry from number [idx1] on, so that the
    two calls together cover every destination of every entry counted
    [cb->args[0]] of the first call or more.  The only destinations that
    get a message in both calls are those of entry [idx1] that the first
    call served before it stopped. *)
Theorem X25_dump_resumed j2c jiffies jiffies' ifindex pid seq seq' args0 skb1 skb2 v :
  Z.of_nat (length (fdb_entries v)) < 2 ^ 31 ->
  Forall (eq true) (nl_room skb2) ->
  let r1 := vxlan_fdb_dump j2c jiffies ifindex pid seq args0 skb1 v 0 in
  let r2 := vxlan_fdb_dump j2c jiffies' ifindex pid seq' (snd r1) skb2 v 0 in
  exists (n : nat) ms1 rest ms2,
    snd r1 = Z.of_nat n
    /\ snd r2 = Z.of_nat (length (fdb_entries v))
    /\ nl_msgs (fst r1) = nl_msgs skb1 ++ ms1
    /\ nl_msgs (fst r2) = nl_msgs skb2 ++ ms2
    /\ Forall2 (dump_record j2c jiffies ifindex pid seq v) ms1
         (fdb_destinations (drop (Z.to_nat args0) (take n (fdb_entries v))) ++ rest)
    /\ Forall2 (dump_record j2c jiffies' ifindex pid seq' v) ms2
         (fdb_destinations (drop n (fdb_entries v)))
    /\ (exists k, rest = take k (fdb_destinations (take 1 (drop n (fdb_entries v)))))
    /\ fdb_destinations (take n (fdb_entries v))
       ++ fdb_destinations (drop n (fdb_entries v))
       = fdb_destinations (fdb_entries v).
Proof.
  intros Hlen Hroom2 r1 r2. subst r1 r2. unfold vxlan_fdb_dump. cbv zeta.
  cbn [fst snd]. rewrite !vxlan_fdb_dump_chains. fold (fdb_entries v).
  assert (forall j s,
            let info := fun skb f rd =>
              vxlan_fdb_info j2c j ifindex skb v f pid s RTM_NEWNEIGH NLM_F_MULTI rd in
            (forall skb f rd skb' m,
               info skb f rd = (skb', inr m) -> nl_msgs skb' = nl_msgs skb ++ [m])
            /\ (forall skb f rd skb' e,
                  info skb f rd = (skb', inl e) -> nl_msgs skb' = nl_msgs skb))
    as Hinfo.
  { intros j s info. split; intros ????? Hi.
    - by apply vxlan_fdb_info_msg in Hi as [? _].
    - by apply vxlan_fdb_info_err in Hi as [_ ?]. }
  destruct (Hinfo jiffies seq) as [Hok1 Herr1].
  destruct (Hinfo jiffies' seq') as [Hok2 Herr2]. clear Hinfo.
  destruct (vxlan_fdb_dump_chain_spec _ args0 Hok1 Herr1 (fdb_entries v) skb1 0)
    as (n & ms1 & rest & Hidx1 & Hms1 & Hrec1 & Hout1); [done|lia|].
  rewrite Hidx1, Z.add_0_l.
  destruct (vxlan_fdb_dump_chain_spec _ (Z.of_nat n) Hok2 Herr2 (fdb_entries v) skb2 0)
    as (n2 & ms2 & rest2 & Hidx2 & Hms2 & Hrec2 & Hout2); [done|lia|].
  pose proof (vxlan_fdb_dump_chain_room _ (Z.of_nat n)
                (fun skb f rd => vxlan_fdb_info_room j2c jiffies' ifindex skb v f
                                   pid seq' RTM_NEWNEIGH NLM_F_MULTI rd)
                (fdb_entries v) (Dump skb2 0 false) Hroom2 eq_refl) as Hgo.
  rewrite Hgo in Hout2. destruct Hout2 as [-> ->].
  rewrite Z.sub_0_r in *. rewrite Nat2Z.id, firstn_all, app_nil_r in Hrec2.
  exists n, ms1, rest, ms2. split_and!; try done.
  - destruct (dump_out _).
    + destruct Hout1 as (f & k & Hf & _ & _ & ->). exists k.
      rewrite (drop_S _ _ _ Hf).
      replace (take 1 (f :: drop (S n) (fdb_entries v))) with [f]
        by (cbn [take]; by rewrite take_0).
      unfold fdb_destinations. cbn [flat_map]. rewrite app_nil_r.
      by rewrite firstn_map.
    + destruct Hout1 as [_ ->]. by exists 0%nat.
  - unfold fdb_destinations. rewrite <- flat_map_app. by rewrite take_drop.
Qed.

Lemma X25_dump_resumed_witness :
  let v := vxlan example_learned in
  let r1 := vxlan_fdb_dump (fun j => j) 5000 3 0 7 0
              (NlSkb (repeat true 12 ++ [false]) []) v 0 in
  let r2 := vxlan_fdb_dump (fun j => j) 6000 3 0 8 (snd r1) (NlSkb [] []) v 0 in
  exists (n : nat) ms1 rest ms2,
    snd r1 = Z.of_nat n
    /\ snd r2 = Z.of_nat (length (fdb_entries v))
    /\ nl_msgs (fst r1) = [] ++ ms1
    /\ nl_msgs (fst r2) = [] ++ ms2
    /\ Forall2 (dump_record (fun j => j) 5000 3 0 7 v) ms1
         (fdb_destinations (drop (Z.to_nat 0) (take n (fdb_entries v))) ++ rest)
    /\ Forall2 (dump_record (fun j => j) 6000 3 0 8 v) ms2
         (fdb_destinations (drop n (fdb_entries v)))
    /\ (exists k, rest = take k (fdb_destinations (take 1 (drop n (fdb_entries v)))))
    /\ fdb_destinations (take n (fdb_entries v))
       ++ fdb_destinations (drop n (fdb_entries v))
       = fdb_destinations (fdb_entries v).
Proof.
  apply (X25_dump_resumed (fun j => j) 5000 6000 3 0 7 8 0
           (NlSkb (repeat true 12 ++ [false]) []) (NlSkb [] [])
           (vxlan example_learned)).
  - apply Z.ltb_lt. vm_compute. reflexivity.
  - constructor.
Defined.

(** ** Ageing timer *)

(** X26. The ageing timer always fires in the future.  On a running device
    (clock values clear of the wrap), [vxlan_cleanup] at time [jiffies]
    re-arms the timer for a time strictly after [jiffies] and no later than
    [jiffies + FDB_AGE_INTERVAL]: no entry that stays is already due.  On a
    device that is not running it does not re-arm the timer and leaves the
    table and the notification log as they are; so after [vxlan_stop] a
    late run of the timer function changes nothing of what the flush
    left. *)
Theorem X26_age_timer_in_future HZ jiffies w :
  let v := vxlan w in
  let w' := vxlan_cleanup HZ jiffies w in
  (netif_running (dev v) = true ->
   0 <= jiffies -> 0 < HZ -> 0 <= age_interval v * HZ ->
   jiffies + FDB_AGE_INTERVAL HZ < 2 ^ 63 ->
   Forall (clock_ok HZ (age_interval v)) (fdb_entries v) ->
   exists next,
     age_timer (vxlan w') = Some next
     /\ jiffies < next <= jiffies + FDB_AGE_INTERVAL HZ)
  /\ (netif_running (dev v) = false ->
      age_timer (vxlan w') = None
      /\ fdb_head (vxlan w') = fdb_head v
      /\ addrcnt (vxlan w') = addrcnt v
      /\ rtnl w' = rtnl w
      /\ forall group_used,
           let stopped := fst (vxlan_stop group_used w) in
           vxlan_cleanup HZ jiffies stopped = stopped).
Proof.
  intros v w'. split.
  - intros Hup Hj HHZ HT Hnext Hclk.
    set (a0 := Walk (addrcnt v) (rtnl w) (ulong (jiffies + FDB_AGE_INTERVAL HZ))).
    assert (Ha0 : next_timer a0 = jiffies + FDB_AGE_INTERVAL HZ).
    { apply ulong_small. unfold FDB_AGE_INTERVAL in *. lia. }
    destruct (vxlan_cleanup_table_spec HZ jiffies (age_interval v) (fdb_head v) a0)
      as (_ & _ & He); try done.
    { unfold FDB_AGE_INTERVAL in *. lia. }
    { rewrite Ha0. unfold FDB_AGE_INTERVAL in *. lia. }
    subst w'. unfold vxlan_cleanup. fold v. rewrite Hup. cbn [negb]. fold a0.
    destruct (for_each_chain _ _ a0) as [tbl a]. cbn [snd] in He.
    cbn [vxlan age_timer set_age_timer]. exists (next_timer a). split; [done|].
    rewrite Ha0 in He. destruct He as (Hle & _ & [Heq|(f & Hin & Heq)]).
    + unfold FDB_AGE_INTERVAL in *. lia.
    + split; [|done]. rewrite Heq.
      apply List.filter_In in Hin as [Hin Hage].
      apply List.filter_In in Hin as [_ Hkeep].
      unfold aged_out in Hkeep. unfold ageable in Hage. rewrite Hage in Hkeep.
      cbn [andb negb] in Hkeep. apply negb_true_iff, Z.leb_gt in Hkeep.
      unfold expiry. lia.
  - intros Hdown. subst w'. unfold vxlan_cleanup. fold v. rewrite Hdown.
    cbn [negb vxlan set_vxlan set_age_timer age_timer fdb_head addrcnt rtnl].
    do 4 (split; [done|]).
    intros group_used. unfold vxlan_stop. cbn [fst].
    unfold vxlan_flush. cbn [vxlan set_vxlan].
    destruct (for_each_chain _ _ _) as [tbl a].
    cbn [vxlan set_fdb set_age_timer dev age_timer netif_running].
    fold v. rewrite Hdown. cbn [negb].
    unfold set_vxlan, set_age_timer, set_fdb. cbn. done.
Qed.

Lemma X26_age_timer_in_future_witness :
  exists next,
    age_timer (vxlan (vxlan_cleanup 100 40000 example_learned)) = Some next
    /\ 40000 < next <= 40000 + FDB_AGE_INTERVAL 100.
Proof.
  apply (proj1 (X26_age_timer_in_future 100 40000 example_learned)).
  - reflexivity.
  - lia.
  - lia.
  - vm_compute. discriminate.
  - vm_compute. reflexivity.
  - apply (bool_decide_unpack _). vm_compute. exact I.
Defined.
